(** * The execution and verification pipeline of the AI operations assistant

    A shallow embedding of [agents/executor.py] (the step executor with its
    retry loop, function inference and parameter projection, and the plan
    executor), of [agents/verifier.py] (the decision tree of the result
    verifier and its deterministic formatters), of the request handler of
    [main.py] and of the handlers of [tools/github_tool.py], followed by
    the properties the specification states about them and by further
    properties of the code.

    Conventions of the embedding.
    - Python values that travel through the pipeline (step parameters,
      handler payloads, error fields) are JSON-like and are terms of
      [pyval]; a float is held as its binary64 bit pattern.
    - A Python [str] is the [string] of its UTF-8 bytes.
    - What the interpreter supplies and the sources do not define (case
      mapping, [str()] of a non-string, [int()] and [float()], the iteration
      order of a [set]) is a field of the class [PyRuntime].
    - Tool handlers and the text-generation client act on the outside world:
      they are transitions of an abstract [World], and every such transition
      is recorded in a [trace].
    - A raised exception is an instance of [Exception], the class the
      [except] clauses of the sources catch; [time.sleep] returns normally.
    - Logging is omitted: it has no effect on the values returned. *)

From Stdlib Require Import ZArith String Ascii List.
From stdpp Require Import gmap strings list pretty.

Open Scope string_scope.
Open Scope Z_scope.

Set Warnings "-register-all".

(** ** Python values *)

Inductive pyval : Type :=
| PNone
| PBool (b : bool)
| PInt (z : Z)
| PFloat (bits : Z)
| PStr (s : string)
| PList (l : list pyval)
| PDict (d : list (string * pyval)).

(** [d.get(key)] on an insertion-ordered dict with string keys. *)
Fixpoint dict_get (key : string) (d : list (string * pyval)) : option pyval :=
  match d with
  | [] => None
  | (k, v) :: rest => if String.eqb k key then Some v else dict_get key rest
  end.

(** [key in d]. *)
Definition dict_has (key : string) (d : list (string * pyval)) : bool :=
  match dict_get key d with Some _ => true | None => false end.

(** Python truth value. A float, given by its binary64 bit pattern, is false
    exactly when it is [+0.0] or [-0.0]. *)
Definition truthy (v : pyval) : bool :=
  match v with
  | PNone => false
  | PBool b => b
  | PInt z => negb (z =? 0)
  | PFloat bits => negb (Z.land bits (2 ^ 63 - 1) =? 0)
  | PStr s => negb (String.eqb s "")
  | PList l => match l with [] => false | _ => true end
  | PDict d => match d with [] => false | _ => true end
  end.

(** [needle in hay] for two strings. *)
Definition contains (needle hay : string) : bool :=
  match index 0 needle hay with Some _ => true | None => false end.

(** The outcome of [int(v)] or [float(v)]: a value, a [ValueError] or
    [TypeError], or any other exception (with its text). *)
Inductive conversion : Type :=
| Converted (v : pyval)
| Rejected
| Failed (text : string).

Class PyRuntime : Type := {
  str_lower : string → string;
  str_upper : string → string;
  str_title : string → string;
  py_repr : pyval → string;
  py_int : pyval → conversion;
  py_float : pyval → conversion;
  set_to_list : gset string → list string;
  set_to_list_NoDup : ∀ s, NoDup (set_to_list s);
  set_to_list_elem_of : ∀ s x, x ∈ set_to_list s ↔ x ∈ s
}.

(** [f"{v}"]: a string is inserted as it is, anything else through [str()]. *)
Definition fmt `{PyRuntime} (v : pyval) : string :=
  match v with
  | PStr s => s
  | PNone => "None"
  | _ => py_repr v
  end.

(** [f"{name}"] for a name that is a string or [None]. *)
Definition fmt_name (name : option string) : string :=
  match name with
  | Some s => s
  | None => "None"
  end.

(** ** Plans, steps and step results *)

Record Step : Type := {
  s_step_id : pyval;
  s_tool : option string;
  s_function : string;
  s_action : string;
  s_parameters : gmap string pyval
}.

Record Plan : Type := {
  p_task : string;
  p_steps : list Step
}.

Record StepResult : Type := {
  r_step_id : pyval;
  r_tool : string;
  r_function : string;
  r_action : string;
  r_success : bool;
  r_data : pyval;
  r_error : pyval;
  r_attempts : Z
}.

Definition with_attempts (n : Z) (r : StepResult) : StepResult :=
  {| r_step_id := r_step_id r; r_tool := r_tool r; r_function := r_function r;
     r_action := r_action r; r_success := r_success r; r_data := r_data r;
     r_error := r_error r; r_attempts := n |}.

Definition with_error (e : pyval) (r : StepResult) : StepResult :=
  {| r_step_id := r_step_id r; r_tool := r_tool r; r_function := r_function r;
     r_action := r_action r; r_success := r_success r; r_data := r_data r;
     r_error := e; r_attempts := r_attempts r |}.

Definition with_success (payload : pyval) (r : StepResult) : StepResult :=
  {| r_step_id := r_step_id r; r_tool := r_tool r; r_function := r_function r;
     r_action := r_action r; r_success := true; r_data := payload;
     r_error := r_error r; r_attempts := r_attempts r |}.

(** The [results] dict of [execute_plan], without its start time. The key
    [error] is set for an empty plan only, for which [tools_used] is still
    the empty set. *)
Record ExecutionReport : Type := {
  x_plan : Plan;
  x_step_results : list StepResult;
  x_tools_used : list string;
  x_total_steps : Z;
  x_successful_steps : Z;
  x_failed_steps : Z;
  x_execution_time : pyval;
  x_error : option string
}.

(** ** The outside world *)

(** What a call of a handler produced: its return value, or the text
    [str(e)] of the [Exception] it raised. *)
Inductive outcome : Type :=
| Returned (v : pyval)
| Raised (text : string).

(** What the pipeline did to the outside world: it called a handler with
    the projected parameters, it slept between two attempts, or it consulted
    the text-generation capability. *)
Inductive event : Type :=
| Invoked (tool_name function_name : string) (args : gmap string pyval) (out : outcome)
| Slept
| Generated.

Section World.

Context {World : Type}.

Record Env : Type := {
  world : World;
  trace : list event
}.

Definition record_event (e : event) (w : World) (env : Env) : Env :=
  {| world := w; trace := trace env ++ [e] |}.

(** ** The capability registry *)

Definition handler : Type := gmap string pyval → World → outcome * World.

Record function_info : Type := {
  fi_description : string;
  fi_parameters : list string;
  fi_handler : option handler
}.

Record tool_info : Type := {
  ti_name : string;
  ti_description : string;
  ti_functions : gmap string function_info
}.

(** [TOOL_INFO] of [tools/github_tool.py]; its three handlers query the
    GitHub REST API. *)
Definition GITHUB_TOOL_INFO
    (search_repositories get_repository_details get_user_repos : handler) : tool_info :=
  {| ti_name := "github";
     ti_description :=
       "GitHub API integration for searching and retrieving repository information";
     ti_functions :=
       <["search_repositories" :=
           {| fi_description := "Search GitHub repositories by keyword";
              fi_parameters := ["query"; "limit"];
              fi_handler := Some search_repositories |}]>
       (<["get_repository_details" :=
           {| fi_description := "Get detailed information about a specific repository";
              fi_parameters := ["owner"; "repo"];
              fi_handler := Some get_repository_details |}]>
       (<["get_user_repos" :=
           {| fi_description := "Get public repositories for a GitHub user";
              fi_parameters := ["username"; "limit"];
              fi_handler := Some get_user_repos |}]> ∅)) |}.

(** [TOOLS_REGISTRY] of [tools/__init__.py]. The weather and news tool
    descriptions are imported from modules that are not among the sources;
    they are parameters here. *)
Definition TOOLS_REGISTRY (GITHUB WEATHER_TOOL_INFO NEWS_TOOL_INFO : tool_info)
    : gmap string tool_info :=
  <["github" := GITHUB]> (<["weather" := WEATHER_TOOL_INFO]> (<["news" := NEWS_TOOL_INFO]> ∅)).

(** ** The executor agent *)

Section Executor.

Context `{PyRuntime}.

(** [self.tools_registry] and [self.max_retries]; [pause] is the effect of
    [time.sleep(self.retry_delay)], and [elapsed w0 w1] is
    [round(time.time() - start, 2)] for a plan started in [w0] and ended in
    [w1]. *)
Variable tools_registry : gmap string tool_info.
Variable max_retries : Z.
Variable pause : World → World.
Variable elapsed : World → World → pyval.

Definition has_key (key : string) (parameters : gmap string pyval) : bool :=
  bool_decide (is_Some (parameters !! key)).

Definition _infer_function (tool_name : string) (step : Step) : option string :=
  let parameters := s_parameters step in
  let action := str_lower (s_action step) in
  if String.eqb tool_name "github" then
    if has_key "owner" parameters && has_key "repo" parameters then
      Some "get_repository_details"
    else if has_key "username" parameters then
      Some "get_user_repos"
    else
      Some "search_repositories"
  else if String.eqb tool_name "weather" then
    if has_key "lat" parameters && has_key "lon" parameters then
      Some "get_weather_by_coordinates"
    else
      Some "get_current_weather"
  else if String.eqb tool_name "news" then
    if contains "headline" action || contains "top" action then
      Some "get_top_headlines"
    else
      Some "search_news"
  else
    None.

(** The type conversion of one projected parameter: [inl text] when an
    exception other than [ValueError] and [TypeError] escapes. *)
Definition convert_param (param : string) (value : pyval) : string + pyval :=
  if bool_decide (param ∈ ["limit"; "lat"; "lon"]) then
    match (if String.eqb param "limit" then py_int value else py_float value) with
    | Converted v => inr v
    | Rejected => inr value
    | Failed text => inl text
    end
  else
    inr value.

Fixpoint clean_each (expected_params : list string) (parameters cleaned : gmap string pyval)
    : string + gmap string pyval :=
  match expected_params with
  | [] => inr cleaned
  | param :: rest =>
      match parameters !! param with
      | Some value =>
          match convert_param param value with
          | inr value' => clean_each rest parameters (<[param := value']> cleaned)
          | inl text => inl text
          end
      | None => clean_each rest parameters cleaned
      end
  end.

Definition _clean_parameters (parameters : gmap string pyval) (expected_params : list string)
    : string + gmap string pyval :=
  match expected_params with
  | [] => inr parameters
  | _ => clean_each expected_params parameters ∅
  end.

(** Lines 114-138 of [_execute_step]: the tool, the function and the handler
    a step resolves to, or the error message recorded when it does not. *)
Inductive resolution : Type :=
| Unresolved (message : string)
| Resolved (function_name : string) (expected_params : list string) (h : handler).

Definition bind_handler (functions : gmap string function_info) (function_name : string)
    : resolution :=
  match functions !! function_name with
  | Some function_info =>
      match fi_handler function_info with
      | Some h => Resolved function_name (fi_parameters function_info) h
      | None => Unresolved ("No handler found for function: " ++ function_name)
      end
  | None => Unresolved ("No handler found for function: " ++ function_name)
  end.

Definition resolve (tool_name : string) (step : Step) : resolution :=
  match tools_registry !! tool_name with
  | None => Unresolved ("Unknown tool: " ++ tool_name)
  | Some tool_info =>
      let functions := ti_functions tool_info in
      match functions !! s_function step with
      | Some _ => bind_handler functions (s_function step)
      | None =>
          let function_name := _infer_function tool_name step in
          match function_name with
          | Some inferred =>
              if String.eqb inferred "" then
                Unresolved ("Unknown function '" ++ fmt_name function_name
                            ++ "' for tool '" ++ tool_name ++ "'")
              else bind_handler functions inferred
          | None =>
              Unresolved ("Unknown function '" ++ fmt_name function_name
                          ++ "' for tool '" ++ tool_name ++ "'")
          end
      end
  end.

(** [isinstance(response, dict) and response.get("error")]: the error field
    of a response, [PNone] when the response is no dict or has none. *)
Definition response_error (response : pyval) : pyval :=
  match response with
  | PDict d => default PNone (dict_get "error" d)
  | _ => PNone
  end.

(** The body of the [try] up to the handler's return: projection of the
    parameters, then the call. *)
Definition attempt_call (tool_name function_name : string) (expected_params : list string)
    (h : handler) (parameters : gmap string pyval) (env : Env) : outcome * Env :=
  match _clean_parameters parameters expected_params with
  | inl text => (Raised text, env)
  | inr clean_params =>
      let '(out, w) := h clean_params (world env) in
      (out, record_event (Invoked tool_name function_name clean_params out) w env)
  end.

Definition sleep (env : Env) : Env :=
  record_event Slept (pause (world env)) env.

(** The [for attempt in range(self.max_retries)] loop, [todo] iterations
    from index [attempt] on. *)
Fixpoint retry_loop (tool_name function_name : string) (expected_params : list string)
    (h : handler) (parameters : gmap string pyval)
    (todo : nat) (attempt : Z) (result : StepResult) (env : Env) : StepResult * Env :=
  match todo with
  | O => (result, env)
  | S todo' =>
      let result := with_attempts (attempt + 1) result in
      match attempt_call tool_name function_name expected_params h parameters env with
      | (Returned response, env) =>
          if truthy (response_error response) then
            if attempt <? max_retries - 1 then
              retry_loop tool_name function_name expected_params h parameters
                todo' (attempt + 1) result (sleep env)
            else
              (with_error (response_error response) result, env)
          else
            (with_success response result, env)
      | (Raised text, env) =>
          if attempt <? max_retries - 1 then
            retry_loop tool_name function_name expected_params h parameters
              todo' (attempt + 1) result (sleep env)
          else
            retry_loop tool_name function_name expected_params h parameters
              todo' (attempt + 1) (with_error (PStr text) result) env
      end
  end.

Definition _execute_step (step : Step) (env : Env) : StepResult * Env :=
  let step_id := s_step_id step in
  let tool_name := str_lower (default "" (s_tool step)) in
  let function_name := s_function step in
  let parameters := s_parameters step in
  let result :=
    {| r_step_id := step_id; r_tool := tool_name; r_function := function_name;
       r_action := s_action step; r_success := false; r_data := PNone;
       r_error := PNone; r_attempts := 0 |} in
  match resolve tool_name step with
  | Unresolved message => (with_error (PStr message) result, env)
  | Resolved function_name expected_params h =>
      retry_loop tool_name function_name expected_params h parameters
        (Z.to_nat max_retries) 0 result env
  end.

(** The running part of the [results] dict of [execute_plan]. *)
Record Tally : Type := {
  t_step_results : list StepResult;
  t_tools_used : gset string;
  t_successful_steps : Z;
  t_failed_steps : Z
}.

Definition tally_step (step : Step) (step_result : StepResult) (acc : Tally) : Tally :=
  if r_success step_result then
    {| t_step_results := t_step_results acc ++ [step_result];
       t_tools_used := t_tools_used acc ∪ {[ default "unknown" (s_tool step) ]};
       t_successful_steps := t_successful_steps acc + 1;
       t_failed_steps := t_failed_steps acc |}
  else
    {| t_step_results := t_step_results acc ++ [step_result];
       t_tools_used := t_tools_used acc;
       t_successful_steps := t_successful_steps acc;
       t_failed_steps := t_failed_steps acc + 1 |}.

Fixpoint run_steps (steps : list Step) (acc : Tally) (env : Env) : Tally * Env :=
  match steps with
  | [] => (acc, env)
  | step :: rest =>
      let '(step_result, env) := _execute_step step env in
      run_steps rest (tally_step step step_result acc) env
  end.

Definition execute_plan (plan : Plan) (env : Env) : ExecutionReport * Env :=
  let steps := p_steps plan in
  match steps with
  | [] =>
      ({| x_plan := plan; x_step_results := []; x_tools_used := [];
          x_total_steps := Z.of_nat (length steps);
          x_successful_steps := 0; x_failed_steps := 0;
          x_execution_time := PInt 0;
          x_error := Some "No executable steps in plan" |}, env)
  | _ =>
      let '(acc, env') :=
        run_steps steps
          {| t_step_results := []; t_tools_used := ∅;
             t_successful_steps := 0; t_failed_steps := 0 |} env in
      ({| x_plan := plan; x_step_results := t_step_results acc;
          x_tools_used := set_to_list (t_tools_used acc);
          x_total_steps := Z.of_nat (length steps);
          x_successful_steps := t_successful_steps acc;
          x_failed_steps := t_failed_steps acc;
          x_execution_time := elapsed (world env) (world env');
          x_error := None |}, env')
  end.

End Executor.

(** ** The verifier agent *)

Record FailedStep : Type := {
  f_step_id : pyval;
  f_action : string;
  f_error : pyval
}.

(** The dict returned by [verify_and_format]. Each path fills its own keys:
    a key a path does not set is [None] here. *)
Record VerificationResult : Type := {
  v_is_complete : bool;
  v_formatted_answer : string;
  v_missing_info : option (list string);
  v_failed_steps : list FailedStep;
  v_suggestions : option (list string);
  v_successful_steps : option Z;
  v_total_steps : option Z
}.

(** Modelled from the spec: the reply of the text-generation capability
    ([llm/client.py] is not among the sources), a record holding at least
    the formatted answer, the completeness flag and the missing information. *)
Record Verification : Type := {
  g_formatted_answer : string;
  g_is_complete : bool;
  g_missing_info : list string;
  g_suggestions : option (list string)
}.

Definition nl : string := String "010"%char "".
Definition dquote : string := String "034"%char "".

(** ["\n".join(lines)]. *)
Definition join_lines (lines : list string) : string := String.concat nl lines.

(** A byte that continues a UTF-8 character. *)
Definition is_continuation (c : ascii) : bool :=
  let n := nat_of_ascii c in
  (Nat.leb 128 n && Nat.ltb n 192)%bool.

(** The characters of a string held as UTF-8 text. *)
Fixpoint str_chars (s : string) : list string :=
  match s with
  | EmptyString => []
  | String c rest =>
      match str_chars rest with
      | String c' tail :: chars =>
          if is_continuation c' then String c (String c' tail) :: chars
          else String c "" :: String c' tail :: chars
      | chars => String c "" :: chars
      end
  end.

(** [s[:n]]. *)
Definition str_take (n : nat) (s : string) : string :=
  String.concat "" (take n (str_chars s)).

Section Verifier.

Context `{PyRuntime}.

(** [self._ensure_initialized()] followed by [self.llm_client.verify_results];
    [None] when either raises. *)
Variable verify_results :
  string → Plan → list StepResult → World → option Verification * World.

(** The operations below raise on a value of the wrong type; [None] stands
    for the exception. *)

(** [v.get(key, dflt)]. *)
Definition py_get (key : string) (dflt : pyval) (v : pyval) : option pyval :=
  match v with
  | PDict d => Some (default dflt (dict_get key d))
  | _ => None
  end.

(** [v[key]] for a string key. *)
Definition py_getitem (key : string) (v : pyval) : option pyval :=
  match v with
  | PDict d => dict_get key d
  | _ => None
  end.

Definition is_str (s : string) (v : pyval) : bool :=
  match v with
  | PStr s' => String.eqb s' s
  | _ => false
  end.

(** [key in v] for a string key: a key of a dict, a substring of a string,
    an element of a list. *)
Definition py_in (key : string) (v : pyval) : option bool :=
  match v with
  | PDict d => Some (dict_has key d)
  | PStr s => Some (contains key s)
  | PList l => Some (existsb (is_str key) l)
  | _ => None
  end.

(** [v[:n]]. *)
Definition py_slice (n : nat) (v : pyval) : option pyval :=
  match v with
  | PList l => Some (PList (take n l))
  | PStr s => Some (PStr (str_take n s))
  | _ => None
  end.

(** The values a [for] loop draws from a list or a string. *)
Definition py_iter (v : pyval) : option (list pyval) :=
  match v with
  | PList l => Some l
  | PStr s => Some (PStr <$> str_chars s)
  | _ => None
  end.

(** [v.title()]. *)
Definition py_title (v : pyval) : option string :=
  match v with
  | PStr s => Some (str_title s)
  | _ => None
  end.

Definition github_repo_lines (repo : pyval) : option (list string) :=
  full_name ← py_get "full_name" PNone repo;
  description ← py_get "description" (PStr "No description") repo;
  stars ← py_get "stars" (PInt 0) repo;
  forks ← py_get "forks" (PInt 0) repo;
  language ← py_get "language" (PStr "N/A") repo;
  Some [ "- **" +:+ fmt full_name +:+ "**: " +:+ fmt description;
         "  ⭐ " +:+ fmt stars +:+ " | 🍴 " +:+ fmt forks
           +:+ " | Language: " +:+ fmt language ].

Definition _format_github_data (data : pyval) : option string :=
  lines ←
    (in_repositories ← py_in "repositories" data;
     if in_repositories : bool then
       repositories ← py_get "repositories" (PList []) data;
       first_five ← py_slice 5 repositories;
       repos ← py_iter first_five;
       mjoin <$> mapM github_repo_lines repos
     else
       in_repository ← py_in "repository" data;
       if in_repository : bool then
         repo ← py_getitem "repository" data;
         full_name ← py_get "full_name" PNone repo;
         description ← py_get "description" (PStr "No description") repo;
         stars ← py_get "stars" (PInt 0) repo;
         forks ← py_get "forks" (PInt 0) repo;
         primary_language ← py_get "primary_language" (PStr "N/A") repo;
         url ← py_get "url" (PStr "N/A") repo;
         Some [ "**" +:+ fmt full_name +:+ "**";
                "- Description: " +:+ fmt description;
                "- Stars: " +:+ fmt stars +:+ " | Forks: " +:+ fmt forks;
                "- Language: " +:+ fmt primary_language;
                "- URL: " +:+ fmt url ]
       else
         in_user ← py_in "user" data;
         if in_user : bool then
           user ← py_getitem "user" data;
           username ← py_get "username" PNone user;
           name ← py_get "name" (PStr "N/A") user;
           public_repos ← py_get "public_repos" (PInt 0) user;
           followers ← py_get "followers" (PInt 0) user;
           Some [ "**User: " +:+ fmt username +:+ "** (" +:+ fmt name +:+ ")";
                  "Public repos: " +:+ fmt public_repos
                    +:+ " | Followers: " +:+ fmt followers ]
         else
           Some []);
  Some (match lines with
        | [] => fmt data
        | _ => join_lines lines
        end).

Definition _format_weather_data (data : pyval) : option string :=
  success ← py_get "success" PNone data;
  if negb (truthy success) then
    error ← py_get "error" (PStr "Unknown error") data;
    Some ("Error: " +:+ fmt error)
  else
    location ← py_get "location" (PDict []) data;
    weather ← py_get "weather" (PDict []) data;
    temperature ← py_get "temperature" (PDict []) data;
    temp ← py_get "current" (PDict []) temperature;
    city ← py_get "city" (PStr "Unknown") location;
    country ← py_get "country" (PStr "") location;
    description ← py_get "description" (PStr "N/A") weather;
    conditions ← py_title description;
    celsius ← py_get "celsius" (PStr "N/A") temp;
    fahrenheit ← py_get "fahrenheit" (PStr "N/A") temp;
    humidity ← py_get "humidity" (PStr "N/A") data;
    wind ← py_get "wind" (PDict []) data;
    speed_ms ← py_get "speed_ms" (PStr "N/A") wind;
    Some (join_lines
      [ "**" +:+ fmt city +:+ ", " +:+ fmt country +:+ "**";
        "- Conditions: " +:+ conditions;
        "- Temperature: " +:+ fmt celsius +:+ "°C / " +:+ fmt fahrenheit +:+ "°F";
        "- Humidity: " +:+ fmt humidity +:+ "%";
        "- Wind: " +:+ fmt speed_ms +:+ " m/s" ]).

Definition news_article_lines (article : pyval) : option (list string) :=
  title ← py_get "title" (PStr "No title") article;
  source ← py_get "source" (PStr "Unknown") article;
  published_at ← py_get "published_at" PNone article;
  published ←
    (if truthy published_at then py_slice 10 published_at else Some (PStr "N/A"));
  description ← py_get "description" PNone article;
  summary ←
    (if truthy description then
       shortened ← py_slice 150 description;
       Some [ "  " +:+ fmt shortened +:+ "..." ]
     else Some []);
  Some ([ "- **" +:+ fmt title +:+ "**";
          "  Source: " +:+ fmt source +:+ " | " +:+ fmt published ] ++ summary)%list.

Definition _format_news_data (data : pyval) : option string :=
  articles ← py_get "articles" (PList []) data;
  first_five ← py_slice 5 articles;
  items ← py_iter first_five;
  lines ← mjoin <$> mapM news_article_lines items;
  Some (match lines with
        | [] => fmt data
        | _ => join_lines lines
        end).

Definition _format_tool_data (tool : string) (data : pyval) : option string :=
  if String.eqb tool "github" then _format_github_data data
  else if String.eqb tool "weather" then _format_weather_data data
  else if String.eqb tool "news" then _format_news_data data
  else Some (fmt data).

Definition failure_line (step : FailedStep) : string :=
  "- " +:+ f_action step +:+ ": " +:+ fmt (f_error step).

Definition _format_failure_note (failed_steps : list FailedStep) : string :=
  match failed_steps with
  | [] => ""
  | _ =>
      join_lines
        ((nl +:+ nl +:+ "**Note:** Some information could not be retrieved:")
           :: (failure_line <$> failed_steps))
  end.

Definition error_detail (step : FailedStep) : string :=
  "- Step " +:+ fmt (f_step_id step) +:+ ": " +:+ fmt (f_error step).

Definition _format_all_failed (original_task : string) (failed_steps : list FailedStep)
    : VerificationResult :=
  let error_details := error_detail <$> failed_steps in
  let formatted_answer :=
    "I was unable to complete your request: " +:+ dquote +:+ original_task +:+ dquote +:+ nl
    +:+ nl
    +:+ "All execution steps failed with the following errors:" +:+ nl
    +:+ join_lines error_details +:+ nl
    +:+ nl
    +:+ "**Suggestions:**" +:+ nl
    +:+ "- Check that all required API keys are configured in your .env file" +:+ nl
    +:+ "- Verify your internet connection" +:+ nl
    +:+ "- Try simplifying your query" +:+ nl
    +:+ "- Check if the requested resources exist (e.g., valid city names, repository names)" in
  {| v_is_complete := false;
     v_formatted_answer := formatted_answer;
     v_missing_info := Some ["All requested information due to execution failures"];
     v_failed_steps := failed_steps;
     v_suggestions :=
       Some [ "Verify API keys are configured";
              "Check internet connection";
              "Try a simpler query" ];
     v_successful_steps := None;
     v_total_steps := None |}.

(** The parts the loop of [_basic_format] appends for one step result. *)
Definition result_parts (result : StepResult) : option (list string) :=
  if r_success result then
    let tool := r_tool result in
    let data := r_data result in
    formatted ← _format_tool_data tool data;
    Some [ nl +:+ "**" +:+ str_upper tool +:+ " Results:**"; formatted ]
  else Some [].

(** [None] when a formatter raises: nothing catches the exception. *)
Definition _basic_format (original_task : string) (step_results : list StepResult)
    (failed_steps : list FailedStep) : option VerificationResult :=
  parts ← mjoin <$> mapM result_parts step_results;
  let formatted_parts :=
    (("**Results for:** " +:+ original_task +:+ nl) :: parts
     ++ match failed_steps with
        | [] => []
        | _ => [_format_failure_note failed_steps]
        end)%list in
  Some {| v_is_complete := bool_decide (length failed_steps = 0%nat);
          v_formatted_answer := join_lines formatted_parts;
          v_missing_info := None;
          v_failed_steps := failed_steps;
          v_suggestions := Some [];
          v_successful_steps := None;
          v_total_steps := None |}.

Definition failed_step_of (r : StepResult) : FailedStep :=
  {| f_step_id := r_step_id r; f_action := r_action r; f_error := r_error r |}.

Definition verify_and_format (original_task : string) (plan : Plan)
    (execution_results : ExecutionReport) (env : Env) : option VerificationResult * Env :=
  let step_results := x_step_results execution_results in
  match step_results with
  | [] =>
      (Some {| v_is_complete := false;
               v_formatted_answer :=
                 "No results were obtained. The execution plan was empty or all steps failed.";
               v_missing_info := Some ["All requested information"];
               v_failed_steps := [];
               v_suggestions := Some ["Please try rephrasing your query"];
               v_successful_steps := None;
               v_total_steps := None |}, env)
  | _ =>
      let failed_steps :=
        failed_step_of <$> filter (λ r, r_success r = false) step_results in
      let successful_results := filter (λ r, r_success r = true) step_results in
      match successful_results with
      | [] => (Some (_format_all_failed original_task failed_steps), env)
      | _ =>
          let '(reply, w) := verify_results original_task plan step_results (world env) in
          let env := record_event Generated w env in
          match reply with
          | Some verification =>
              let formatted_answer :=
                match failed_steps with
                | [] => g_formatted_answer verification
                | _ =>
                    if String.eqb (g_formatted_answer verification) "" then
                      g_formatted_answer verification
                    else
                      g_formatted_answer verification +:+ _format_failure_note failed_steps
                end in
              (Some {| v_is_complete := g_is_complete verification;
                       v_formatted_answer := formatted_answer;
                       v_missing_info := Some (g_missing_info verification);
                       v_failed_steps := failed_steps;
                       v_suggestions := g_suggestions verification;
                       v_successful_steps := Some (Z.of_nat (length successful_results));
                       v_total_steps := Some (Z.of_nat (length step_results)) |}, env)
          | None => (_basic_format original_task step_results failed_steps, env)
          end
      end
  end.

End Verifier.

End World.

(** ** Re-execution and the request handler *)

(** [get_steps_to_retry] of the verifier: the failed steps of a
    verification result. *)
Definition get_steps_to_retry (verification_result : VerificationResult)
    : list FailedStep :=
  v_failed_steps verification_result.

(** A failed-step dict, which has the keys [step_id], [action] and [error]
    only, read as a step by the [step.get(...)] lookups of the executor. *)
Definition step_of_failed (failed : FailedStep) : Step :=
  {| s_step_id := f_step_id failed; s_tool := None; s_function := "";
     s_action := f_action failed; s_parameters := ∅ |}.

(** [ExecutionMetadata], [QueryResponse] and the detail of an
    [HTTPException] of [main.py]. *)
Record ExecutionMetadata : Type := {
  m_steps_executed : Z;
  m_successful_steps : Z;
  m_failed_steps : Z;
  m_tools_used : list string;
  m_execution_time : pyval
}.

Record QueryResponse : Type := {
  q_success : bool;
  q_query : string;
  q_plan : Plan;
  q_execution_results : list StepResult;
  q_final_answer : string;
  q_metadata : ExecutionMetadata
}.

Record HTTPException : Type := {
  h_status_code : Z;
  h_error : string;
  h_message : pyval;
  h_suggestion : string
}.

(** The [except Exception] clause of [process_query]. *)
Definition internal_server_error (text : string) : HTTPException :=
  {| h_status_code := 500;
     h_error := "Internal server error";
     h_message := PStr text;
     h_suggestion := "Check your API keys and try again" |}.

Section Service.

Context `{PyRuntime} {World : Type}.

(** The registry, the pause and the clock of the executor, and the
    text-generation client of the verifier. *)
Variable tools_registry : gmap string (@tool_info World).
Variable max_retries : Z.
Variable pause : World → World.
Variable elapsed : World → World → pyval.
Variable verify_results :
  string → Plan → list StepResult → World → option Verification * World.

(** [execute_single_step] of the executor. *)
Definition execute_single_step (step : Step) (env : @Env World) : StepResult * Env :=
  _execute_step tools_registry max_retries pause step env.

(** What [process_query] takes from outside the sources: [str.strip];
    the planner ([agents/planner.py] is not among the sources), which raises
    (with a text) or returns a plan together with the value of its [error]
    key, if any; and the text of the exception a formatter of the fallback
    path raises on given inputs. *)
Variable str_strip : string → string.
Variable create_plan : string → World → (string + Plan * option pyval) * World.
Variable formatting_fault : string → list StepResult → string.

(** [process_query] of [main.py], for the executor and verifier given by the
    variables above. The request has passed validation. *)
Definition process_query (request_query : string) (env : @Env World)
    : (HTTPException + QueryResponse) * Env :=
  let start_time := world env in
  let query := str_strip request_query in
  let '(planned, w) := create_plan query (world env) in
  let env := {| world := w; trace := trace env |} in
  match planned with
  | inl text => (inl (internal_server_error text), env)
  | inr (plan, plan_error) =>
      match p_steps plan with
      | [] =>
          (inl {| h_status_code := 400;
                  h_error := "Failed to create execution plan";
                  h_message := default (PStr "No executable steps generated") plan_error;
                  h_suggestion := "Try rephrasing your query to be more specific" |},
           env)
      | _ =>
          let '(execution_results, env) :=
            execute_plan tools_registry max_retries pause elapsed plan env in
          let '(verification, env) :=
            verify_and_format verify_results query plan execution_results env in
          match verification with
          | None =>
              (inl (internal_server_error
                      (formatting_fault query (x_step_results execution_results))),
               env)
          | Some verification =>
              let total_time := elapsed start_time (world env) in
              (inr {| q_success :=
                        v_is_complete verification
                        || (0 <? x_successful_steps execution_results);
                      q_query := query;
                      q_plan := plan;
                      q_execution_results := x_step_results execution_results;
                      q_final_answer := v_formatted_answer verification;
                      q_metadata :=
                        {| m_steps_executed := x_total_steps execution_results;
                           m_successful_steps := x_successful_steps execution_results;
                           m_failed_steps := x_failed_steps execution_results;
                           m_tools_used := x_tools_used execution_results;
                           m_execution_time := total_time |} |},
               env)
          end
      end
  end.

End Service.

(** [max_retries] of the executor [get_executor] creates. *)
Definition default_max_retries : Z := 3.

(** ** The github tool

    The three handlers of [tools/github_tool.py] over [_make_request], the
    one function that talks to the network: it catches every exception and
    returns either the decoded reply or a dict with an [error] key, so it
    is a transition of the world that always returns a value. The handlers
    are modelled for an [int] limit; [None] stands for an exception they
    raise, and the world is the one reached when it is raised. *)

Definition is_list (v : pyval) : bool :=
  match v with
  | PList _ => true
  | _ => false
  end.

(** The stop index of [v[:stop]] for a sequence of [len] elements. *)
Definition slice_stop (stop : Z) (len : nat) : nat :=
  if 0 <=? stop then Z.to_nat stop else (len - Z.to_nat (- stop))%nat.

(** [v[:stop]] for a stop of either sign. *)
Definition py_slice_to (stop : Z) (v : pyval) : option pyval :=
  match v with
  | PList l => Some (PList (take (slice_stop stop (length l)) l))
  | PStr s => Some (PStr (str_take (slice_stop stop (length (str_chars s))) s))
  | _ => None
  end.

Section GithubTool.

Context `{PyRuntime} {World : Type}.

Variable _make_request : string → option (list (string * pyval)) → World → pyval * World.

(** The dict [search_repositories] builds for one item of the reply. *)
Definition search_entry (repo : pyval) : option pyval :=
  name ← py_get "name" PNone repo;
  full_name ← py_get "full_name" PNone repo;
  owner ← py_get "owner" (PDict []) repo;
  login ← py_get "login" PNone owner;
  description ← py_get "description" PNone repo;
  html_url ← py_get "html_url" PNone repo;
  stargazers_count ← py_get "stargazers_count" PNone repo;
  forks_count ← py_get "forks_count" PNone repo;
  language ← py_get "language" PNone repo;
  topics ← py_get "topics" (PList []) repo;
  created_at ← py_get "created_at" PNone repo;
  updated_at ← py_get "updated_at" PNone repo;
  open_issues_count ← py_get "open_issues_count" PNone repo;
  Some (PDict [("name", name); ("full_name", full_name); ("owner", login);
               ("description", description); ("url", html_url);
               ("stars", stargazers_count); ("forks", forks_count);
               ("language", language); ("topics", topics);
               ("created_at", created_at); ("updated_at", updated_at);
               ("open_issues", open_issues_count)]).

Definition search_repositories (query : pyval) (limit : Z) (w : World)
    : option pyval * World :=
  let limit := Z.min (Z.max 1 limit) 100 in
  let params := [("q", query); ("sort", PStr "stars"); ("order", PStr "desc");
                 ("per_page", PInt limit)] in
  let (result, w) := _make_request "/search/repositories" (Some params) w in
  (in_error ← py_in "error" result;
   if in_error : bool then Some result
   else
     items ← py_get "items" (PList []) result;
     first ← py_slice (Z.to_nat limit) items;
     repos ← py_iter first;
     repositories ← mapM search_entry repos;
     total_count ← py_get "total_count" (PInt 0) result;
     Some (PDict [("success", PBool true); ("query", query);
                  ("total_count", total_count);
                  ("returned_count", PInt (Z.of_nat (length repositories)));
                  ("repositories", PList repositories)]),
   w).

(** The dict [get_repository_details] builds for one contributor. *)
Definition contributor_entry (contributor : pyval) : option pyval :=
  login ← py_get "login" PNone contributor;
  contributions ← py_get "contributions" PNone contributor;
  Some (PDict [("username", login); ("contributions", contributions)]).

(** [result.get("license", {}).get("name") if result.get("license") else None]. *)
Definition license_name (result : pyval) : option pyval :=
  license ← py_get "license" PNone result;
  if truthy license then
    license ← py_get "license" (PDict []) result;
    py_get "name" PNone license
  else Some PNone.

(** The [repository] dict of [get_repository_details]. *)
Definition repository_entry (result languages : pyval) (top_contributors : list pyval)
    : option pyval :=
  name ← py_get "name" PNone result;
  full_name ← py_get "full_name" PNone result;
  owner ← py_get "owner" (PDict []) result;
  login ← py_get "login" PNone owner;
  description ← py_get "description" PNone result;
  html_url ← py_get "html_url" PNone result;
  homepage ← py_get "homepage" PNone result;
  stargazers_count ← py_get "stargazers_count" PNone result;
  forks_count ← py_get "forks_count" PNone result;
  watchers_count ← py_get "watchers_count" PNone result;
  open_issues_count ← py_get "open_issues_count" PNone result;
  language ← py_get "language" PNone result;
  topics ← py_get "topics" (PList []) result;
  license ← license_name result;
  created_at ← py_get "created_at" PNone result;
  updated_at ← py_get "updated_at" PNone result;
  pushed_at ← py_get "pushed_at" PNone result;
  default_branch ← py_get "default_branch" PNone result;
  fork ← py_get "fork" PNone result;
  archived ← py_get "archived" PNone result;
  Some (PDict [("name", name); ("full_name", full_name); ("owner", login);
               ("description", description); ("url", html_url);
               ("homepage", homepage); ("stars", stargazers_count);
               ("forks", forks_count); ("watchers", watchers_count);
               ("open_issues", open_issues_count); ("primary_language", language);
               ("languages", languages); ("topics", topics); ("license", license);
               ("created_at", created_at); ("updated_at", updated_at);
               ("pushed_at", pushed_at); ("default_branch", default_branch);
               ("is_fork", fork); ("is_archived", archived);
               ("top_contributors", PList top_contributors)]).

Definition get_repository_details (owner repo : pyval) (w : World)
    : option pyval * World :=
  let base := "/repos/" +:+ fmt owner +:+ "/" +:+ fmt repo in
  let (result, w) := _make_request base None w in
  match py_in "error" result with
  | None => (None, w)
  | Some true => (Some result, w)
  | Some false =>
      let (languages_result, w) := _make_request (base +:+ "/languages") None w in
      match py_in "error" languages_result with
      | None => (None, w)
      | Some languages_failed =>
          let languages :=
            if languages_failed : bool then PDict [] else languages_result in
          let (contributors_result, w) :=
            _make_request (base +:+ "/contributors") (Some [("per_page", PInt 5)]) w in
          (contributors_failed ← py_in "error" contributors_result;
           top_contributors ←
             (if (negb contributors_failed && is_list contributors_result)%bool then
                first ← py_slice 5 contributors_result;
                contributors ← py_iter first;
                mapM contributor_entry contributors
              else Some []);
           repository ← repository_entry result languages top_contributors;
           Some (PDict [("success", PBool true); ("repository", repository)]),
           w)
      end
  end.

(** The dict [get_user_repos] builds for one repository of the reply. *)
Definition user_repo_entry (repo : pyval) : option pyval :=
  name ← py_get "name" PNone repo;
  full_name ← py_get "full_name" PNone repo;
  description ← py_get "description" PNone repo;
  html_url ← py_get "html_url" PNone repo;
  stargazers_count ← py_get "stargazers_count" PNone repo;
  forks_count ← py_get "forks_count" PNone repo;
  language ← py_get "language" PNone repo;
  updated_at ← py_get "updated_at" PNone repo;
  Some (PDict [("name", name); ("full_name", full_name);
               ("description", description); ("url", html_url);
               ("stars", stargazers_count); ("forks", forks_count);
               ("language", language); ("updated_at", updated_at)]).

(** The [user] dict of [get_user_repos]. *)
Definition user_entry (user_result : pyval) : option pyval :=
  login ← py_get "login" PNone user_result;
  name ← py_get "name" PNone user_result;
  bio ← py_get "bio" PNone user_result;
  public_repos ← py_get "public_repos" PNone user_result;
  followers ← py_get "followers" PNone user_result;
  following ← py_get "following" PNone user_result;
  html_url ← py_get "html_url" PNone user_result;
  Some (PDict [("username", login); ("name", name); ("bio", bio);
               ("public_repos", public_repos); ("followers", followers);
               ("following", following); ("profile_url", html_url)]).

Definition get_user_repos (username : pyval) (limit : Z) (w : World)
    : option pyval * World :=
  let (user_result, w) := _make_request ("/users/" +:+ fmt username) None w in
  match py_in "error" user_result with
  | None => (None, w)
  | Some true => (Some user_result, w)
  | Some false =>
      let params := [("sort", PStr "updated"); ("direction", PStr "desc");
                     ("per_page", PInt (Z.min limit 100))] in
      let (repos_result, w) :=
        _make_request ("/users/" +:+ fmt username +:+ "/repos") (Some params) w in
      (in_error ← py_in "error" repos_result;
       if in_error : bool then Some repos_result
       else
         first ← py_slice_to limit repos_result;
         repos ← py_iter first;
         repositories ← mapM user_repo_entry repos;
         user ← user_entry user_result;
         Some (PDict [("success", PBool true); ("user", user);
                      ("repositories", PList repositories);
                      ("returned_count", PInt (Z.of_nat (length repositories)))]),
       w)
  end.

End GithubTool.

(** ** A sample runtime, world and registry

    The properties below hold for every runtime, world and registry; the
    instances of this part serve the concrete runs. The sample runtime maps
    the case of ASCII letters, prints booleans and integers, converts
    integers, booleans and plain decimal strings with [int()] and floats
    with [float()], and lists a set in the order of [elements]. *)

Definition ascii_lower (c : ascii) : ascii :=
  let n := nat_of_ascii c in
  if (Nat.leb 65 n && Nat.leb n 90)%bool then ascii_of_nat (n + 32) else c.

Definition ascii_upper (c : ascii) : ascii :=
  let n := nat_of_ascii c in
  if (Nat.leb 97 n && Nat.leb n 122)%bool then ascii_of_nat (n - 32) else c.

Definition is_letter (c : ascii) : bool :=
  let n := nat_of_ascii (ascii_lower c) in
  (Nat.leb 97 n && Nat.leb n 122)%bool.

Fixpoint str_map (f : ascii → ascii) (s : string) : string :=
  match s with
  | EmptyString => EmptyString
  | String c rest => String (f c) (str_map f rest)
  end.

Fixpoint title_from (inside_word : bool) (s : string) : string :=
  match s with
  | EmptyString => EmptyString
  | String c rest =>
      String (if inside_word then ascii_lower c else ascii_upper c)
             (title_from (is_letter c) rest)
  end.

Definition digit_value (c : ascii) : option Z :=
  let n := nat_of_ascii c in
  if (Nat.leb 48 n && Nat.leb n 57)%bool then Some (Z.of_nat (n - 48)) else None.

Fixpoint decimal_from (acc : Z) (s : string) : option Z :=
  match s with
  | EmptyString => Some acc
  | String c rest =>
      match digit_value c with
      | Some d => decimal_from (10 * acc + d) rest
      | None => None
      end
  end.

Definition sample_int (v : pyval) : conversion :=
  match v with
  | PInt z => Converted (PInt z)
  | PBool b => Converted (PInt (if b then 1 else 0))
  | PStr (String c rest) =>
      match decimal_from 0 (String c rest) with
      | Some z => Converted (PInt z)
      | None => Rejected
      end
  | _ => Rejected
  end.

Definition sample_float (v : pyval) : conversion :=
  match v with
  | PFloat bits => Converted (PFloat bits)
  | _ => Rejected
  end.

Definition sample_repr (v : pyval) : string :=
  match v with
  | PNone => "None"
  | PBool true => "True"
  | PBool false => "False"
  | PInt z => pretty z
  | _ => "<object>"
  end.

#[local] Instance sample_runtime : PyRuntime := {|
  str_lower := str_map ascii_lower;
  str_upper := str_map ascii_upper;
  str_title := title_from false;
  py_repr := sample_repr;
  py_int := sample_int;
  py_float := sample_float;
  set_to_list := elements;
  set_to_list_NoDup := NoDup_elements;
  set_to_list_elem_of := elem_of_elements
|}.

(** The sample world counts the calls made to the outside. *)
Definition returning (payload : pyval) : @handler nat :=
  λ _ calls, (Returned payload, S calls).

Definition raising (text : string) : @handler nat :=
  λ _ calls, (Raised text, S calls).

(** Fails with [text] on the first [n] calls of the world, then returns. *)
Definition failing_first (n : nat) (text : string) (payload : pyval) : @handler nat :=
  λ _ calls, (if Nat.ltb calls n then Raised text else Returned payload, S calls).

Definition start : @Env nat := {| world := 0%nat; trace := [] |}.

Definition no_pause : nat → nat := id.

Definition no_clock : nat → nat → pyval := λ _ _, PFloat 0.

Definition repo_list : pyval :=
  PDict [("success", PBool true);
         ("repositories",
          PList [PDict [("full_name", PStr "rocq-prover/rocq");
                        ("description", PStr "The Rocq prover");
                        ("stars", PInt 5000); ("forks", PInt 700);
                        ("language", PStr "OCaml")]])].

Definition sunny : pyval :=
  PDict [("success", PBool true);
         ("weather", PDict [("description", PStr "clear sky")])].

Definition sample_github : @tool_info nat :=
  GITHUB_TOOL_INFO (returning repo_list) (returning repo_list) (returning repo_list).

Definition sample_weather : @tool_info nat :=
  {| ti_name := "weather";
     ti_description := "Weather lookup";
     ti_functions :=
       <["get_current_weather" :=
           {| fi_description := "Current weather of a city";
              fi_parameters := ["city"];
              fi_handler := Some (returning sunny) |}]>
       (<["get_weather_by_coordinates" :=
           {| fi_description := "Current weather at coordinates";
              fi_parameters := ["lat"; "lon"];
              fi_handler := Some (returning sunny) |}]> ∅) |}.

(** A news tool whose service is down: every call raises. *)
Definition sample_news (text : string) : @tool_info nat :=
  {| ti_name := "news";
     ti_description := "News lookup";
     ti_functions :=
       <["search_news" :=
           {| fi_description := "Search news articles";
              fi_parameters := ["query"; "limit"];
              fi_handler := Some (raising text) |}]>
       (<["get_top_headlines" :=
           {| fi_description := "Top headlines";
              fi_parameters := ["country"; "limit"];
              fi_handler := Some (raising text) |}]> ∅) |}.

Definition sample_registry : gmap string (@tool_info nat) :=
  TOOLS_REGISTRY sample_github sample_weather (sample_news "connection refused").

Definition make_step (id : Z) (tool function action : string)
    (parameters : list (string * pyval)) : Step :=
  {| s_step_id := PInt id; s_tool := Some tool; s_function := function;
     s_action := action; s_parameters := list_to_map parameters |}.

Definition github_step : Step :=
  make_step 1 "github" "search_repositories" "Search repositories about rocq"
    [("query", PStr "rocq"); ("limit", PInt 5)].

Definition weather_step : Step :=
  make_step 2 "weather" "get_current_weather" "Get the weather in Paris"
    [("city", PStr "Paris")].

Definition news_step : Step :=
  make_step 3 "news" "search_news" "Search news about proofs"
    [("query", PStr "proofs")].

(** * Properties of the pipeline *)

(** ** Vocabulary *)

Definition is_invocation (e : event) : bool :=
  match e with
  | Invoked _ _ _ _ => true
  | _ => false
  end.

(** The handler was called at least once during the events [evs]. *)
Definition invoked (evs : list event) : Prop := Exists (λ e, is_invocation e = true) evs.

Section Vocabulary.

Context `{PyRuntime} {World : Type}.

Variable tools_registry : gmap string (@tool_info World).
Variable max_retries : Z.
Variable pause : World → World.

(** An event the step executor may record for the handler [h] of
    [tool_name.function_name]: a pause, or a call with the outcome [h] gave. *)
Definition from_handler (tool_name function_name : string) (h : @handler World)
    (e : event) : Prop :=
  match e with
  | Invoked tn fn args out =>
      tn = tool_name ∧ fn = function_name ∧ ∃ w, (h args w).1 = out
  | Slept => True
  | Generated => False
  end.

(** The fault of the final attempt: raised by the call that ends the events,
    or by the projection of the parameters before the handler is reached. *)
Definition final_fault (tool_name function_name : string) (expected_params : list string)
    (parameters : gmap string pyval) (evs : list event) (text : string) : Prop :=
  _clean_parameters parameters expected_params = inl text
  ∨ ∃ args, last evs = Some (Invoked tool_name function_name args (Raised text)).

(** The three ways the retry loop, entered with [result] at attempt index
    [first] and recording [evs], ends after at least one attempt. *)
Inductive finished (tool_name function_name : string) (expected_params : list string)
    (parameters : gmap string pyval) (result : StepResult) (first : Z) (evs : list event)
    : StepResult → Prop :=
| finished_success n response args :
    first < n ≤ max_retries →
    truthy (response_error response) = false →
    last evs = Some (Invoked tool_name function_name args (Returned response)) →
    finished tool_name function_name expected_params parameters result first evs
      (with_success response (with_attempts n result))
| finished_soft_error response args :
    truthy (response_error response) = true →
    last evs = Some (Invoked tool_name function_name args (Returned response)) →
    finished tool_name function_name expected_params parameters result first evs
      (with_error (response_error response) (with_attempts max_retries result))
| finished_fault text :
    final_fault tool_name function_name expected_params parameters evs text →
    finished tool_name function_name expected_params parameters result first evs
      (with_error (PStr text) (with_attempts max_retries result)).

(** The normalized tool name of a step and the result [_execute_step]
    starts from. *)
Definition tool_name_of (step : Step) : string :=
  str_lower (default "" (s_tool step)).

Definition initial_result (step : Step) : StepResult :=
  {| r_step_id := s_step_id step; r_tool := tool_name_of step;
     r_function := s_function step; r_action := s_action step;
     r_success := false; r_data := PNone; r_error := PNone; r_attempts := 0 |}.

(** The events a run from [env] to [env'] added to the trace. *)
Definition new_events (env env' : @Env World) : list event :=
  drop (length (trace env)) (trace env').

(** The step resolved, and its final attempt raised the fault [text]. *)
Definition last_fault_of (step : Step) (env env' : @Env World) (text : string) : Prop :=
  ∃ function_name expected_params h,
    resolve tools_registry (tool_name_of step) step
      = Resolved function_name expected_params h
    ∧ final_fault (tool_name_of step) function_name expected_params
        (s_parameters step) (new_events env env') text.

(** A handler that raises a fault on every invocation. *)
Definition always_raises (h : @handler World) : Prop :=
  ∀ args w, ∃ text, (h args w).1 = Raised text.

(** The error message the specification gives for an unresolvable function. *)
Definition unknown_function_message (requested tool_name : string) : string :=
  "Unknown function '" +:+ requested +:+ "' for tool '" +:+ tool_name +:+ "'".

(** The invariant of a step result as the specification states it. *)
Definition result_invariant (r : StepResult) : Prop :=
  (r_success r = true → r_error r = PNone ∧ r_data r ≠ PNone)
  ∧ (r_success r = false → ∃ text, r_error r = PStr text ∧ text ≠ "").

(** The bounds on [attempts] as the specification states them. *)
Definition attempts_claim (step : Step) (env : @Env World) : Prop :=
  let run := _execute_step tools_registry max_retries pause step env in
  (invoked (new_events env run.2) → 1 ≤ r_attempts run.1 ≤ max_retries)
  ∧ (r_attempts run.1 = 0
     ↔ ∃ message, resolve tools_registry (tool_name_of step) step = Unresolved message).

(** The outcome of a step whose handler always raises, as the
    specification states it. *)
Definition persistent_fault_claim (step : Step) (env : @Env World) : Prop :=
  ∀ function_name expected_params h,
    resolve tools_registry (tool_name_of step) step
      = Resolved function_name expected_params h →
    always_raises h →
    let run := _execute_step tools_registry max_retries pause step env in
    r_success run.1 = false
    ∧ r_attempts run.1 = max_retries
    ∧ ∃ text, r_error run.1 = PStr text ∧ last_fault_of step env run.2 text.

(** A step result that belongs to a step: the step executor returned it for
    that step in some environment. *)
Definition result_of (step : Step) (r : StepResult) : Prop :=
  ∃ env, r = (_execute_step tools_registry max_retries pause step env).1.

End Vocabulary.

(** The tools of a sequence, each at its first occurrence. *)
Fixpoint first_occurrences (tools : list string) : list string :=
  match tools with
  | [] => []
  | t :: rest => t :: filter (λ t', t' ≠ t) (first_occurrences rest)
  end.

(** The name under which [execute_plan] records the tool of a step. *)
Definition recorded_tool (step : Step) : string := default "unknown" (s_tool step).

(** A registry with a fourth tool that declares no function. *)
Definition calendar_registry : gmap string (@tool_info nat) :=
  <["calendar" := {| ti_name := "calendar"; ti_description := "Calendar";
                     ti_functions := ∅ |}]> sample_registry.

Definition calendar_step : Step :=
  make_step 1 "calendar" "create_event" "Create an event" [].

(** Registries of one tool with one function, bound to a given handler. *)
Definition single_tool (h : @handler nat) : gmap string (@tool_info nat) :=
  {[ "probe" :=
       {| ti_name := "probe"; ti_description := "Probe";
          ti_functions :=
            {[ "ping" := {| fi_description := "Ping"; fi_parameters := [];
                            fi_handler := Some h |} ]} |} ]}.

Definition probe_step : Step := make_step 1 "probe" "ping" "Ping the service" [].

Definition coordinates_step : Step :=
  make_step 1 "weather" "" "Weather at a position" [("lat", PFloat 0); ("lon", PFloat 0)].

(** The recorded tools of the steps that succeeded, in plan order. *)
Definition successful_tools (steps : list Step) (results : list StepResult) : list string :=
  (λ p, recorded_tool p.1) <$> filter (λ p, r_success p.2 = true) (zip steps results).

(** The content of [tools_used] as the specification states it. *)
Definition tools_used_claim (plan : Plan) (report : ExecutionReport) : Prop :=
  x_tools_used report = first_occurrences (recorded_tool <$> p_steps plan).

Definition sample_plan (steps : list Step) : Plan :=
  {| p_task := "Find proof assistants and the weather in Paris"; p_steps := steps |}.

(** The failed steps [verify_and_format] extracts from the step results. *)
Definition failed_steps_of (step_results : list StepResult) : list FailedStep :=
  failed_step_of <$> filter (λ r, r_success r = false) step_results.

(** An answer that is not empty and ends with the note. *)
Definition note_appended (answer note : string) : Prop :=
  answer ≠ "" ∧ ∃ body, answer = body +:+ note.

(** The partial-failure note as the specification states it: whatever the
    path, the answer returned is not empty and ends with the note. *)
Definition partial_failure_claim `{PyRuntime} {World : Type}
    (verify_results : string → Plan → list StepResult → World → option Verification * World)
    (original_task : string) (plan : Plan) (report : ExecutionReport)
    (env : @Env World) : Prop :=
  ∀ v, (verify_and_format verify_results original_task plan report env).1 = Some v →
       note_appended (v_formatted_answer v)
         (_format_failure_note (failed_steps_of (x_step_results report))).

(** Text-generation clients of the sample world: one that is unavailable,
    one that replies with a given answer. *)
Definition llm_down : string → Plan → list StepResult → nat → option Verification * nat :=
  λ _ _ _ calls, (None, S calls).

Definition llm_answering (answer : string)
    : string → Plan → list StepResult → nat → option Verification * nat :=
  λ _ _ _ calls,
    (Some {| g_formatted_answer := answer; g_is_complete := false;
             g_missing_info := []; g_suggestions := None |}, S calls).

(** The report of a plan whose github step succeeds and whose news step
    fails, and the report of a plan whose only step fails. *)
Definition mixed_report : ExecutionReport :=
  (execute_plan sample_registry 3 no_pause no_clock
     (sample_plan [github_step; news_step]) start).1.

Definition failed_report : ExecutionReport :=
  (execute_plan sample_registry 3 no_pause no_clock
     (sample_plan [news_step]) start).1.

(** Counting the events of a run. *)
Definition is_pause (e : event) : bool :=
  match e with
  | Slept => true
  | _ => false
  end.

Definition is_generation (e : event) : bool :=
  match e with
  | Generated => true
  | _ => false
  end.

Definition count_pauses (evs : list event) : nat :=
  length (filter (λ e, is_pause e = true) evs).

Definition count_invocations (evs : list event) : nat :=
  length (filter (λ e, is_invocation e = true) evs).

(** The arguments of every call among the events are [args]. *)
Definition called_with (args : gmap string pyval) (e : event) : Prop :=
  match e with
  | Invoked _ _ args' _ => args' = args
  | _ => True
  end.

(** A value that [v[:n]] accepts. *)
Definition sliceable (v : pyval) : bool :=
  match v with
  | PStr _ | PList _ => true
  | _ => false
  end.

(** An article the news formatter renders without raising: a dict whose
    publication date and description, when truthy, can be sliced. *)
Definition article_renders (article : pyval) : bool :=
  match article with
  | PDict fields =>
      let published_at := default PNone (dict_get "published_at" fields) in
      let description := default PNone (dict_get "description" fields) in
      (negb (truthy published_at) || sliceable published_at)
      && (negb (truthy description) || sliceable description)
  | _ => false
  end.





(** More sample inputs: a step for a tool that is not registered; a
    registry whose weather tool knows cities only; a failed step as the
    verifier reports it; a well-formed article and repository. *)
Definition slack_step : Step :=
  make_step 7 "Slack" "post_message" "Post a message" [].

Definition city_weather : @tool_info nat :=
  {| ti_name := "weather"; ti_description := "Weather lookup";
     ti_functions :=
       {[ "get_current_weather" :=
            {| fi_description := "Current weather of a city";
               fi_parameters := ["city"];
               fi_handler := Some (returning sunny) |} ]} |}.

Definition city_weather_registry : gmap string (@tool_info nat) :=
  {[ "weather" := city_weather ]}.

Definition reported_failure : FailedStep :=
  {| f_step_id := PInt 3; f_action := "Search news about proofs";
     f_error := PStr "connection refused" |}.

Definition sample_article : pyval :=
  PDict [("title", PStr "Proofs in the news"); ("source", PStr "The Gazette");
         ("published_at", PStr "2024-05-06T10:00:00Z");
         ("description", PStr "short")].

Definition sample_repository : pyval :=
  PDict [("full_name", PStr "rocq-prover/rocq");
         ("description", PStr "The Rocq prover");
         ("stars", PInt 5000); ("forks", PInt 700); ("language", PStr "OCaml")].

(** Replies of the GitHub API the handlers can read. *)
Definition is_dict (v : pyval) : bool :=
  match v with
  | PDict _ => true
  | _ => false
  end.

(** An item whose owner, if it has one, is a dict. *)
Definition owner_ok (repo : pyval) : bool :=
  match repo with
  | PDict d => is_dict (default (PDict []) (dict_get "owner" d))
  | _ => false
  end.

(** A repository whose license, if it has a truthy one, is a dict. *)
Definition license_ok (repo : pyval) : bool :=
  match repo with
  | PDict d =>
      let license := default PNone (dict_get "license" d) in
      (negb (truthy license) || is_dict license)%bool
  | _ => false
  end.

(** The requests of a handler run, counted by the sample world. A sample
    API that knows one user, that user's three repositories and one
    repository, and answers anything else with the dict [_make_request]
    returns on status 404; and one that answers every request with the same
    reply. *)
Definition not_found : pyval :=
  PDict [("error", PStr "Resource not found"); ("status_code", PInt 404)].

Definition raw_repository (name : string) : pyval :=
  PDict [("name", PStr name); ("full_name", PStr ("octocat/" +:+ name));
         ("owner", PDict [("login", PStr "octocat")]);
         ("stargazers_count", PInt 12); ("forks_count", PInt 3);
         ("license", PNone)].

Definition sample_api
    : string → option (list (string * pyval)) → nat → pyval * nat :=
  λ endpoint _ requests,
    (if String.eqb endpoint "/users/octocat" then
       PDict [("login", PStr "octocat"); ("public_repos", PInt 3)]
     else if String.eqb endpoint "/users/octocat/repos" then
       PList [raw_repository "alpha"; raw_repository "beta"; raw_repository "gamma"]
     else if String.eqb endpoint "/repos/octocat/alpha" then
       raw_repository "alpha"
     else not_found,
     S requests).

Definition replying (reply : pyval)
    : string → option (list (string * pyval)) → nat → pyval * nat :=
  λ _ _ requests, (reply, S requests).

Definition search_reply : pyval :=
  PDict [("total_count", PInt 2);
         ("items", PList [raw_repository "alpha"; raw_repository "beta"])].

(** [str.strip] on ASCII whitespace, for the sample runs. *)
Definition is_space (c : ascii) : bool :=
  let n := nat_of_ascii c in
  (Nat.eqb n 32 || (Nat.leb 9 n && Nat.leb n 13))%bool.

Fixpoint strip_left (s : string) : string :=
  match s with
  | String c rest => if is_space c then strip_left rest else s
  | EmptyString => EmptyString
  end.

Definition sample_strip (s : string) : string :=
  String.rev (strip_left (String.rev (strip_left s))).

(** Planners of the sample world: one that returns the given steps, one
    that raises. *)
Definition planner_returning (steps : list Step)
    : string → nat → (string + Plan * option pyval) * nat :=
  λ query calls, (inr ({| p_task := query; p_steps := steps |}, None), S calls).

Definition planner_down : string → nat → (string + Plan * option pyval) * nat :=
  λ _ calls, (inl "planner unavailable", S calls).

Definition sample_fault_text : string → list StepResult → string :=
  λ _ _, "'NoneType' object has no attribute 'get'".

(** ** The retry loop *)

Section RetryLoop.

Context `{PyRuntime} {World : Type}.

Variable max_retries : Z.
Variable pause : World → World.

Lemma attempt_call_cases tn fn ex (h : @handler World) ps env out env1 :
  attempt_call tn fn ex h ps env = (out, env1) →
  (∃ text, _clean_parameters ps ex = inl text ∧ out = Raised text ∧ env1 = env)
  ∨ (∃ args w, _clean_parameters ps ex = inr args
       ∧ h args (world env) = (out, w)
       ∧ env1 = record_event (Invoked tn fn args out) w env).
Proof.
  unfold attempt_call. destruct (_clean_parameters ps ex) as [text | args].
  - intros [= <- <-]. left. eauto.
  - destruct (h args (world env)) as [out' w] eqn:Hcall.
    intros [= <- <-]. right. eauto.
Qed.

(** The events of one attempt: none when the projection raised, else the
    call. *)
Lemma attempt_call_events tn fn ex (h : @handler World) ps env out env1 :
  attempt_call tn fn ex h ps env = (out, env1) →
  ∃ evs, trace env1 = (trace env ++ evs)%list
    ∧ Forall (from_handler tn fn h) evs
    ∧ match out with
      | Returned _ => ∃ args, last evs = Some (Invoked tn fn args out)
      | Raised text => final_fault tn fn ex ps evs text
      end.
Proof.
  intros Hcall. apply attempt_call_cases in Hcall as
    [(text & Hclean & -> & ->) | (args & w & Hclean & Hh & ->)].
  - exists []. rewrite app_nil_r. split; [done|]. split; [constructor|].
    by left.
  - exists [Invoked tn fn args out]. split; [done|]. split.
    + constructor; [|constructor]. simpl. split; [done|]. split; [done|].
      exists (world env). by rewrite Hh.
    + destruct out as [v | text]; [eauto|]. right. eauto.
Qed.

Lemma last_after {A} (l1 l2 : list A) x :
  last l2 = Some x → last (l1 ++ l2) = Some x.
Proof. intros Hl. rewrite last_app, Hl. done. Qed.

Lemma final_fault_after tn fn ex ps evs1 evs2 text :
  final_fault tn fn ex ps evs2 text → final_fault tn fn ex ps (evs1 ++ evs2) text.
Proof.
  intros [Hclean | [args Hlast]]; [by left|].
  right. exists args. by apply last_after.
Qed.

Lemma finished_after tn fn ex ps result n first evs1 evs2 r :
  first ≤ n →
  finished max_retries tn fn ex ps (with_attempts n result) n evs2 r →
  finished max_retries tn fn ex ps result first (evs1 ++ evs2) r.
Proof.
  intros Hle Hfin. inversion Hfin; subst.
  - apply (finished_success _ _ _ _ _ result first _ n0 response args);
      [lia | done | by apply last_after].
  - apply (finished_soft_error _ _ _ _ _ result first _ response args);
      [done | by apply last_after].
  - apply (finished_fault _ _ _ _ _ result first _ text).
    by apply final_fault_after.
Qed.

(** The shape of every run of the loop that makes at least one attempt and
    whose last index is [max_retries - 1]. *)
Lemma retry_loop_finished tn fn ex (h : @handler World) ps todo :
  ∀ attempt result env r env',
    retry_loop max_retries pause tn fn ex h ps todo attempt result env = (r, env') →
    (0 < todo)%nat →
    attempt + Z.of_nat todo = max_retries →
    ∃ evs, trace env' = (trace env ++ evs)%list
      ∧ Forall (from_handler tn fn h) evs
      ∧ finished max_retries tn fn ex ps result attempt evs r.
Proof.
  induction todo as [|todo IH]; intros attempt result env r env' Hrun Hpos Hsum;
    [lia|].
  simpl in Hrun.
  destruct (attempt_call tn fn ex h ps env) as [out env1] eqn:Hcall.
  apply attempt_call_events in Hcall as (evs1 & Htrace1 & Hall1 & Hout).
  assert (∀ evs2 (env2 : @Env World),
            trace env2 = (trace (sleep pause env1) ++ evs2)%list →
            trace env2 = (trace env ++ (evs1 ++ [Slept]) ++ evs2)%list) as Hglue.
  { intros evs2 env2 ->. simpl. rewrite Htrace1. by rewrite <- !app_assoc. }
  assert (Forall (from_handler tn fn h) (evs1 ++ [Slept])) as Hall1'.
  { apply Forall_app. split; [done|]. by constructor. }
  destruct out as [response | text].
  - destruct Hout as [args Hlast].
    destruct (truthy (response_error response)) eqn:Hsoft.
    + destruct (attempt <? max_retries - 1) eqn:Hmore.
      * apply Z.ltb_lt in Hmore.
        apply IH in Hrun as (evs2 & Htrace2 & Hall2 & Hfin); [|lia|lia].
        exists ((evs1 ++ [Slept]) ++ evs2)%list.
        split; [by apply Hglue|]. split; [by apply Forall_app|].
        apply (finished_after _ _ _ _ _ (attempt + 1)); [lia|done].
      * apply Z.ltb_ge in Hmore. injection Hrun as <- <-.
        exists evs1. split; [done|]. split; [done|].
        replace (attempt + 1) with max_retries by lia.
        by apply (finished_soft_error _ _ _ _ _ result attempt _ response args).
    + injection Hrun as <- <-.
      exists evs1. split; [done|]. split; [done|].
      apply (finished_success _ _ _ _ _ result attempt _ (attempt + 1) response args);
        [lia|done|done].
  - destruct (attempt <? max_retries - 1) eqn:Hmore.
    + apply Z.ltb_lt in Hmore.
      apply IH in Hrun as (evs2 & Htrace2 & Hall2 & Hfin); [|lia|lia].
      exists ((evs1 ++ [Slept]) ++ evs2)%list.
      split; [by apply Hglue|]. split; [by apply Forall_app|].
      apply (finished_after _ _ _ _ _ (attempt + 1)); [lia|done].
    + apply Z.ltb_ge in Hmore.
      destruct todo as [|todo]; [|lia].
      simpl in Hrun. injection Hrun as <- <-.
      replace (attempt + 1) with max_retries by lia.
      exists evs1. split; [done|]. split; [done|].
      by apply (finished_fault _ _ _ _ _ result attempt _ text).
Qed.

(** With no attempt to make, the loop returns what it was given. *)
Lemma retry_loop_none tn fn ex (h : @handler World) ps attempt result env :
  retry_loop max_retries pause tn fn ex h ps 0 attempt result env = (result, env).
Proof. reflexivity. Qed.

End RetryLoop.

(** ** The step executor *)

Section StepExecutor.

Context `{PyRuntime} {World : Type}.

Variable tools_registry : gmap string (@tool_info World).
Variable max_retries : Z.
Variable pause : World → World.

Lemma new_events_app (env env' : @Env World) evs :
  trace env' = (trace env ++ evs)%list → new_events env env' = evs.
Proof. intros Htrace. unfold new_events. rewrite Htrace. apply drop_app_length. Qed.

Lemma new_events_same (env : @Env World) : new_events env env = [].
Proof. apply new_events_app. by rewrite app_nil_r. Qed.

(** The three ways [_execute_step] ends: resolution fails; the loop has no
    attempt to make; the loop makes at least one attempt. *)
Lemma _execute_step_cases step env :
  let run := _execute_step tools_registry max_retries pause step env in
  (∃ message,
      resolve tools_registry (tool_name_of step) step = Unresolved message
      ∧ run = (with_error (PStr message) (initial_result step), env))
  ∨ (∃ fn ex h,
      resolve tools_registry (tool_name_of step) step = Resolved fn ex h
      ∧ max_retries ≤ 0
      ∧ run = (initial_result step, env))
  ∨ (∃ fn ex h,
      resolve tools_registry (tool_name_of step) step = Resolved fn ex h
      ∧ 1 ≤ max_retries
      ∧ Forall (from_handler (tool_name_of step) fn h) (new_events env run.2)
      ∧ finished max_retries (tool_name_of step) fn ex (s_parameters step)
          (initial_result step) 0 (new_events env run.2) run.1).
Proof.
  unfold _execute_step. fold (tool_name_of step). fold (initial_result step).
  destruct (resolve tools_registry (tool_name_of step) step) as [message | fn ex h].
  - left. eauto.
  - right. destruct (Z.to_nat max_retries) as [|todo] eqn:Htodo.
    + left. exists fn, ex, h. split; [done|]. split; [lia|done].
    + right. exists fn, ex, h. split; [done|]. split; [lia|].
      destruct (retry_loop max_retries pause (tool_name_of step) fn ex h
                  (s_parameters step) (S todo) 0 (initial_result step) env)
        as [r env'] eqn:Hrun.
      apply retry_loop_finished in Hrun as (evs & Htrace & Hall & Hfin); [|lia|lia].
      simpl. by rewrite (new_events_app _ _ _ Htrace).
Qed.

Lemma resolve_message_nonempty tool_name step message :
  resolve tools_registry tool_name step = Unresolved message → message ≠ "".
Proof.
  unfold resolve, bind_handler.
  repeat (case_match; try discriminate); intros [= <-]; discriminate.
Qed.

(** What the unknown-function branch records: the name it prints is the
    outcome of the inference, [None]. *)
Lemma resolve_unknown_function tool_name step info :
  tools_registry !! tool_name = Some info →
  ti_functions info !! s_function step = None →
  _infer_function tool_name step = None →
  resolve tools_registry tool_name step
    = Unresolved (unknown_function_message "None" tool_name).
Proof.
  intros Htool Hfun Hinfer. unfold resolve. by rewrite Htool, Hfun, Hinfer.
Qed.

End StepExecutor.

(** ** Claims about the step executor *)

Section StepExecutorClaims.

Context `{PyRuntime} {World : Type}.

Variable tools_registry : gmap string (@tool_info World).
Variable max_retries : Z.
Variable pause : World → World.

(** C3, as amended. A successful result has no error, and its data is the
    payload the handler returned on the last call (so data is present unless
    the handler returned [None]). A failed result of an executor configured
    with at least one attempt has an error that is present and truthy (a
    non-empty string when it is a string), except that a final fault with an
    empty text leaves the empty string. *)
Theorem step_result_invariant step env :
  let run := _execute_step tools_registry max_retries pause step env in
  (r_success run.1 = true →
     r_error run.1 = PNone
     ∧ ∃ tool_name function_name args,
         last (new_events env run.2)
           = Some (Invoked tool_name function_name args (Returned (r_data run.1))))
  ∧ (r_success run.1 = false → 1 ≤ max_retries →
     truthy (r_error run.1) = true
     ∨ (r_error run.1 = PStr "" ∧ last_fault_of tools_registry step env run.2 "")).
Proof.
  destruct (_execute_step_cases tools_registry max_retries pause step env)
    as [(message & Hres & Hrun) | [(fn & ex & h & Hres & Hmax & Hrun)
                                  | (fn & ex & h & Hres & Hmax & Hall & Hfin)]];
    cbv zeta.
  - rewrite Hrun. simpl. split; [discriminate|]. intros _ _. left.
    apply resolve_message_nonempty in Hres.
    apply negb_true_iff, String.eqb_neq. done.
  - rewrite Hrun. simpl. split; [discriminate|]. intros _ ?. lia.
  - inversion Hfin as [n response args Hn Hok Hlast Hr
                      | response args Hsoft Hlast Hr
                      | text Hfault Hr]; simpl.
    + split; [|discriminate]. intros _. split; [done|]. eauto.
    + split; [discriminate|]. intros _ _. by left.
    + split; [discriminate|]. intros _ _.
      destruct (String.eqb text "") eqn:Hempty.
      * apply String.eqb_eq in Hempty as ->. right. split; [done|].
        exists fn, ex, h. done.
      * by left.
Qed.

(** C4, as amended. Whenever the handler was invoked, [attempts] lies between
    1 and [max_retries]; a step whose resolution fails has [attempts = 0] and
    no invocation; and when [max_retries] is at least 1, [attempts = 0] holds
    exactly for the steps whose resolution fails. *)
Theorem attempts_bounds step env :
  let run := _execute_step tools_registry max_retries pause step env in
  (invoked (new_events env run.2) → 1 ≤ r_attempts run.1 ≤ max_retries)
  ∧ ((∃ message, resolve tools_registry (tool_name_of step) step = Unresolved message) →
     r_attempts run.1 = 0 ∧ new_events env run.2 = [])
  ∧ (1 ≤ max_retries → attempts_claim tools_registry max_retries pause step env).
Proof.
  unfold attempts_claim.
  destruct (_execute_step_cases tools_registry max_retries pause step env)
    as [(message & Hres & Hrun) | [(fn & ex & h & Hres & Hmax & Hrun)
                                  | (fn & ex & h & Hres & Hmax & Hall & Hfin)]];
    cbv zeta.
  - rewrite Hrun. simpl. rewrite new_events_same.
    assert (¬ invoked []) as Hnone by (intros Hex; by apply Exists_nil in Hex).
    split; [done|]. split; [done|]. intros _. split; [done|].
    split; eauto.
  - rewrite Hrun. simpl. rewrite new_events_same.
    assert (¬ invoked []) as Hnone by (intros Hex; by apply Exists_nil in Hex).
    split; [done|]. split; [|lia].
    intros [message Hmsg]. congruence.
  - assert (1 ≤ r_attempts
                  (_execute_step tools_registry max_retries pause step env).1
              ≤ max_retries) as Hbounds.
    { inversion Hfin as [n response args Hn Hok Hlast Hr
                        | response args Hsoft Hlast Hr
                        | text Hfault Hr]; simpl; lia. }
    split; [done|]. split.
    + intros [message Hmsg]. congruence.
    + intros _. split; [done|]. split; [lia|].
      intros [message Hmsg]. congruence.
Qed.

(** C5, as amended. With [max_retries] at least 1, a resolvable step whose
    handler raises on every invocation fails after exactly [max_retries]
    attempts, and its error is the text of the fault of the final attempt. *)
Theorem persistent_fault step env :
  1 ≤ max_retries →
  persistent_fault_claim tools_registry max_retries pause step env.
Proof.
  intros Hmax fn ex h Hres Hraises.
  destruct (_execute_step_cases tools_registry max_retries pause step env)
    as [(message & Hres' & Hrun) | [(fn' & ex' & h' & Hres' & Hmax' & Hrun)
                                   | (fn' & ex' & h' & Hres' & _ & Hall & Hfin)]];
    cbv zeta; [congruence | lia |].
  rewrite Hres in Hres'. injection Hres' as <- <- <-.
  inversion Hfin as [n response args Hn Hok Hlast Hr
                    | response args Hsoft Hlast Hr
                    | text Hfault Hr]; simpl.
  - apply last_Some_elem_of in Hlast.
    rewrite Forall_forall in Hall. apply Hall in Hlast as (_ & _ & w & Hw).
    destruct (Hraises args w) as [text Htext]. congruence.
  - apply last_Some_elem_of in Hlast.
    rewrite Forall_forall in Hall. apply Hall in Hlast as (_ & _ & w & Hw).
    destruct (Hraises args w) as [text Htext]. congruence.
  - split; [done|]. split; [done|]. exists text. split; [done|].
    exists fn, ex, h. done.
Qed.

End StepExecutorClaims.

(** C3, witness: the news step of the sample registry, whose handler raises
    on each of three attempts. *)
Lemma step_result_invariant_witness :
  let run := _execute_step sample_registry 3 no_pause news_step start in
  r_success run.1 = false ∧ 1 ≤ 3
  ∧ (truthy (r_error run.1) = true
     ∨ (r_error run.1 = PStr "" ∧ last_fault_of sample_registry news_step start run.2 "")).
Proof.
  split; [reflexivity|]. split; [lia|].
  apply (step_result_invariant sample_registry 3 no_pause news_step start);
    [reflexivity | lia].
Defined.

(** C3, counterexample. The invariant as stated fails for an executor with
    no attempt to make (the error stays absent), for a handler raising a
    fault without text (the error is the empty string), for a handler
    returning [None] (the data stays absent), and for a handler reporting a
    failure through a flag (the error is no string). *)
Lemma step_result_invariant_counterexample :
  ¬ result_invariant (_execute_step sample_registry 0 no_pause news_step start).1
  ∧ ¬ result_invariant
        (_execute_step (single_tool (raising "")) 1 no_pause probe_step start).1
  ∧ ¬ result_invariant
        (_execute_step (single_tool (returning PNone)) 3 no_pause probe_step start).1
  ∧ ¬ result_invariant
        (_execute_step
           (single_tool (returning (PDict [("error", PBool true);
                                           ("message", PStr "quota exceeded")])))
           1 no_pause probe_step start).1.
Proof.
  repeat split.
  - intros [_ Hfail]. destruct (Hfail eq_refl) as (text & Herr & _).
    vm_compute in Herr. discriminate.
  - intros [_ Hfail]. destruct (Hfail eq_refl) as (text & Herr & Hne).
    vm_compute in Herr. injection Herr as <-. done.
  - intros [Hok _]. destruct (Hok eq_refl) as [_ Hdata]. by apply Hdata.
  - intros [_ Hfail]. destruct (Hfail eq_refl) as (text & Herr & _).
    vm_compute in Herr. discriminate.
Qed.

(** C4, witness: three attempts allowed, the github step of the sample
    registry. *)
Lemma attempts_bounds_witness :
  1 ≤ 3 ∧ attempts_claim sample_registry 3 no_pause github_step start.
Proof.
  split; [lia|].
  apply (attempts_bounds sample_registry 3 no_pause github_step start). lia.
Defined.

(** C4, counterexample. With [max_retries = 0] a step that resolves is
    returned with [attempts = 0]. *)
Lemma attempts_claim_counterexample :
  ¬ attempts_claim sample_registry 0 no_pause github_step start.
Proof.
  intros [_ [Hzero _]]. destruct (Hzero eq_refl) as [message Hres].
  vm_compute in Hres. discriminate.
Qed.

Lemma raising_always_raises text : always_raises (raising text).
Proof. intros args w. by exists text. Qed.

(** C5, witness: the news handler of the sample registry raises on every
    call. *)
Lemma persistent_fault_witness :
  1 ≤ 3 ∧ persistent_fault_claim sample_registry 3 no_pause news_step start.
Proof.
  split; [lia|].
  apply (persistent_fault sample_registry 3 no_pause news_step start). lia.
Defined.

(** C5, counterexample. With [max_retries = 0] the step whose handler always
    raises is returned without an error. *)
Lemma persistent_fault_counterexample :
  ¬ persistent_fault_claim sample_registry 0 no_pause news_step start.
Proof.
  intros Hclaim.
  destruct (Hclaim "search_news" ["query"; "limit"] (raising "connection refused"))
    as (_ & _ & text & Herr & _).
  - reflexivity.
  - apply raising_always_raises.
  - vm_compute in Herr. discriminate.
Qed.

(** C1. In a registry with a tool for which inference has no rule, the
    unknown-function branch is taken without any call, and the message it
    records prints [None] where the requested function is expected. *)
Lemma unknown_function_names_none :
  let run := _execute_step calendar_registry 3 no_pause calendar_step start in
  r_success run.1 = false
  ∧ r_attempts run.1 = 0
  ∧ run.2 = start
  ∧ r_function run.1 = "create_event"
  ∧ r_error run.1 = PStr "Unknown function 'None' for tool 'calendar'"
  ∧ r_error run.1
      ≠ PStr (unknown_function_message (s_function calendar_step)
                (tool_name_of calendar_step)).
Proof. vm_compute. repeat split; discriminate. Qed.

(** ** Function inference on the registered tools *)

Section Inference.

Context `{PyRuntime} {World : Type}.

Variables GITHUB WEATHER_TOOL_INFO NEWS_TOOL_INFO : @tool_info World.

Lemma registered_tools tool_name :
  is_Some (TOOLS_REGISTRY GITHUB WEATHER_TOOL_INFO NEWS_TOOL_INFO !! tool_name) →
  tool_name = "github" ∨ tool_name = "weather" ∨ tool_name = "news".
Proof.
  unfold TOOLS_REGISTRY. intros Hsome.
  destruct (decide (tool_name = "github")) as [|Hg]; [by left|].
  destruct (decide (tool_name = "weather")) as [|Hw]; [by right; left|].
  destruct (decide (tool_name = "news")) as [|Hn]; [by right; right|].
  rewrite !lookup_insert_ne, lookup_empty in Hsome by done.
  by destruct Hsome.
Qed.

Lemma _infer_function_registered tool_name step :
  tool_name = "github" ∨ tool_name = "weather" ∨ tool_name = "news" →
  ∃ f, _infer_function tool_name step = Some f ∧ f ≠ "".
Proof.
  unfold _infer_function. intros [-> | [-> | ->]]; simpl;
    repeat case_match; eexists; (split; [reflexivity | discriminate]).
Qed.

(** C9. For a tool name found in [TOOLS_REGISTRY], function inference yields
    a non-empty function name, so resolution never ends in the
    unknown-function message: when it fails, it fails for a missing handler. *)
Theorem inference_never_fails tool_name step :
  is_Some (TOOLS_REGISTRY GITHUB WEATHER_TOOL_INFO NEWS_TOOL_INFO !! tool_name) →
  (∃ f, _infer_function tool_name step = Some f ∧ f ≠ "")
  ∧ ∀ message,
      resolve (TOOLS_REGISTRY GITHUB WEATHER_TOOL_INFO NEWS_TOOL_INFO) tool_name step
        = Unresolved message →
      (∃ f, message = "No handler found for function: " +:+ f)
      ∧ ∀ requested, message ≠ unknown_function_message requested tool_name.
Proof.
  intros Hsome.
  destruct (_infer_function_registered tool_name step (registered_tools _ Hsome))
    as (f & Hinfer & Hf).
  split; [eauto|].
  intros message. unfold resolve, bind_handler.
  destruct Hsome as [info ->]. rewrite Hinfer.
  apply String.eqb_neq in Hf. rewrite Hf.
  repeat case_match; try discriminate; intros [= <-];
    (split; [eauto | intros requested; discriminate]).
Qed.

End Inference.

(** C9, witness: the weather tool of the sample registry, for a step that
    names no function and gives coordinates. *)
Lemma inference_never_fails_witness :
  is_Some (sample_registry !! "weather")
  ∧ (∃ f, _infer_function "weather" coordinates_step = Some f ∧ f ≠ "")
  ∧ ∀ message,
      resolve sample_registry "weather" coordinates_step = Unresolved message →
      (∃ f, message = "No handler found for function: " +:+ f)
      ∧ ∀ requested, message ≠ unknown_function_message requested "weather".
Proof.
  split; [by eexists|].
  apply (inference_never_fails sample_github sample_weather
           (sample_news "connection refused") "weather" coordinates_step).
  by eexists.
Defined.

(** ** The plan executor *)

Section PlanExecutor.

Context `{PyRuntime} {World : Type}.

Variable tools_registry : gmap string (@tool_info World).
Variable max_retries : Z.
Variable pause : World → World.
Variable elapsed : World → World → pyval.

(** The step executor copies the identity of the step into its result. *)
Lemma _execute_step_identity step env :
  let r := (_execute_step tools_registry max_retries pause step env).1 in
  r_step_id r = s_step_id step ∧ r_tool r = tool_name_of step
  ∧ r_function r = s_function step ∧ r_action r = s_action step.
Proof.
  destruct (_execute_step_cases tools_registry max_retries pause step env)
    as [(message & _ & Hrun) | [(fn & ex & h & _ & _ & Hrun)
                               | (fn & ex & h & _ & _ & _ & Hfin)]];
    cbv zeta.
  - by rewrite Hrun.
  - by rewrite Hrun.
  - by inversion Hfin.
Qed.

Lemma tally_step_results step r acc :
  t_step_results (tally_step step r acc) = (t_step_results acc ++ [r])%list.
Proof. unfold tally_step. by destruct (r_success r). Qed.

(** What the loop of [execute_plan] adds to the running totals. *)
Lemma run_steps_totals steps :
  ∀ acc env,
    let run := run_steps tools_registry max_retries pause steps acc env in
    ∃ results,
      t_step_results run.1 = (t_step_results acc ++ results)%list
      ∧ Forall2 (result_of tools_registry max_retries pause) steps results
      ∧ t_successful_steps run.1
          = t_successful_steps acc
            + Z.of_nat (length (filter (λ r, r_success r = true) results))
      ∧ t_failed_steps run.1
          = t_failed_steps acc
            + Z.of_nat (length (filter (λ r, r_success r = false) results))
      ∧ t_tools_used run.1
          = t_tools_used acc ∪ list_to_set (successful_tools steps results).
Proof.
  induction steps as [|step rest IH]; intros acc env; cbv zeta.
  - exists []. simpl. rewrite app_nil_r, !Z.add_0_r.
    split; [done|]. split; [constructor|]. split; [done|]. split; [done|].
    unfold successful_tools. simpl. by rewrite (right_id_L ∅ (∪)).
  - simpl.
    destruct (_execute_step tools_registry max_retries pause step env)
      as [r env1] eqn:Hstep.
    destruct (IH (tally_step step r acc) env1)
      as (results & Hres & Hall & Hok & Hko & Htools).
    exists (r :: results).
    split; [by rewrite Hres, tally_step_results, <- app_assoc|].
    split; [constructor; [exists env; by rewrite Hstep | done]|].
    rewrite Hok, Hko, Htools. unfold successful_tools, tally_step.
    simpl zip. rewrite !filter_cons. simpl.
    destruct (r_success r) eqn:Hr; simpl.
    + split; [lia|]. split; [lia|]. by rewrite <- (assoc_L (∪)).
    + split; [lia|]. split; [lia|]. done.
Qed.

(** C10. The report of a plan with at least one step holds one result per
    step, in plan order, each returned by the step executor for its step and
    carrying its id and action; the successful and failed counts are the
    numbers of successful and failed results, and they add up to
    [total_steps], the number of results. *)
Theorem report_accounts_for_every_step plan env :
  p_steps plan ≠ [] →
  let report := (execute_plan tools_registry max_retries pause elapsed plan env).1 in
  x_successful_steps report + x_failed_steps report = x_total_steps report
  ∧ x_total_steps report = Z.of_nat (length (x_step_results report))
  ∧ length (x_step_results report) = length (p_steps plan)
  ∧ x_successful_steps report
      = Z.of_nat (length (filter (λ r, r_success r = true) (x_step_results report)))
  ∧ x_failed_steps report
      = Z.of_nat (length (filter (λ r, r_success r = false) (x_step_results report)))
  ∧ Forall2
      (λ step r, result_of tools_registry max_retries pause step r
                 ∧ r_step_id r = s_step_id step ∧ r_action r = s_action step)
      (p_steps plan) (x_step_results report).
Proof.
  intros Hsteps. unfold execute_plan.
  destruct (p_steps plan) as [|step rest] eqn:Hplan; [done|].
  pose proof (run_steps_totals (step :: rest)
                {| t_step_results := []; t_tools_used := ∅;
                   t_successful_steps := 0; t_failed_steps := 0 |} env) as Hrun.
  cbv zeta in Hrun.
  destruct (run_steps tools_registry max_retries pause (step :: rest) _ env)
    as [acc env'].
  destruct Hrun as (results & Hres & Hall & Hok & Hko & _).
  simpl in Hres, Hok, Hko. cbv zeta. simpl x_step_results.
  simpl x_successful_steps. simpl x_failed_steps. simpl x_total_steps.
  rewrite Hres, Hok, Hko.
  pose proof (Forall2_length _ _ _ Hall) as Hlen.
  assert (length (filter (λ r, r_success r = true) results)
          + length (filter (λ r, r_success r = false) results)
          = length results)%nat as Hsplit.
  { clear. induction results as [|r results IH]; [done|].
    rewrite !filter_cons. destruct (r_success r); simpl; lia. }
  simpl in Hlen |- *.
  split; [lia|]. split; [lia|]. split; [lia|]. split; [lia|]. split; [lia|].
  eapply Forall2_impl; [exact Hall|].
  intros s r [env0 ->]. split; [by exists env0|].
  pose proof (_execute_step_identity s env0) as (Hid & _ & _ & Hact).
  done.
Qed.

(** C2, as amended. For a plan with at least one step, [tools_used] is the
    runtime's listing of the set of the tools, under the names the steps
    give them, of the steps that succeeded: it has no duplicates and holds
    exactly those tools, in the order in which the runtime iterates the set. *)
Theorem tools_used_content plan env :
  p_steps plan ≠ [] →
  let report := (execute_plan tools_registry max_retries pause elapsed plan env).1 in
  x_tools_used report
  = set_to_list (list_to_set (successful_tools (p_steps plan) (x_step_results report)))
  ∧ NoDup (x_tools_used report)
  ∧ ∀ t, t ∈ x_tools_used report
         ↔ t ∈ successful_tools (p_steps plan) (x_step_results report).
Proof.
  intros Hsteps. unfold execute_plan.
  destruct (p_steps plan) as [|step rest] eqn:Hplan; [done|].
  pose proof (run_steps_totals (step :: rest)
                {| t_step_results := []; t_tools_used := ∅;
                   t_successful_steps := 0; t_failed_steps := 0 |} env) as Hrun.
  cbv zeta in Hrun.
  destruct (run_steps tools_registry max_retries pause (step :: rest) _ env)
    as [acc env'].
  destruct Hrun as (results & Hres & _ & _ & _ & Htools).
  simpl in Hres, Htools. cbv zeta. simpl x_tools_used. simpl x_step_results.
  rewrite Htools, Hres, (left_id_L ∅ (∪)).
  split; [done|]. split; [apply set_to_list_NoDup|].
  intros t. rewrite set_to_list_elem_of. apply elem_of_list_to_set.
Qed.

(** C6. For a plan without steps [execute_plan] returns the degenerate
    report (no results, zero counts, execution time 0 and the marker "No
    executable steps in plan") and leaves the world and the trace as they
    were: no step was executed. *)
Theorem empty_plan_report plan env :
  p_steps plan = [] →
  execute_plan tools_registry max_retries pause elapsed plan env
  = ({| x_plan := plan; x_step_results := []; x_tools_used := [];
        x_total_steps := 0; x_successful_steps := 0; x_failed_steps := 0;
        x_execution_time := PInt 0;
        x_error := Some "No executable steps in plan" |}, env).
Proof. intros Hsteps. unfold execute_plan. by rewrite Hsteps. Qed.

End PlanExecutor.

(** C10, witness: a plan of three steps, the last of which fails. *)
Lemma report_accounts_for_every_step_witness :
  p_steps (sample_plan [weather_step; github_step; news_step]) ≠ []
  ∧ let report :=
      (execute_plan sample_registry 3 no_pause no_clock
         (sample_plan [weather_step; github_step; news_step]) start).1 in
    x_successful_steps report + x_failed_steps report = x_total_steps report
    ∧ x_total_steps report = Z.of_nat (length (x_step_results report))
    ∧ length (x_step_results report)
        = length (p_steps (sample_plan [weather_step; github_step; news_step]))
    ∧ x_successful_steps report
        = Z.of_nat (length (filter (λ r, r_success r = true) (x_step_results report)))
    ∧ x_failed_steps report
        = Z.of_nat (length (filter (λ r, r_success r = false) (x_step_results report)))
    ∧ Forall2
        (λ step r, result_of sample_registry 3 no_pause step r
                   ∧ r_step_id r = s_step_id step ∧ r_action r = s_action step)
        (p_steps (sample_plan [weather_step; github_step; news_step]))
        (x_step_results report).
Proof.
  split; [discriminate|].
  apply (report_accounts_for_every_step sample_registry 3 no_pause no_clock
           (sample_plan [weather_step; github_step; news_step]) start).
  discriminate.
Defined.

(** C2, witness: the same plan; its two successful steps are recorded. *)
Lemma tools_used_content_witness :
  p_steps (sample_plan [weather_step; github_step; news_step]) ≠ []
  ∧ let report :=
      (execute_plan sample_registry 3 no_pause no_clock
         (sample_plan [weather_step; github_step; news_step]) start).1 in
    x_tools_used report
    = set_to_list
        (list_to_set
           (successful_tools
              (p_steps (sample_plan [weather_step; github_step; news_step]))
              (x_step_results report)))
    ∧ NoDup (x_tools_used report)
    ∧ ∀ t, t ∈ x_tools_used report
           ↔ t ∈ successful_tools
                   (p_steps (sample_plan [weather_step; github_step; news_step]))
                   (x_step_results report).
Proof.
  split; [discriminate|].
  apply (tools_used_content sample_registry 3 no_pause no_clock
           (sample_plan [weather_step; github_step; news_step]) start).
  discriminate.
Defined.

(** C2, counterexample. The tool of a step that failed is not listed, and
    under a runtime that lists the set of the two recorded tools as weather,
    github, a plan that uses github first does not get them in the order of
    first occurrence. *)
Lemma tools_used_counterexample :
  ¬ tools_used_claim (sample_plan [news_step])
      (execute_plan sample_registry 3 no_pause no_clock
         (sample_plan [news_step]) start).1
  ∧ ¬ tools_used_claim (sample_plan [github_step; weather_step])
        (execute_plan sample_registry 3 no_pause no_clock
           (sample_plan [github_step; weather_step]) start).1.
Proof. split; unfold tools_used_claim; vm_compute; discriminate. Qed.

(** C6, witness: the plan without steps. *)
Lemma empty_plan_report_witness :
  p_steps (sample_plan []) = []
  ∧ execute_plan sample_registry 3 no_pause no_clock (sample_plan []) start
    = ({| x_plan := sample_plan []; x_step_results := []; x_tools_used := [];
          x_total_steps := 0; x_successful_steps := 0; x_failed_steps := 0;
          x_execution_time := PInt 0;
          x_error := Some "No executable steps in plan" |}, start).
Proof.
  split; [reflexivity|].
  apply (empty_plan_report sample_registry 3 no_pause no_clock (sample_plan []) start).
  reflexivity.
Defined.

(** ** The verifier *)

Lemma append_assoc (a b c : string) : (a +:+ b) +:+ c = a +:+ (b +:+ c).
Proof.
  induction a as [|x a IH]; [done|].
  change (String x ((a +:+ b) +:+ c) = String x (a +:+ (b +:+ c))). by f_equal.
Qed.

Lemma append_empty_r (a b : string) : a +:+ b = "" → b = "".
Proof. destruct a; [done|discriminate]. Qed.

Lemma join_lines_snoc (lines : list string) (line : string) :
  lines ≠ [] → join_lines (lines ++ [line]) = join_lines lines +:+ nl +:+ line.
Proof.
  unfold join_lines. induction lines as [|x lines IH]; [done|]. intros _.
  destruct lines as [|y lines].
  - reflexivity.
  - change (String.concat nl ((x :: y :: lines) ++ [line]))
      with (x +:+ nl +:+ String.concat nl ((y :: lines) ++ [line])).
    rewrite IH by done.
    change (String.concat nl (x :: y :: lines))
      with (x +:+ nl +:+ String.concat nl (y :: lines)).
    by rewrite !append_assoc.
Qed.

Lemma filter_all {A} (P : A → Prop) `{∀ x, Decision (P x)} (l : list A) :
  Forall P l → filter P l = l.
Proof.
  induction 1 as [|x l Hx _ IH]; [done|].
  by rewrite filter_cons, decide_True, IH.
Qed.

Lemma filter_none {A} (P : A → Prop) `{∀ x, Decision (P x)} (l : list A) :
  Forall (λ x, ¬ P x) l → filter P l = [].
Proof.
  induction 1 as [|x l Hx _ IH]; [done|].
  by rewrite filter_cons, decide_False, IH.
Qed.

Lemma filter_exists {A} (P : A → Prop) `{∀ x, Decision (P x)} (l : list A) :
  Exists P l → filter P l ≠ [].
Proof.
  induction 1 as [x l Hx | x l _ IH]; rewrite filter_cons.
  - by rewrite decide_True.
  - by destruct (decide (P x)).
Qed.

Section VerifierClaims.

Context `{PyRuntime} {World : Type}.

Variable verify_results :
  string → Plan → list StepResult → World → option Verification * World.

(** The note names the action and the error of every failed step. *)
Lemma _format_failure_note_lines step_results :
  Exists (λ r, r_success r = false) step_results →
  _format_failure_note (failed_steps_of step_results)
  = join_lines
      ((nl +:+ nl +:+ "**Note:** Some information could not be retrieved:")
         :: ((λ r, "- " +:+ r_action r +:+ ": " +:+ fmt (r_error r))
               <$> filter (λ r, r_success r = false) step_results)).
Proof.
  intros Hfailed. apply (filter_exists (λ r, r_success r = false)) in Hfailed.
  unfold failed_steps_of, _format_failure_note.
  destruct (filter (λ r, r_success r = false) step_results) as [|r rest]; [done|].
  rewrite <- list_fmap_compose. done.
Qed.

Lemma _format_failure_note_nonempty failed_steps :
  failed_steps ≠ [] → _format_failure_note failed_steps ≠ "".
Proof.
  destruct failed_steps as [|step rest]; [done|]. intros _.
  unfold _format_failure_note, join_lines. simpl.
  destruct (failure_line <$> rest); discriminate.
Qed.

(** C7. When the step results are not empty and every step failed,
    [verify_and_format] returns, without consulting the text-generation
    capability (the world and the trace are unchanged), a result that is not
    complete, has three suggestions, lists every step as failed, and whose
    formatted answer enumerates the id and the error of each failed step,
    one line per step in plan order. *)
Theorem all_failed_summary original_task plan report env :
  x_step_results report ≠ [] →
  Forall (λ r, r_success r = false) (x_step_results report) →
  ∃ v,
    verify_and_format verify_results original_task plan report env = (Some v, env)
    ∧ v_is_complete v = false
    ∧ v_suggestions v
        = Some [ "Verify API keys are configured"; "Check internet connection";
                 "Try a simpler query" ]
    ∧ v_failed_steps v = failed_step_of <$> x_step_results report
    ∧ ∃ header footer,
        v_formatted_answer v
        = header
          +:+ join_lines
                ((λ r, "- Step " +:+ fmt (r_step_id r) +:+ ": " +:+ fmt (r_error r))
                   <$> x_step_results report)
          +:+ footer.
Proof.
  intros Hsome Hall. unfold verify_and_format.
  destruct (x_step_results report) as [|r results] eqn:Hresults; [done|].
  rewrite (filter_all (λ r, r_success r = false)) by done.
  rewrite (filter_none (λ r, r_success r = true)).
  2:{ eapply Forall_impl; [exact Hall|]. intros x ->. discriminate. }
  eexists. split; [reflexivity|].
  split; [done|]. split; [done|]. split; [done|].
  exists ("I was unable to complete your request: " +:+ dquote +:+ original_task
          +:+ dquote +:+ nl +:+ nl
          +:+ "All execution steps failed with the following errors:" +:+ nl).
  exists (nl +:+ nl +:+ "**Suggestions:**" +:+ nl
          +:+ "- Check that all required API keys are configured in your .env file" +:+ nl
          +:+ "- Verify your internet connection" +:+ nl
          +:+ "- Try simplifying your query" +:+ nl
          +:+ "- Check if the requested resources exist (e.g., valid city names, repository names)").
  cbn [v_formatted_answer _format_all_failed].
  rewrite <- list_fmap_compose, !append_assoc. reflexivity.
Qed.

Lemma result_parts_is_Some r :
  is_Some (result_parts r)
  ↔ (r_success r = true → is_Some (_format_tool_data (r_tool r) (r_data r))).
Proof.
  unfold result_parts. destruct (r_success r).
  - destruct (_format_tool_data (r_tool r) (r_data r)); simpl.
    + split; eauto.
    + split; [intros [? [=]] | intros Hsome; by destruct (Hsome eq_refl)].
  - split; [discriminate | eauto].
Qed.

(** The fallback formatting: it returns unless a formatter raises, and what
    it returns ends with a newline and the note. *)
Lemma _basic_format_note original_task step_results failed_steps :
  failed_steps ≠ [] →
  (Forall (λ r, r_success r = true → is_Some (_format_tool_data (r_tool r) (r_data r)))
     step_results →
   ∃ v body,
     _basic_format original_task step_results failed_steps = Some v
     ∧ v_formatted_answer v = body +:+ nl +:+ _format_failure_note failed_steps)
  ∧ (Exists (λ r, r_success r = true ∧ _format_tool_data (r_tool r) (r_data r) = None)
       step_results →
     _basic_format original_task step_results failed_steps = None).
Proof.
  intros Hfailed. unfold _basic_format. split.
  - intros Hall.
    destruct (mapM result_parts step_results) as [parts|] eqn:Hparts.
    + simpl. eexists. eexists. split; [reflexivity|].
      cbn [v_formatted_answer].
      destruct failed_steps as [|step rest]; [done|].
      rewrite app_comm_cons. by rewrite join_lines_snoc.
    + apply mapM_None in Hparts. apply Exists_exists in Hparts as (r & Hin & Hnone).
      rewrite Forall_forall in Hall. specialize (Hall r Hin).
      apply result_parts_is_Some in Hall. rewrite Hnone in Hall. by destruct Hall.
  - intros Hraise.
    assert (mapM result_parts step_results = None) as ->; [|done].
    apply mapM_None. eapply Exists_impl; [exact Hraise|].
    intros r [Hok Hnone]. unfold result_parts. by rewrite Hok, Hnone.
Qed.

Lemma note_appended_after body note :
  note ≠ "" → note_appended (body +:+ note) note.
Proof.
  intros Hnote. split; [|by exists body].
  intros Hempty. by apply append_empty_r in Hempty.
Qed.

(** C8, as amended. For a report with at least one successful and one failed
    step: when the text-generation capability replies with a non-empty
    answer, the formatted answer is that answer followed by the note; when
    it replies with an empty answer, the formatted answer stays empty and
    carries no note; when it fails, the fallback formatting returns, unless
    a formatter raises, a formatted answer that is not empty and ends with
    the note. The note lists the action and the error of each failed step. *)
Theorem partial_failure_note original_task plan report env :
  Exists (λ r, r_success r = true) (x_step_results report) →
  Exists (λ r, r_success r = false) (x_step_results report) →
  let note := _format_failure_note (failed_steps_of (x_step_results report)) in
  let run := verify_and_format verify_results original_task plan report env in
  note
  = join_lines
      ((nl +:+ nl +:+ "**Note:** Some information could not be retrieved:")
         :: ((λ r, "- " +:+ r_action r +:+ ": " +:+ fmt (r_error r))
               <$> filter (λ r, r_success r = false) (x_step_results report)))
  ∧ match (verify_results original_task plan (x_step_results report) (world env)).1 with
    | Some verification =>
        ∃ v, run.1 = Some v
          ∧ (g_formatted_answer verification ≠ "" →
             v_formatted_answer v = g_formatted_answer verification +:+ note
             ∧ note_appended (v_formatted_answer v) note)
          ∧ (g_formatted_answer verification = "" → v_formatted_answer v = "")
    | None =>
        (Forall (λ r, r_success r = true →
                      is_Some (_format_tool_data (r_tool r) (r_data r)))
           (x_step_results report) →
         ∃ v body, run.1 = Some v
           ∧ v_formatted_answer v = body +:+ nl +:+ note
           ∧ note_appended (v_formatted_answer v) note)
        ∧ (Exists (λ r, r_success r = true
                        ∧ _format_tool_data (r_tool r) (r_data r) = None)
             (x_step_results report) →
           run.1 = None)
    end.
Proof.
  intros Hok Hko. cbv zeta.
  split; [by apply _format_failure_note_lines|].
  assert (failed_steps_of (x_step_results report) ≠ []) as Hfailed.
  { apply (filter_exists (λ r, r_success r = false)) in Hko.
    unfold failed_steps_of.
    by destruct (filter (λ r, r_success r = false) (x_step_results report)). }
  pose proof (_format_failure_note_nonempty _ Hfailed) as Hnote.
  apply (filter_exists (λ r, r_success r = true)) in Hok.
  unfold verify_and_format. fold (failed_steps_of (x_step_results report)).
  destruct (x_step_results report) as [|r results] eqn:Hresults; [done|].
  destruct (filter (λ r, r_success r = true) (r :: results)) as [|ok oks] eqn:Hoks;
    [done|].
  destruct (verify_results original_task plan (r :: results) (world env))
    as [[verification|] w]; cbn [fst].
  - eexists. split; [reflexivity|]. cbn [v_formatted_answer].
    destruct (failed_steps_of (r :: results)) as [|ko kos] eqn:Hkos; [done|].
    split.
    + intros Hanswer. apply String.eqb_neq in Hanswer. rewrite Hanswer.
      split; [done|]. by apply note_appended_after.
    + intros Hanswer. by rewrite Hanswer.
  - destruct (_basic_format_note original_task (r :: results)
                (failed_steps_of (r :: results)) Hfailed) as [Hreturns Hraises].
    split.
    + intros Hall. destruct (Hreturns Hall) as (v & body & Hv & Hanswer).
      exists v, body. split; [done|]. split; [done|].
      rewrite Hanswer, <- append_assoc. by apply note_appended_after.
    + done.
Qed.

End VerifierClaims.

(** C7, witness: the report of the plan whose only step fails. *)
Lemma all_failed_summary_witness :
  x_step_results failed_report ≠ []
  ∧ Forall (λ r, r_success r = false) (x_step_results failed_report)
  ∧ ∃ v,
      verify_and_format (llm_answering "unused") "Any news about proofs?"
        (sample_plan [news_step]) failed_report start = (Some v, start)
      ∧ v_is_complete v = false
      ∧ v_suggestions v
          = Some [ "Verify API keys are configured"; "Check internet connection";
                   "Try a simpler query" ]
      ∧ v_failed_steps v = failed_step_of <$> x_step_results failed_report
      ∧ ∃ header footer,
          v_formatted_answer v
          = header
            +:+ join_lines
                  ((λ r, "- Step " +:+ fmt (r_step_id r) +:+ ": " +:+ fmt (r_error r))
                     <$> x_step_results failed_report)
            +:+ footer.
Proof.
  assert (x_step_results failed_report ≠ []) as Hsome by (vm_compute; discriminate).
  assert (Forall (λ r, r_success r = false) (x_step_results failed_report)) as Hall
    by (vm_compute; repeat constructor).
  split; [exact Hsome|]. split; [exact Hall|].
  exact (all_failed_summary (llm_answering "unused") "Any news about proofs?"
           (sample_plan [news_step]) failed_report start Hsome Hall).
Defined.

(** C8, witness: the report with one successful and one failed step, with a
    text-generation client that answers and with one that is unavailable. *)
Lemma partial_failure_note_witness :
  Exists (λ r, r_success r = true) (x_step_results mixed_report)
  ∧ Exists (λ r, r_success r = false) (x_step_results mixed_report)
  ∧ (∃ v,
      (verify_and_format (llm_answering "Rocq is a proof assistant.")
         "What is Rocq?" (sample_plan [github_step; news_step]) mixed_report start).1
      = Some v
      ∧ note_appended (v_formatted_answer v)
          (_format_failure_note (failed_steps_of (x_step_results mixed_report))))
  ∧ (∃ v,
      (verify_and_format llm_down
         "What is Rocq?" (sample_plan [github_step; news_step]) mixed_report start).1
      = Some v
      ∧ note_appended (v_formatted_answer v)
          (_format_failure_note (failed_steps_of (x_step_results mixed_report)))).
Proof.
  assert (Exists (λ r, r_success r = true) (x_step_results mixed_report)) as Hok
    by (vm_compute; apply Exists_cons_hd; reflexivity).
  assert (Exists (λ r, r_success r = false) (x_step_results mixed_report)) as Hko
    by (vm_compute; apply Exists_cons_tl, Exists_cons_hd; reflexivity).
  split; [exact Hok|]. split; [exact Hko|]. split.
  - destruct (partial_failure_note (llm_answering "Rocq is a proof assistant.")
                "What is Rocq?" (sample_plan [github_step; news_step]) mixed_report start
                Hok Hko) as [_ (v & Hv & Hnote & _)].
    exists v. split; [exact Hv|]. apply Hnote. discriminate.
  - destruct (partial_failure_note llm_down
                "What is Rocq?" (sample_plan [github_step; news_step]) mixed_report start
                Hok Hko) as [_ [Hreturns _]].
    destruct Hreturns as (v & body & Hv & _ & Hnote).
    + set (results := x_step_results mixed_report). vm_compute in results.
      subst results.
      repeat (constructor;
              [intros Hsuccess; first [discriminate Hsuccess | vm_compute; eauto]|]).
      constructor.
    + exists v. split; [exact Hv | exact Hnote].
Defined.

(** C8, counterexample. When the text-generation capability replies with an
    empty answer, the formatted answer returned is empty: no note is
    appended. *)
Lemma partial_failure_counterexample :
  Exists (λ r, r_success r = true) (x_step_results mixed_report)
  ∧ Exists (λ r, r_success r = false) (x_step_results mixed_report)
  ∧ ¬ partial_failure_claim (llm_answering "") "What is Rocq?"
        (sample_plan [github_step; news_step]) mixed_report start.
Proof.
  split; [vm_compute; apply Exists_cons_hd; reflexivity|].
  split; [vm_compute; apply Exists_cons_tl, Exists_cons_hd; reflexivity|].
  intros Hclaim. edestruct Hclaim as [Hne _]; [vm_compute; reflexivity|].
  by apply Hne.
Qed.

(** ** Runs of the sample executor *)

(** A handler that fails once and then returns: two attempts, one pause. *)
Example second_attempt_succeeds :
  let run :=
    _execute_step (single_tool (failing_first 1 "timed out" repo_list)) 3 no_pause
      probe_step start in
  r_success run.1 = true ∧ r_attempts run.1 = 2 ∧ r_data run.1 = repo_list
  ∧ r_error run.1 = PNone
  ∧ trace run.2
    = [ Invoked "probe" "ping" ∅ (Raised "timed out"); Slept;
        Invoked "probe" "ping" ∅ (Returned repo_list) ].
Proof. vm_compute. repeat split. Qed.

(** A tool that is not registered: the name is lowered, nothing is called. *)
Example unknown_tool_is_not_called :
  _execute_step sample_registry 3 no_pause
    (make_step 7 "Slack" "post_message" "Post a message" []) start
  = ({| r_step_id := PInt 7; r_tool := "slack"; r_function := "post_message";
        r_action := "Post a message"; r_success := false; r_data := PNone;
        r_error := PStr "Unknown tool: slack"; r_attempts := 0 |}, start).
Proof. reflexivity. Qed.

(** Projection keeps the expected names only and converts the limit. *)
Example projection_converts_limit :
  _clean_parameters (list_to_map [("limit", PStr "5"); ("extra", PStr "x")]) ["limit"]
  = inr {[ "limit" := PInt 5 ]}.
Proof. vm_compute. reflexivity. Qed.

(** A limit that is no number is passed on as it is. *)
Example projection_keeps_unconvertible :
  _clean_parameters (list_to_map [("limit", PStr "five")]) ["query"; "limit"]
  = inr {[ "limit" := PStr "five" ]}.
Proof. vm_compute. reflexivity. Qed.

(** * Further properties *)

(** ** Pauses and calls of the retry loop *)

Lemma count_pauses_app evs1 evs2 :
  count_pauses (evs1 ++ evs2) = (count_pauses evs1 + count_pauses evs2)%nat.
Proof. unfold count_pauses. by rewrite filter_app, length_app. Qed.

Lemma count_invocations_app evs1 evs2 :
  count_invocations (evs1 ++ evs2)
  = (count_invocations evs1 + count_invocations evs2)%nat.
Proof. unfold count_invocations. by rewrite filter_app, length_app. Qed.

Section RetryLoopEvents.

Context `{PyRuntime} {World : Type}.

Variable tools_registry : gmap string (@tool_info World).
Variable max_retries : Z.
Variable pause : World → World.

(** The loop pauses once after each attempt but the last; it calls the
    handler once per attempt, with the projected parameters, unless the
    projection raises, in which case it never calls. *)
Lemma retry_loop_counts tn fn ex (h : @handler World) ps todo :
  ∀ attempt result env,
    (0 < todo)%nat →
    attempt + Z.of_nat todo = max_retries →
    let run := retry_loop max_retries pause tn fn ex h ps todo attempt result env in
    ∃ evs, trace run.2 = (trace env ++ evs)%list
      ∧ r_attempts run.1 = attempt + 1 + Z.of_nat (count_pauses evs)
      ∧ match _clean_parameters ps ex with
        | inl _ => count_invocations evs = 0%nat
        | inr args =>
            count_invocations evs = S (count_pauses evs)
            ∧ Forall (called_with args) evs
        end.
Proof.
  induction todo as [|todo IH]; intros attempt result env Hpos Hsum; [lia|].
  cbv zeta. cbn [retry_loop]. unfold attempt_call.
  assert (∀ e (env1 run : @Env World) evs2,
            trace run = (trace (sleep pause env1) ++ evs2)%list →
            trace env1 = (trace env ++ e)%list →
            trace run = (trace env ++ (e ++ [Slept]) ++ evs2)%list) as Hglue.
  { intros e env1 run evs2 -> He. simpl. rewrite He. by rewrite <- !app_assoc. }
  destruct (_clean_parameters ps ex) as [text | args] eqn:Hclean.
  - destruct (attempt <? max_retries - 1) eqn:Hmore.
    + apply Z.ltb_lt in Hmore.
      destruct (IH (attempt + 1) (with_attempts (attempt + 1) result) (sleep pause env))
        as (evs2 & Htrace & Hattempts & Hcalls); [lia|lia|].
      exists (([] ++ [Slept]) ++ evs2)%list.
      split; [apply (Hglue [] env); [done | by rewrite app_nil_r]|].
      rewrite count_pauses_app, count_invocations_app. simpl.
      split; [rewrite Hattempts; unfold count_pauses; simpl; lia | done].
    + apply Z.ltb_ge in Hmore. destruct todo as [|todo]; [|lia].
      exists []. unfold count_pauses, count_invocations. simpl.
      rewrite app_nil_r. split; [done|]. split; [lia|done].
  - destruct (h args (world env)) as [out w] eqn:Hcall.
    set (env1 := record_event (Invoked tn fn args out) w env).
    assert (trace env1 = (trace env ++ [Invoked tn fn args out])%list) as Htrace1
      by done.
    assert (∀ evs2, count_invocations evs2 = S (count_pauses evs2)
                    ∧ Forall (called_with args) evs2 →
              count_invocations (([Invoked tn fn args out] ++ [Slept]) ++ evs2)
              = S (count_pauses (([Invoked tn fn args out] ++ [Slept]) ++ evs2))
              ∧ Forall (called_with args)
                  (([Invoked tn fn args out] ++ [Slept]) ++ evs2)) as Hmore_calls.
    { intros evs2 [Hcount Hall].
      rewrite count_pauses_app, count_invocations_app, Hcount.
      split; [unfold count_pauses, count_invocations; simpl; lia|].
      apply Forall_app. split; [|done]. by repeat constructor. }
    assert (count_invocations [Invoked tn fn args out]
            = S (count_pauses [Invoked tn fn args out])
            ∧ Forall (called_with args) [Invoked tn fn args out]) as Hone_call.
    { split; [done|]. by repeat constructor. }
    assert (∀ evs2, attempt + 1 + 1 + Z.of_nat (count_pauses evs2)
              = attempt + 1
                + Z.of_nat (count_pauses
                              (([Invoked tn fn args out] ++ [Slept]) ++ evs2)))
      as Hpauses.
    { intros evs2. rewrite count_pauses_app. unfold count_pauses. simpl. lia. }
    destruct out as [response | text].
    + destruct (truthy (response_error response)) eqn:Hsoft.
      * destruct (attempt <? max_retries - 1) eqn:Hmore.
        -- apply Z.ltb_lt in Hmore.
           destruct (IH (attempt + 1) (with_attempts (attempt + 1) result)
                       (sleep pause env1))
             as (evs2 & Htrace & Hattempts & Hcalls); [lia|lia|].
           exists (([Invoked tn fn args (Returned response)] ++ [Slept]) ++ evs2)%list.
           split; [by apply (Hglue _ env1)|].
           split; [by rewrite Hattempts, Hpauses | by apply Hmore_calls].
        -- exists [Invoked tn fn args (Returned response)].
           split; [done|]. split; [unfold count_pauses; simpl; lia | done].
      * exists [Invoked tn fn args (Returned response)].
        split; [done|]. split; [unfold count_pauses; simpl; lia | done].
    + destruct (attempt <? max_retries - 1) eqn:Hmore.
      * apply Z.ltb_lt in Hmore.
        destruct (IH (attempt + 1) (with_attempts (attempt + 1) result)
                    (sleep pause env1))
          as (evs2 & Htrace & Hattempts & Hcalls); [lia|lia|].
        exists (([Invoked tn fn args (Raised text)] ++ [Slept]) ++ evs2)%list.
        split; [by apply (Hglue _ env1)|].
        split; [by rewrite Hattempts, Hpauses | by apply Hmore_calls].
      * apply Z.ltb_ge in Hmore. destruct todo as [|todo]; [|lia].
        exists [Invoked tn fn args (Raised text)].
        split; [done|]. split; [unfold count_pauses; simpl; lia | done].
Qed.

End RetryLoopEvents.

(** ** More on the step executor *)

Section StepExecutorExtras.

Context `{PyRuntime} {World : Type}.

Variable tools_registry : gmap string (@tool_info World).
Variable max_retries : Z.
Variable pause : World → World.

(** X1. A step whose tool, once lowered, is not a key of the registry fails
    at once: the error names the lowered tool, [attempts] is 0 and nothing
    is called or awaited. *)
Theorem unknown_tool_fails_at_once step env :
  tools_registry !! tool_name_of step = None →
  _execute_step tools_registry max_retries pause step env
  = (with_error (PStr ("Unknown tool: " +:+ tool_name_of step)) (initial_result step),
     env).
Proof.
  intros Htool. unfold _execute_step, resolve.
  fold (tool_name_of step). by rewrite Htool.
Qed.

(** X2. When the requested function is not declared and the inferred one has
    no handler bound for the tool, the step fails without any call and the
    error names the inferred function, not the requested one. *)
Theorem missing_handler_names_inferred_function step env info inferred :
  tools_registry !! tool_name_of step = Some info →
  ti_functions info !! s_function step = None →
  _infer_function (tool_name_of step) step = Some inferred →
  inferred ≠ "" →
  (∀ function_info, ti_functions info !! inferred = Some function_info →
                    fi_handler function_info = None) →
  _execute_step tools_registry max_retries pause step env
  = (with_error (PStr ("No handler found for function: " +:+ inferred))
       (initial_result step), env).
Proof.
  intros Htool Hrequested Hinfer Hne Hunbound.
  unfold _execute_step, resolve. fold (tool_name_of step).
  rewrite Htool, Hrequested, Hinfer.
  apply String.eqb_neq in Hne. rewrite Hne. unfold bind_handler.
  destruct (ti_functions info !! inferred) as [function_info|] eqn:Hdeclared; [|done].
  by rewrite (Hunbound function_info).
Qed.

(** X3. A step that resolves fails only after [max_retries] attempts: the
    executor never gives up early. *)
Theorem failure_exhausts_attempts step env function_name expected_params h :
  resolve tools_registry (tool_name_of step) step
    = Resolved function_name expected_params h →
  1 ≤ max_retries →
  let run := _execute_step tools_registry max_retries pause step env in
  r_success run.1 = false →
  r_attempts run.1 = max_retries.
Proof.
  intros Hres Hmax.
  destruct (_execute_step_cases tools_registry max_retries pause step env)
    as [(message & Hres' & Hrun) | [(fn & ex & h' & Hres' & Hmax' & Hrun)
                                   | (fn & ex & h' & Hres' & _ & Hall & Hfin)]];
    cbv zeta; [congruence | lia |].
  inversion Hfin as [n response args Hn Hok Hlast Hr
                    | response args Hsoft Hlast Hr
                    | text Hfault Hr]; simpl; [discriminate|done|done].
Qed.

(** The counts of pauses and calls of one step. *)
Lemma _execute_step_counts step env :
  let run := _execute_step tools_registry max_retries pause step env in
  let evs := new_events env run.2 in
  trace run.2 = (trace env ++ evs)%list
  ∧ Z.of_nat (count_pauses evs) = Z.max 0 (r_attempts run.1 - 1)
  ∧ match resolve tools_registry (tool_name_of step) step with
    | Unresolved _ => evs = []
    | Resolved _ expected_params _ =>
        match _clean_parameters (s_parameters step) expected_params with
        | inl _ => count_invocations evs = 0%nat
        | inr args =>
            Z.of_nat (count_invocations evs) = r_attempts run.1
            ∧ Forall (called_with args) evs
        end
    end.
Proof.
  unfold _execute_step. fold (tool_name_of step). fold (initial_result step).
  destruct (resolve tools_registry (tool_name_of step) step) as [message | fn ex h];
    cbv zeta.
  - simpl. rewrite new_events_same, app_nil_r. done.
  - destruct (Z.to_nat max_retries) as [|todo] eqn:Htodo.
    + simpl. rewrite new_events_same, app_nil_r.
      split; [done|]. split; [done|].
      by destruct (_clean_parameters (s_parameters step) ex).
    + destruct (retry_loop_counts max_retries pause (tool_name_of step) fn ex h
                  (s_parameters step) (S todo) 0 (initial_result step) env)
        as (evs & Htrace & Hattempts & Hcalls); [lia|lia|].
      rewrite (new_events_app _ _ _ Htrace).
      split; [done|]. split; [lia|].
      destruct (_clean_parameters (s_parameters step) ex) as [text | args]; [done|].
      destruct Hcalls as [Hcount Hargs]. split; [lia | done].
Qed.


(** X5. Every call a step makes goes to the handler the step resolved to,
    under the lowered tool name, with the projection of the step's
    parameters as arguments; the number of calls never exceeds [attempts],
    which never exceeds [max_retries], and equals [attempts] when the
    projection does not raise. *)
Theorem calls_of_a_step step env :
  let run := _execute_step tools_registry max_retries pause step env in
  let evs := new_events env run.2 in
  Z.of_nat (count_invocations evs) ≤ r_attempts run.1
  ∧ r_attempts run.1 ≤ Z.max 0 max_retries
  ∧ (∀ tn fn args out, Invoked tn fn args out ∈ evs →
       tn = tool_name_of step
       ∧ ∃ expected_params h,
           resolve tools_registry (tool_name_of step) step
             = Resolved fn expected_params h
           ∧ _clean_parameters (s_parameters step) expected_params = inr args
           ∧ ∃ w, (h args w).1 = out)
  ∧ (∀ fn expected_params h args,
       resolve tools_registry (tool_name_of step) step
         = Resolved fn expected_params h →
       _clean_parameters (s_parameters step) expected_params = inr args →
       Z.of_nat (count_invocations evs) = r_attempts run.1).
Proof.
  pose proof (_execute_step_counts step env) as (Htrace & Hpauses & Hcalls).
  cbv zeta in *.
  destruct (_execute_step_cases tools_registry max_retries pause step env)
    as [(message & Hres & Hrun) | [(fn & ex & h & Hres & Hmax & Hrun)
                                  | (fn & ex & h & Hres & Hmax & Hall & Hfin)]];
    cbv zeta in *; rewrite Hres in Hcalls.
  - rewrite Hcalls, Hrun. simpl.
    split; [done|]. split; [lia|]. split; [|congruence].
    intros tn fn args out Hin. by apply elem_of_nil in Hin.
  - rewrite Hrun in *. simpl in *. rewrite new_events_same in *.
    split; [done|]. split; [lia|]. split; [|done].
    intros tn fn' args out Hin. by apply elem_of_nil in Hin.
  - assert (1 ≤ r_attempts
                  (_execute_step tools_registry max_retries pause step env).1
              ≤ max_retries) as Hbounds.
    { inversion Hfin as [n response args Hn Hok Hlast Hr
                        | response args Hsoft Hlast Hr
                        | text Hfault Hr]; simpl; lia. }
    split.
    { destruct (_clean_parameters (s_parameters step) ex); [lia|].
      destruct Hcalls as [-> _]. lia. }
    split; [lia|]. split.
    + intros tn fn' args out Hin.
      rewrite Forall_forall in Hall. destruct (Hall _ Hin) as (-> & -> & Hout).
      split; [done|]. exists ex, h. split; [done|]. split; [|done].
      destruct (_clean_parameters (s_parameters step) ex) as [text | args'].
      * unfold count_invocations in Hcalls.
        apply length_zero_iff_nil in Hcalls.
        assert (Invoked (tool_name_of step) fn args out
                ∈ filter (λ e, is_invocation e = true)
                    (new_events env
                       (_execute_step tools_registry max_retries pause step env).2))
          as Hfiltered by (apply list_elem_of_filter; done).
        rewrite Hcalls in Hfiltered. by apply elem_of_nil in Hfiltered.
      * destruct Hcalls as [_ Hargs]. rewrite Forall_forall in Hargs.
        specialize (Hargs _ Hin). simpl in Hargs. by subst.
    + intros fn' ex' h' args Hres' Hclean. rewrite Hres in Hres'.
      injection Hres' as <- <- <-.
      rewrite Hclean in Hcalls. by destruct Hcalls.
Qed.

End StepExecutorExtras.

(** ** Parameter projection *)

Section Projection.

Context `{PyRuntime}.

Lemma convert_param_plain param value :
  param ∉ ["limit"; "lat"; "lon"] → convert_param param value = inr value.
Proof. intros Hplain. unfold convert_param. by rewrite bool_decide_eq_false_2. Qed.

(** A conversion raises only when [int()] or [float()] raises something
    other than [ValueError] and [TypeError]. *)
Lemma convert_param_fault param value text :
  convert_param param value = inl text
  ↔ (param = "limit" ∧ py_int value = Failed text)
    ∨ ((param = "lat" ∨ param = "lon") ∧ py_float value = Failed text).
Proof.
  unfold convert_param. split.
  - case_bool_decide as Hin; [|discriminate].
    destruct (String.eqb_spec param "limit") as [-> | Hlimit].
    + destruct (py_int value); try discriminate. intros [= ->]. by left.
    + destruct (py_float value); try discriminate. intros [= ->]. right.
      split; [|done].
      repeat (apply elem_of_cons in Hin as [? | Hin]);
        [done | by left | by right | by apply elem_of_nil in Hin].
  - intros [[-> Hint] | [[-> | ->] Hfloat]]; simpl.
    + by rewrite Hint.
    + by rewrite Hfloat.
    + by rewrite Hfloat.
Qed.

Lemma clean_each_lookup expected_params parameters :
  ∀ cleaned out,
    clean_each expected_params parameters cleaned = inr out →
    ∀ k,
      (k ∈ expected_params → ∀ v, parameters !! k = Some v →
         ∃ v', convert_param k v = inr v' ∧ out !! k = Some v')
      ∧ ((k ∉ expected_params ∨ parameters !! k = None) → out !! k = cleaned !! k).
Proof.
  induction expected_params as [|param rest IH]; intros cleaned out Hclean k.
  - injection Hclean as <-. split; [by intros ?%elem_of_nil | done].
  - simpl in Hclean.
    destruct (parameters !! param) as [value|] eqn:Hvalue.
    + destruct (convert_param param value) as [text | value'] eqn:Hconvert;
        [discriminate|].
      destruct (IH _ _ Hclean k) as [Hin Hout]. split.
      * intros Hk v Hv. destruct (decide (k ∈ rest)) as [Hrest | Hrest];
          [by apply Hin|].
        apply elem_of_cons in Hk as [-> | Hk]; [|done].
        rewrite Hvalue in Hv. injection Hv as <-.
        exists value'. split; [done|].
        rewrite Hout by (by left). apply lookup_insert_eq.
      * intros Hk.
        assert (k ≠ param) as Hne.
        { intros ->. destruct Hk as [Hk | Hk]; [|congruence].
          apply Hk. by left. }
        rewrite Hout, lookup_insert_ne; [done|done|].
        destruct Hk as [Hk | Hk]; [|by right]. left.
        intros Hrest. apply Hk. by right.
    + destruct (IH _ _ Hclean k) as [Hin Hout]. split.
      * intros Hk v Hv. apply elem_of_cons in Hk as [-> | Hk]; [congruence|].
        by apply Hin.
      * intros Hk. apply Hout. destruct Hk as [Hk | Hk]; [|by right].
        left. intros Hrest. apply Hk. by right.
Qed.

(** X6. When no parameter names are declared, the parameters are passed on
    as they are. Otherwise the projected parameters hold exactly the
    declared names the step supplies: nothing else is passed, a name other
    than limit, lat and lon keeps its value, and limit, lat and lon carry
    the converted value, or the original one when the conversion is
    rejected. *)
Theorem projection_keeps_declared_names parameters expected_params cleaned :
  _clean_parameters parameters expected_params = inr cleaned →
  (expected_params = [] → cleaned = parameters)
  ∧ (expected_params ≠ [] →
     ∀ k,
       (k ∉ expected_params → cleaned !! k = None)
       ∧ (parameters !! k = None → cleaned !! k = None)
       ∧ (k ∈ expected_params → ∀ v, parameters !! k = Some v →
            ∃ v', cleaned !! k = Some v'
              ∧ (k ∉ ["limit"; "lat"; "lon"] → v' = v)
              ∧ (∀ converted,
                   (k = "limit" ∧ py_int v = Converted converted)
                   ∨ ((k = "lat" ∨ k = "lon") ∧ py_float v = Converted converted) →
                   v' = converted)
              ∧ ((k = "limit" ∧ py_int v = Rejected)
                 ∨ ((k = "lat" ∨ k = "lon") ∧ py_float v = Rejected) →
                 v' = v))).
Proof.
  intros Hclean. split.
  - intros ->. by injection Hclean as <-.
  - intros Hsome k. unfold _clean_parameters in Hclean.
    destruct expected_params as [|param rest]; [done|].
    destruct (clean_each_lookup _ _ _ _ Hclean k) as [Hin Hout].
    split; [intros Hk; rewrite Hout by (by left); apply lookup_empty|].
    split; [intros Hk; rewrite Hout by (by right); apply lookup_empty|].
    intros Hk v Hv. destruct (Hin Hk v Hv) as (v' & Hconvert & Hlookup).
    exists v'. split; [done|]. split.
    { intros Hplain. rewrite (convert_param_plain _ _ Hplain) in Hconvert.
      by injection Hconvert. }
    unfold convert_param in Hconvert. split.
    + intros converted [[-> Hint] | [[-> | ->] Hfloat]]; simpl in Hconvert.
      * rewrite Hint in Hconvert. by injection Hconvert.
      * rewrite Hfloat in Hconvert. by injection Hconvert.
      * rewrite Hfloat in Hconvert. by injection Hconvert.
    + intros [[-> Hint] | [[-> | ->] Hfloat]]; simpl in Hconvert.
      * rewrite Hint in Hconvert. by injection Hconvert.
      * rewrite Hfloat in Hconvert. by injection Hconvert.
      * rewrite Hfloat in Hconvert. by injection Hconvert.
Qed.

Lemma clean_each_fault expected_params parameters :
  ∀ cleaned,
    (∃ text, clean_each expected_params parameters cleaned = inl text)
    ↔ ∃ k v text, k ∈ expected_params ∧ parameters !! k = Some v
                  ∧ convert_param k v = inl text.
Proof.
  induction expected_params as [|param rest IH]; intros cleaned.
  - split; [intros [text [=]] | intros (k & v & text & Hk & _)].
    by apply elem_of_nil in Hk.
  - simpl. destruct (parameters !! param) as [value|] eqn:Hvalue.
    + destruct (convert_param param value) as [text | value'] eqn:Hconvert.
      * split; [|eauto]. intros _. exists param, value, text.
        split; [by left | done].
      * rewrite IH. split.
        -- intros (k & v & text & Hk & Hv & Hfault). exists k, v, text.
           split; [by right | done].
        -- intros (k & v & text & Hk & Hv & Hfault). exists k, v, text.
           apply elem_of_cons in Hk as [-> | Hk]; [congruence | done].
    + rewrite IH. split.
      * intros (k & v & text & Hk & Hv & Hfault). exists k, v, text.
        split; [by right | done].
      * intros (k & v & text & Hk & Hv & Hfault). exists k, v, text.
        apply elem_of_cons in Hk as [-> | Hk]; [congruence | done].
Qed.

(** X7. The projection raises exactly when the step supplies a declared
    limit, lat or lon on which [int()] (for limit) or [float()] (for lat and
    lon) raises an exception other than [ValueError] and [TypeError]; a
    value that is merely not convertible never makes it raise. *)
Theorem projection_raises_only_on_conversion_fault parameters expected_params :
  (∃ text, _clean_parameters parameters expected_params = inl text)
  ↔ ∃ k v text,
      k ∈ expected_params ∧ parameters !! k = Some v
      ∧ ((k = "limit" ∧ py_int v = Failed text)
         ∨ ((k = "lat" ∨ k = "lon") ∧ py_float v = Failed text)).
Proof.
  unfold _clean_parameters. destruct expected_params as [|param rest].
  - split; [intros [text [=]] | intros (k & v & text & Hk & _)].
    by apply elem_of_nil in Hk.
  - rewrite clean_each_fault. split.
    + intros (k & v & text & Hk & Hv & Hfault). exists k, v, text.
      by apply convert_param_fault in Hfault.
    + intros (k & v & text & Hk & Hv & Hfault). exists k, v, text.
      by apply convert_param_fault in Hfault.
Qed.

End Projection.

(** ** Resolution of github steps *)

Section GithubResolution.

Context `{PyRuntime} {World : Type}.

Variables search_repositories get_repository_details get_user_repos : @handler World.
Variables WEATHER_TOOL_INFO NEWS_TOOL_INFO : @tool_info World.

Lemma github_functions_lookup function_name :
  ti_functions
    (GITHUB_TOOL_INFO search_repositories get_repository_details get_user_repos)
    !! function_name
  = if String.eqb function_name "search_repositories" then
      Some {| fi_description := "Search GitHub repositories by keyword";
              fi_parameters := ["query"; "limit"];
              fi_handler := Some search_repositories |}
    else if String.eqb function_name "get_repository_details" then
      Some {| fi_description := "Get detailed information about a specific repository";
              fi_parameters := ["owner"; "repo"];
              fi_handler := Some get_repository_details |}
    else if String.eqb function_name "get_user_repos" then
      Some {| fi_description := "Get public repositories for a GitHub user";
              fi_parameters := ["username"; "limit"];
              fi_handler := Some get_user_repos |}
    else None.
Proof.
  unfold GITHUB_TOOL_INFO. cbn [ti_functions].
  destruct (String.eqb_spec function_name "search_repositories") as [-> | H1];
    [by rewrite lookup_insert_eq|].
  rewrite lookup_insert_ne by done.
  destruct (String.eqb_spec function_name "get_repository_details") as [-> | H2];
    [by rewrite lookup_insert_eq|].
  rewrite lookup_insert_ne by done.
  destruct (String.eqb_spec function_name "get_user_repos") as [-> | H3];
    [by rewrite lookup_insert_eq|].
  by rewrite lookup_insert_ne.
Qed.

(** X8. In the registry of the application a github step always resolves,
    whatever function it requests: a declared function is taken as
    requested, any other request is replaced by the inferred function, and
    the step is bound to the parameter names and the handler the github tool
    declares for that function. *)
Theorem github_steps_always_resolve step :
  ∃ function_name expected_params h,
    resolve
      (TOOLS_REGISTRY
         (GITHUB_TOOL_INFO search_repositories get_repository_details get_user_repos)
         WEATHER_TOOL_INFO NEWS_TOOL_INFO)
      "github" step
    = Resolved function_name expected_params h
    ∧ ((function_name = "search_repositories"
        ∧ expected_params = ["query"; "limit"] ∧ h = search_repositories)
       ∨ (function_name = "get_repository_details"
          ∧ expected_params = ["owner"; "repo"] ∧ h = get_repository_details)
       ∨ (function_name = "get_user_repos"
          ∧ expected_params = ["username"; "limit"] ∧ h = get_user_repos))
    ∧ (if bool_decide (s_function step
                       ∈ ["search_repositories"; "get_repository_details";
                          "get_user_repos"])
       then function_name = s_function step
       else _infer_function "github" step = Some function_name).
Proof.
  unfold resolve, TOOLS_REGISTRY. rewrite lookup_insert_eq.
  rewrite github_functions_lookup.
  destruct (String.eqb_spec (s_function step) "search_repositories") as [Hs | Hs].
  { rewrite Hs. unfold bind_handler. rewrite github_functions_lookup. simpl.
    eexists _, _, _. split; [reflexivity|]. split; [by left | done]. }
  destruct (String.eqb_spec (s_function step) "get_repository_details") as [Hd | Hd].
  { rewrite Hd. unfold bind_handler. rewrite github_functions_lookup. simpl.
    eexists _, _, _. split; [reflexivity|]. split; [by right; left | done]. }
  destruct (String.eqb_spec (s_function step) "get_user_repos") as [Hu | Hu].
  { rewrite Hu. unfold bind_handler. rewrite github_functions_lookup. simpl.
    eexists _, _, _. split; [reflexivity|]. split; [by right; right | done]. }
  rewrite bool_decide_eq_false_2.
  2:{ intros Hin. repeat (apply elem_of_cons in Hin as [? | Hin]); try done.
      by apply elem_of_nil in Hin. }
  unfold _infer_function, bind_handler. simpl.
  destruct (has_key "owner" (s_parameters step) && has_key "repo" (s_parameters step)).
  { rewrite github_functions_lookup. simpl.
    eexists _, _, _. split; [reflexivity|]. split; [by right; left | done]. }
  destruct (has_key "username" (s_parameters step)).
  { rewrite github_functions_lookup. simpl.
    eexists _, _, _. split; [reflexivity|]. split; [by right; right | done]. }
  rewrite github_functions_lookup. simpl.
  eexists _, _, _. split; [reflexivity|]. split; [by left | done].
Qed.

End GithubResolution.

(** ** More on the plan executor *)

Section PlanExecutorExtras.

Context `{PyRuntime} {World : Type}.

Variable tools_registry : gmap string (@tool_info World).
Variable max_retries : Z.
Variable pause : World → World.
Variable elapsed : World → World → pyval.

(** The loop of [execute_plan] from the empty totals. *)
Lemma execute_plan_as_loop plan env :
  let report := (execute_plan tools_registry max_retries pause elapsed plan env).1 in
  let run :=
    run_steps tools_registry max_retries pause (p_steps plan)
      {| t_step_results := []; t_tools_used := ∅;
         t_successful_steps := 0; t_failed_steps := 0 |} env in
  x_step_results report = t_step_results run.1
  ∧ x_successful_steps report = t_successful_steps run.1
  ∧ x_failed_steps report = t_failed_steps run.1
  ∧ x_total_steps report = Z.of_nat (length (p_steps plan))
  ∧ (p_steps plan ≠ [] → x_tools_used report = set_to_list (t_tools_used run.1))
  ∧ (execute_plan tools_registry max_retries pause elapsed plan env).2 = run.2.
Proof.
  unfold execute_plan. destruct (p_steps plan) as [|step rest]; [done|].
  cbv zeta.
  by destruct (run_steps tools_registry max_retries pause (step :: rest) _ env).
Qed.

(** The loop run on two sequences of steps, one after the other. *)
Lemma run_steps_app steps1 steps2 :
  ∀ acc env,
    run_steps tools_registry max_retries pause (steps1 ++ steps2) acc env
    = run_steps tools_registry max_retries pause steps2
        (run_steps tools_registry max_retries pause steps1 acc env).1
        (run_steps tools_registry max_retries pause steps1 acc env).2.
Proof.
  induction steps1 as [|step rest IH]; intros acc env; [done|].
  simpl. destruct (_execute_step tools_registry max_retries pause step env).
  apply IH.
Qed.

Lemma tally_step_counts step r acc :
  t_successful_steps (tally_step step r acc)
  = t_successful_steps acc + (if r_success r then 1 else 0)
  ∧ t_failed_steps (tally_step step r acc)
    = t_failed_steps acc + (if r_success r then 0 else 1).
Proof. unfold tally_step. destruct (r_success r); simpl; lia. Qed.

(** The totals the loop starts from only shift what it returns. *)
Lemma run_steps_shift steps :
  ∀ acc acc' env,
    let run := run_steps tools_registry max_retries pause steps acc env in
    let run' := run_steps tools_registry max_retries pause steps acc' env in
    run.2 = run'.2
    ∧ ∃ results,
        t_step_results run.1 = (t_step_results acc ++ results)%list
        ∧ t_step_results run'.1 = (t_step_results acc' ++ results)%list
        ∧ t_successful_steps run.1 - t_successful_steps acc
          = t_successful_steps run'.1 - t_successful_steps acc'
        ∧ t_failed_steps run.1 - t_failed_steps acc
          = t_failed_steps run'.1 - t_failed_steps acc'.
Proof.
  induction steps as [|step rest IH]; intros acc acc' env; cbv zeta.
  - simpl. split; [done|]. exists []. rewrite !app_nil_r.
    split; [done|]. split; [done|]. lia.
  - simpl. destruct (_execute_step tools_registry max_retries pause step env)
      as [r env1].
    destruct (IH (tally_step step r acc) (tally_step step r acc') env1)
      as (Henv & results & Hres & Hres' & Hok & Hko).
    split; [done|]. exists (r :: results).
    rewrite Hres, Hres', !tally_step_results, <- !app_assoc.
    split; [done|]. split; [done|].
    destruct (tally_step_counts step r acc) as [Hs Hf].
    destruct (tally_step_counts step r acc') as [Hs' Hf'].
    rewrite Hs, Hs' in Hok. rewrite Hf, Hf' in Hko. lia.
Qed.

(** X9. Executing a plan is executing its steps one after the other from
    the world the earlier steps left: the report of a plan whose steps are
    those of a first plan followed by those of a second has the results of
    the first followed by the results the second gets when it starts where
    the first ended; the counts add up, and the final world and trace are
    those of the second run. *)
Theorem plans_compose plan plan1 plan2 env :
  p_steps plan = (p_steps plan1 ++ p_steps plan2)%list →
  let run := execute_plan tools_registry max_retries pause elapsed plan env in
  let run1 := execute_plan tools_registry max_retries pause elapsed plan1 env in
  let run2 := execute_plan tools_registry max_retries pause elapsed plan2 run1.2 in
  x_step_results run.1 = (x_step_results run1.1 ++ x_step_results run2.1)%list
  ∧ x_successful_steps run.1 = x_successful_steps run1.1 + x_successful_steps run2.1
  ∧ x_failed_steps run.1 = x_failed_steps run1.1 + x_failed_steps run2.1
  ∧ x_total_steps run.1 = x_total_steps run1.1 + x_total_steps run2.1
  ∧ run.2 = run2.2.
Proof.
  intros Hsteps. cbv zeta.
  destruct (execute_plan_as_loop plan env) as (-> & -> & -> & -> & _ & ->).
  destruct (execute_plan_as_loop plan1 env) as (-> & -> & -> & -> & _ & ->).
  destruct (execute_plan_as_loop plan2
              (run_steps tools_registry max_retries pause (p_steps plan1)
                 {| t_step_results := []; t_tools_used := ∅;
                    t_successful_steps := 0; t_failed_steps := 0 |} env).2)
    as (-> & -> & -> & -> & _ & ->).
  rewrite Hsteps, run_steps_app, length_app.
  destruct (run_steps_shift (p_steps plan2)
              (run_steps tools_registry max_retries pause (p_steps plan1)
                 {| t_step_results := []; t_tools_used := ∅;
                    t_successful_steps := 0; t_failed_steps := 0 |} env).1
              {| t_step_results := []; t_tools_used := ∅;
                 t_successful_steps := 0; t_failed_steps := 0 |}
              (run_steps tools_registry max_retries pause (p_steps plan1)
                 {| t_step_results := []; t_tools_used := ∅;
                    t_successful_steps := 0; t_failed_steps := 0 |} env).2)
    as (Henv & results & Hres & Hres' & Hok & Hko).
  simpl in Hres', Hok, Hko. rewrite Hres, Hres'.
  split; [done|]. split; [lia|]. split; [lia|]. split; [lia|done].
Qed.

(** The events of one step: none of them consults the text-generation
    capability, and the calls are at most [max_retries]. *)
Lemma _execute_step_budget step env :
  let run := _execute_step tools_registry max_retries pause step env in
  ∃ evs, trace run.2 = (trace env ++ evs)%list
    ∧ Forall (λ e, is_generation e = false) evs
    ∧ Z.of_nat (count_invocations evs) ≤ Z.max 0 max_retries.
Proof.
  pose proof (_execute_step_counts tools_registry max_retries pause step env)
    as (Htrace & _ & Hcalls).
  cbv zeta in *.
  exists (new_events env (_execute_step tools_registry max_retries pause step env).2).
  split; [done|].
  destruct (_execute_step_cases tools_registry max_retries pause step env)
    as [(message & Hres & Hrun) | [(fn & ex & h & Hres & Hmax & Hrun)
                                  | (fn & ex & h & Hres & Hmax & Hall & Hfin)]];
    cbv zeta in *; rewrite Hres in Hcalls.
  - rewrite Hcalls. split; [constructor|]. unfold count_invocations. simpl. lia.
  - rewrite Hrun. simpl. rewrite new_events_same.
    split; [constructor|]. unfold count_invocations. simpl. lia.
  - split.
    + eapply Forall_impl; [exact Hall|]. by intros [].
    + assert (r_attempts
                (_execute_step tools_registry max_retries pause step env).1
              ≤ max_retries) as Hbound.
      { inversion Hfin as [n response args Hn Hok Hlast Hr
                          | response args Hsoft Hlast Hr
                          | text Hfault Hr]; simpl; lia. }
      destruct (_clean_parameters (s_parameters step) ex); [lia|].
      destruct Hcalls as [-> _]. lia.
Qed.

Lemma run_steps_budget steps :
  ∀ acc env,
    let run := run_steps tools_registry max_retries pause steps acc env in
    ∃ evs, trace run.2 = (trace env ++ evs)%list
      ∧ Forall (λ e, is_generation e = false) evs
      ∧ Z.of_nat (count_invocations evs)
        ≤ Z.max 0 max_retries * Z.of_nat (length steps).
Proof.
  induction steps as [|step rest IH]; intros acc env; cbv zeta.
  - exists []. simpl. rewrite app_nil_r. split; [done|]. split; [constructor|].
    unfold count_invocations. simpl. lia.
  - simpl.
    destruct (_execute_step_budget step env) as (evs1 & Htrace1 & Hall1 & Hcount1).
    destruct (_execute_step tools_registry max_retries pause step env)
      as [r env1].
    destruct (IH (tally_step step r acc) env1) as (evs2 & Htrace2 & Hall2 & Hcount2).
    exists (evs1 ++ evs2)%list. simpl in Htrace1.
    split; [by rewrite Htrace2, Htrace1, <- app_assoc|].
    split; [by apply Forall_app|].
    rewrite count_invocations_app. lia.
Qed.

(** X10. Executing a plan only adds to the trace; it never consults the
    text-generation capability; and it makes at most [max_retries] handler
    calls per step of the plan. *)
Theorem plan_call_budget plan env :
  let run := execute_plan tools_registry max_retries pause elapsed plan env in
  let evs := new_events env run.2 in
  trace run.2 = (trace env ++ evs)%list
  ∧ Forall (λ e, is_generation e = false) evs
  ∧ Z.of_nat (count_invocations evs)
    ≤ Z.max 0 max_retries * Z.of_nat (length (p_steps plan)).
Proof.
  cbv zeta.
  destruct (execute_plan_as_loop plan env) as (_ & _ & _ & _ & _ & ->).
  destruct (run_steps_budget (p_steps plan)
              {| t_step_results := []; t_tools_used := ∅;
                 t_successful_steps := 0; t_failed_steps := 0 |} env)
    as (evs & Htrace & Hall & Hcount).
  by rewrite (new_events_app _ _ _ Htrace).
Qed.

Lemma successful_tools_length steps results :
  length steps = length results →
  length (successful_tools steps results)
  = length (filter (λ r, r_success r = true) results).
Proof.
  unfold successful_tools. rewrite length_fmap.
  revert results. induction steps as [|step steps IH]; intros [|r results] Hlen;
    try done.
  simpl zip. rewrite !filter_cons. simpl.
  destruct (r_success r); simpl; rewrite IH; auto.
Qed.

Lemma successful_tools_in_plan steps results t :
  t ∈ successful_tools steps results → ∃ step, step ∈ steps ∧ recorded_tool step = t.
Proof.
  unfold successful_tools. intros ([step r] & -> & Hin)%list_elem_of_fmap.
  apply list_elem_of_filter in Hin as [_ Hin].
  exists step. split; [|done]. by apply elem_of_zip_l in Hin.
Qed.

(** X11. For a plan with at least one step, every tool of [tools_used] is the
    recorded tool of a step of the plan; [tools_used] never has more entries
    than there are successful steps; and it is empty exactly when no step
    succeeded. *)
Theorem tools_used_and_successes plan env :
  p_steps plan ≠ [] →
  let report := (execute_plan tools_registry max_retries pause elapsed plan env).1 in
  (∀ t, t ∈ x_tools_used report → ∃ step, step ∈ p_steps plan ∧ recorded_tool step = t)
  ∧ Z.of_nat (length (x_tools_used report)) ≤ x_successful_steps report
  ∧ (x_tools_used report = [] ↔ x_successful_steps report = 0).
Proof.
  intros Hsteps. cbv zeta.
  destruct (execute_plan_as_loop plan env) as (_ & -> & _ & _ & -> & _); [|done].
  pose proof (run_steps_totals tools_registry max_retries pause (p_steps plan)
                {| t_step_results := []; t_tools_used := ∅;
                   t_successful_steps := 0; t_failed_steps := 0 |} env)
    as (results & _ & Hall & -> & _ & ->).
  simpl. rewrite (left_id_L ∅ (∪)), Z.add_0_l.
  pose proof (successful_tools_length _ _ (Forall2_length _ _ _ Hall)) as Hlen.
  set (tools := successful_tools (p_steps plan) results) in *.
  assert (∀ t, t ∈ set_to_list (list_to_set tools : gset string) ↔ t ∈ tools)
    as Hmember.
  { intros t. by rewrite set_to_list_elem_of, elem_of_list_to_set. }
  assert (length (set_to_list (list_to_set tools : gset string)) ≤ length tools)%nat
    as Hshort.
  { apply submseteq_length, NoDup_submseteq; [apply set_to_list_NoDup|].
    intros t. apply Hmember. }
  split; [|split].
  - intros t Hin. apply Hmember in Hin. by apply successful_tools_in_plan in Hin.
  - lia.
  - split.
    + intros Hempty. destruct tools as [|t tools'] eqn:Htools; [simpl in Hlen; lia|].
      assert (t ∈ set_to_list (list_to_set (t :: tools') : gset string)) as Hin
        by (apply Hmember; by left).
      rewrite Hempty in Hin. by apply elem_of_nil in Hin.
    + intros Hzero. apply length_zero_iff_nil. lia.
Qed.

End PlanExecutorExtras.

(** ** More on the verifier *)

Lemma filter_nonempty_exists {A} (P : A → Prop) `{∀ x, Decision (P x)} (l : list A) :
  filter P l ≠ [] → Exists P l.
Proof.
  intros Hne. destruct (filter P l) as [|x rest] eqn:Hfilter; [done|].
  assert (x ∈ filter P l) as Hin by (rewrite Hfilter; by left).
  apply list_elem_of_filter in Hin as [HP Hin]. apply Exists_exists. eauto.
Qed.

Lemma filter_complement_length (results : list StepResult) :
  (length (filter (λ r, r_success r = true) results)
   + length (filter (λ r, r_success r = false) results))%nat
  = length results.
Proof.
  induction results as [|r results IH]; [done|].
  rewrite !filter_cons. destruct (r_success r); simpl; lia.
Qed.

Section VerifierExtras.

Context `{PyRuntime} {World : Type}.

Variable verify_results :
  string → Plan → list StepResult → World → option Verification * World.

(** What the verifier adds to the trace. *)
Lemma generation_trace_only original_task plan report env :
  trace (verify_and_format verify_results original_task plan report env).2
  = (trace env
     ++ if bool_decide (Exists (λ r, r_success r = true) (x_step_results report))
        then [Generated] else [])%list.
Proof.
  unfold verify_and_format.
  destruct (x_step_results report) as [|r results] eqn:Hresults.
  { rewrite bool_decide_eq_false_2; [by rewrite app_nil_r|].
    intros Hex. by apply Exists_nil in Hex. }
  destruct (filter (λ r, r_success r = true) (r :: results)) as [|ok oks] eqn:Hoks.
  - rewrite bool_decide_eq_false_2; [by rewrite app_nil_r|].
    intros Hex. by apply (filter_exists (λ r, r_success r = true)) in Hex.
  - rewrite bool_decide_eq_true_2.
    2:{ apply (filter_nonempty_exists (λ r, r_success r = true)).
        by rewrite Hoks. }
    by destruct (verify_results original_task plan (r :: results) (world env))
      as [[verification|] w].
Qed.

(** X12. The verifier consults the text-generation capability exactly once
    when at least one step succeeded and never otherwise, and it calls no
    handler and never pauses: that consultation is the only event it can
    add to the trace, whichever path it takes and even when the fallback
    formatting raises. *)
Theorem generation_consulted_once original_task plan report env :
  let run := verify_and_format verify_results original_task plan report env in
  new_events env run.2
  = (if bool_decide (Exists (λ r, r_success r = true) (x_step_results report))
     then [Generated] else [])
  ∧ count_invocations (new_events env run.2) = 0%nat
  ∧ count_pauses (new_events env run.2) = 0%nat.
Proof.
  cbv zeta.
  rewrite (new_events_app _ _ _ (generation_trace_only original_task plan report env)).
  split; [done|]. by case_bool_decide.
Qed.

(** X13. Whenever the verifier returns, on any of its paths, the steps
    [get_steps_to_retry] gives are the failed steps of the report, in plan
    order, each with the id, the action and the error of its result; there
    are none exactly when every step succeeded. *)
Theorem steps_to_retry_are_the_failed_steps original_task plan report env v :
  (verify_and_format verify_results original_task plan report env).1 = Some v →
  get_steps_to_retry v
  = (λ r, {| f_step_id := r_step_id r; f_action := r_action r;
             f_error := r_error r |})
      <$> filter (λ r, r_success r = false) (x_step_results report)
  ∧ (get_steps_to_retry v = []
     ↔ Forall (λ r, r_success r = true) (x_step_results report)).
Proof.
  intros Hv.
  assert (get_steps_to_retry v = failed_steps_of (x_step_results report)) as Hfailed.
  { revert Hv. unfold verify_and_format, get_steps_to_retry.
    fold (failed_steps_of (x_step_results report)).
    destruct (x_step_results report) as [|r results]; [by intros [= <-]|].
    destruct (filter (λ r, r_success r = true) (r :: results)) as [|ok oks];
      [by intros [= <-]|].
    destruct (verify_results original_task plan (r :: results) (world env))
      as [[verification|] w]; cbn [fst]; [by intros [= <-]|].
    unfold _basic_format.
    destruct (mapM result_parts (r :: results)); [|discriminate].
    by intros [= <-]. }
  rewrite Hfailed. split; [done|].
  unfold failed_steps_of. split.
  - intros Hnone. apply fmap_nil_inv in Hnone.
    apply Forall_forall. intros r Hin.
    destruct (r_success r) eqn:Hr; [done|].
    assert (r ∈ filter (λ r, r_success r = false) (x_step_results report)) as Hbad
      by (by apply list_elem_of_filter).
    rewrite Hnone in Hbad. by apply elem_of_nil in Hbad.
  - intros Hall. rewrite (filter_none (λ r, r_success r = false)); [done|].
    eapply Forall_impl; [exact Hall|]. intros r ->. discriminate.
Qed.

(** X14. On the fallback path (at least one step succeeded, the
    text-generation capability failed) a result that is returned is complete
    exactly when no step failed; it carries no suggestion and no
    missing-information entry. *)
Theorem fallback_is_complete_without_failures original_task plan report env v :
  Exists (λ r, r_success r = true) (x_step_results report) →
  (verify_results original_task plan (x_step_results report) (world env)).1 = None →
  (verify_and_format verify_results original_task plan report env).1 = Some v →
  (v_is_complete v = true ↔ Forall (λ r, r_success r = true) (x_step_results report))
  ∧ v_suggestions v = Some []
  ∧ v_missing_info v = None.
Proof.
  intros Hok Hdown. unfold verify_and_format.
  apply (filter_exists (λ r, r_success r = true)) in Hok.
  destruct (x_step_results report) as [|r results]; [done|].
  destruct (filter (λ r, r_success r = true) (r :: results)) as [|ok oks]; [done|].
  destruct (verify_results original_task plan (r :: results) (world env))
    as [reply w]. simpl in Hdown. subst reply. cbn [fst].
  unfold _basic_format.
  destruct (mapM result_parts (r :: results)); [|discriminate].
  intros [= <-]. cbn [v_is_complete v_suggestions v_missing_info].
  split; [|done].
  rewrite bool_decide_eq_true, length_zero_iff_nil. split.
  - intros Hnone. apply fmap_nil_inv in Hnone.
    apply Forall_forall. intros r' Hin.
    destruct (r_success r') eqn:Hr; [done|].
    assert (r' ∈ filter (λ r, r_success r = false) (r :: results)) as Hbad
      by (by apply list_elem_of_filter).
    rewrite Hnone in Hbad. by apply elem_of_nil in Hbad.
  - intros Hall. rewrite (filter_none (λ r, r_success r = false)); [done|].
    eapply Forall_impl; [exact Hall|]. intros r' ->. discriminate.
Qed.

(** X15. When at least one step succeeded and the text-generation capability
    replies, the verifier returns its completeness flag and missing
    information unchanged, counts the successful steps and all steps, the
    failed steps being the difference, and, when no step failed, returns
    the capability's answer as it is. *)
Theorem generated_reply_is_passed_on original_task plan report env verification :
  Exists (λ r, r_success r = true) (x_step_results report) →
  (verify_results original_task plan (x_step_results report) (world env)).1
    = Some verification →
  ∃ v,
    (verify_and_format verify_results original_task plan report env).1 = Some v
    ∧ v_is_complete v = g_is_complete verification
    ∧ v_missing_info v = Some (g_missing_info verification)
    ∧ v_suggestions v = g_suggestions verification
    ∧ v_total_steps v = Some (Z.of_nat (length (x_step_results report)))
    ∧ v_successful_steps v
        = Some (Z.of_nat (length (x_step_results report))
                - Z.of_nat (length (v_failed_steps v)))
    ∧ (Forall (λ r, r_success r = true) (x_step_results report) →
       v_formatted_answer v = g_formatted_answer verification).
Proof.
  intros Hok Hreply. unfold verify_and_format.
  apply (filter_exists (λ r, r_success r = true)) in Hok.
  pose proof (filter_complement_length (x_step_results report)) as Hsplit.
  destruct (x_step_results report) as [|r results]; [done|].
  destruct (filter (λ r, r_success r = true) (r :: results)) as [|ok oks] eqn:Hoks;
    [done|].
  destruct (verify_results original_task plan (r :: results) (world env))
    as [reply w]. simpl in Hreply. subst reply. cbn [fst].
  eexists. split; [reflexivity|].
  cbn [v_is_complete v_missing_info v_suggestions v_total_steps v_successful_steps
       v_failed_steps v_formatted_answer].
  split; [done|]. split; [done|]. split; [done|]. split; [done|].
  split.
  - rewrite length_fmap. f_equal. lia.
  - intros Hall. rewrite (filter_none (λ r, r_success r = false)); [done|].
    eapply Forall_impl; [exact Hall|]. intros r' ->. discriminate.
Qed.

End VerifierExtras.

(** ** Re-execution and the request handler *)

Section ServiceExtras.

Context `{PyRuntime} {World : Type}.

Variable tools_registry : gmap string (@tool_info World).
Variable max_retries : Z.
Variable pause : World → World.
Variable elapsed : World → World → pyval.
Variable verify_results :
  string → Plan → list StepResult → World → option Verification * World.
Variable str_strip : string → string.
Variable create_plan : string → World → (string + Plan * option pyval) * World.
Variable formatting_fault : string → list StepResult → string.

(** X16. The steps [get_steps_to_retry] returns carry an id, an action and
    an error but neither tool, function nor parameters. Unless the registry
    has a tool named by the lowered empty string, re-executing one with
    [execute_single_step] fails at once with an unknown-tool error for that
    name: no handler is called. *)
Theorem retrying_a_reported_step_calls_nothing verification failed env :
  tools_registry !! str_lower "" = None →
  failed ∈ get_steps_to_retry verification →
  execute_single_step tools_registry max_retries pause (step_of_failed failed) env
  = ({| r_step_id := f_step_id failed; r_tool := str_lower ""; r_function := "";
        r_action := f_action failed; r_success := false; r_data := PNone;
        r_error := PStr ("Unknown tool: " +:+ str_lower ""); r_attempts := 0 |},
     env).
Proof.
  intros Htool _. unfold execute_single_step, _execute_step, resolve.
  simpl. by rewrite Htool.
Qed.

(** The stages of [process_query] after a plan with steps was made. *)
Lemma process_query_stages request env plan plan_error w :
  create_plan (str_strip request) (world env) = (inr (plan, plan_error), w) →
  p_steps plan ≠ [] →
  let planned := {| world := w; trace := trace env |} in
  let executed :=
    execute_plan tools_registry max_retries pause elapsed plan planned in
  let verified :=
    verify_and_format verify_results (str_strip request) plan executed.1 executed.2 in
  let run :=
    process_query tools_registry max_retries pause elapsed verify_results
      str_strip create_plan formatting_fault request env in
  run.2 = verified.2
  ∧ match verified.1 with
    | None =>
        run.1 = inl (internal_server_error
                       (formatting_fault (str_strip request)
                          (x_step_results executed.1)))
    | Some v =>
        run.1
        = inr {| q_success :=
                   v_is_complete v || (0 <? x_successful_steps executed.1);
                 q_query := str_strip request;
                 q_plan := plan;
                 q_execution_results := x_step_results executed.1;
                 q_final_answer := v_formatted_answer v;
                 q_metadata :=
                   {| m_steps_executed := x_total_steps executed.1;
                      m_successful_steps := x_successful_steps executed.1;
                      m_failed_steps := x_failed_steps executed.1;
                      m_tools_used := x_tools_used executed.1;
                      m_execution_time := elapsed (world env) (world verified.2) |} |}
    end.
Proof.
  intros Hplan Hsteps. cbv zeta. unfold process_query. rewrite Hplan.
  destruct (p_steps plan) as [|step rest] eqn:Hp; [done|].
  destruct (execute_plan tools_registry max_retries pause elapsed plan
              {| world := w; trace := trace env |}) as [report env1].
  cbn [fst snd].
  destruct (verify_and_format verify_results (str_strip request) plan report env1)
    as [[v|] env2]; done.
Qed.

(** The results of a plan with steps: one per step, and the counts. *)
Lemma execute_plan_counts plan env :
  let report := (execute_plan tools_registry max_retries pause elapsed plan env).1 in
  length (x_step_results report) = length (p_steps plan)
  ∧ x_total_steps report = Z.of_nat (length (p_steps plan))
  ∧ x_successful_steps report
    = Z.of_nat (length (filter (λ r, r_success r = true) (x_step_results report)))
  ∧ x_failed_steps report
    = Z.of_nat (length (filter (λ r, r_success r = false) (x_step_results report))).
Proof.
  cbv zeta.
  destruct (execute_plan_as_loop tools_registry max_retries pause elapsed plan env)
    as (-> & -> & -> & -> & _ & _).
  pose proof (run_steps_totals tools_registry max_retries pause (p_steps plan)
                {| t_step_results := []; t_tools_used := ∅;
                   t_successful_steps := 0; t_failed_steps := 0 |} env)
    as (results & -> & Hall & -> & -> & _).
  simpl. apply Forall2_length in Hall. split; [done|]. split; [done|]. lia.
Qed.

(** X17. A response of [process_query] reports success exactly when at least
    one step of the plan succeeded, whatever the verifier says about
    completeness; it always carries at least one step result. *)
Theorem response_success_flag request env response :
  (process_query tools_registry max_retries pause elapsed verify_results
     str_strip create_plan formatting_fault request env).1 = inr response →
  q_execution_results response ≠ []
  ∧ (q_success response = true
     ↔ Exists (λ r, r_success r = true) (q_execution_results response)).
Proof.
  intros Hrun.
  destruct (create_plan (str_strip request) (world env)) as [planned w] eqn:Hplan.
  destruct planned as [text | [plan plan_error]].
  { unfold process_query in Hrun. rewrite Hplan in Hrun. discriminate. }
  destruct (decide (p_steps plan = [])) as [Hnone | Hsteps].
  { unfold process_query in Hrun. rewrite Hplan, Hnone in Hrun. discriminate. }
  destruct (process_query_stages request env plan plan_error w Hplan Hsteps)
    as [_ Hresult]. cbv zeta in Hresult.
  set (report := (execute_plan tools_registry max_retries pause elapsed plan
                    {| world := w; trace := trace env |}).1) in *.
  set (env1 := (execute_plan tools_registry max_retries pause elapsed plan
                  {| world := w; trace := trace env |}).2) in *.
  pose proof (execute_plan_counts plan {| world := w; trace := trace env |})
    as (Hlen & _ & Hok & _). cbv zeta in Hlen, Hok. fold report in Hlen, Hok.
  destruct ((verify_and_format verify_results (str_strip request) plan report env1).1)
    as [v|] eqn:Hv; [|congruence].
  rewrite Hrun in Hresult. injection Hresult as ->.
  cbn [q_execution_results q_success]. split.
  { intros Hempty. rewrite Hempty in Hlen. by destruct (p_steps plan). }
  destruct (filter (λ r, r_success r = true) (x_step_results report))
    as [|ok oks] eqn:Hoks.
  - assert (¬ Exists (λ r, r_success r = true) (x_step_results report)) as Hnot.
    { intros Hex. by apply (filter_exists (λ r, r_success r = true)) in Hex. }
    rewrite Hok. simpl. rewrite orb_false_r.
    split; [|done]. intros Hcomplete. exfalso.
    revert Hv. unfold verify_and_format.
    destruct (x_step_results report) as [|r results];
      [intros [= <-]; discriminate|].
    rewrite Hoks. intros [= <-]. discriminate.
  - rewrite Hok. simpl. rewrite orb_true_r. split; [|done]. intros _.
    apply (filter_nonempty_exists (λ r, r_success r = true)). by rewrite Hoks.
Qed.

(** X18. The metadata of a response agree with the plan and the results: the
    number of steps executed is the number of steps of the plan and of step
    results, the successful and failed counts are the numbers of successful
    and failed results and add up to it, and the query returned is the
    stripped request. *)
Theorem response_metadata_agree request env response :
  (process_query tools_registry max_retries pause elapsed verify_results
     str_strip create_plan formatting_fault request env).1 = inr response →
  let metadata := q_metadata response in
  q_query response = str_strip request
  ∧ m_steps_executed metadata = Z.of_nat (length (p_steps (q_plan response)))
  ∧ m_steps_executed metadata = Z.of_nat (length (q_execution_results response))
  ∧ m_successful_steps metadata
    = Z.of_nat (length (filter (λ r, r_success r = true)
                          (q_execution_results response)))
  ∧ m_failed_steps metadata
    = Z.of_nat (length (filter (λ r, r_success r = false)
                          (q_execution_results response)))
  ∧ m_successful_steps metadata + m_failed_steps metadata = m_steps_executed metadata.
Proof.
  intros Hrun.
  destruct (create_plan (str_strip request) (world env)) as [planned w] eqn:Hplan.
  destruct planned as [text | [plan plan_error]].
  { unfold process_query in Hrun. rewrite Hplan in Hrun. discriminate. }
  destruct (decide (p_steps plan = [])) as [Hnone | Hsteps].
  { unfold process_query in Hrun. rewrite Hplan, Hnone in Hrun. discriminate. }
  destruct (process_query_stages request env plan plan_error w Hplan Hsteps)
    as [_ Hresult]. cbv zeta in Hresult.
  set (report := (execute_plan tools_registry max_retries pause elapsed plan
                    {| world := w; trace := trace env |}).1) in *.
  set (env1 := (execute_plan tools_registry max_retries pause elapsed plan
                  {| world := w; trace := trace env |}).2) in *.
  pose proof (execute_plan_counts plan {| world := w; trace := trace env |})
    as (Hlen & Htotal & Hok & Hko). cbv zeta in Hlen, Htotal, Hok, Hko.
  fold report in Hlen, Htotal, Hok, Hko.
  destruct ((verify_and_format verify_results (str_strip request) plan report env1).1)
    as [v|] eqn:Hv; [|congruence].
  rewrite Hrun in Hresult. injection Hresult as ->. cbv zeta.
  cbn [q_query q_plan q_execution_results q_metadata m_steps_executed
       m_successful_steps m_failed_steps].
  pose proof (filter_complement_length (x_step_results report)) as Hsplit.
  split; [done|]. split; [done|]. split; [lia|]. split; [done|]. split; [done|].
  lia.
Qed.

(** X19. A request leaves the trace as it was when the planner raises or
    returns a plan without steps. Otherwise it adds the events of the plan
    executor, which hold at most [max_retries] handler calls per step and no
    consultation of the text-generation capability, followed by at most one
    such consultation, made by the verifier. *)
Theorem request_call_budget request env :
  let run :=
    process_query tools_registry max_retries pause elapsed verify_results
      str_strip create_plan formatting_fault request env in
  match (create_plan (str_strip request) (world env)).1 with
  | inl _ => trace run.2 = trace env
  | inr (plan, _) =>
      ∃ calls consultation,
        trace run.2 = (trace env ++ calls ++ consultation)%list
        ∧ Forall (λ e, is_generation e = false) calls
        ∧ Z.of_nat (count_invocations calls)
          ≤ Z.max 0 max_retries * Z.of_nat (length (p_steps plan))
        ∧ (consultation = [] ∨ consultation = [Generated])
        ∧ (p_steps plan = [] → calls = [] ∧ consultation = [])
  end.
Proof.
  cbv zeta.
  destruct (create_plan (str_strip request) (world env)) as [planned w] eqn:Hplan.
  destruct planned as [text | [plan plan_error]]; cbn [fst].
  { unfold process_query. by rewrite Hplan. }
  destruct (decide (p_steps plan = [])) as [Hnone | Hsteps].
  { unfold process_query. rewrite Hplan, Hnone. exists [], []. simpl.
    rewrite app_nil_r. split; [done|]. split; [constructor|].
    split; [unfold count_invocations; simpl; lia|]. split; [by left|done]. }
  destruct (process_query_stages request env plan plan_error w Hplan Hsteps)
    as [-> _].
  pose proof (run_steps_budget tools_registry max_retries pause (p_steps plan)
                {| t_step_results := []; t_tools_used := ∅;
                   t_successful_steps := 0; t_failed_steps := 0 |}
                {| world := w; trace := trace env |})
    as (calls & Htrace & Hall & Hcount). cbv zeta in Htrace.
  destruct (execute_plan_as_loop tools_registry max_retries pause elapsed plan
              {| world := w; trace := trace env |}) as (_ & _ & _ & _ & _ & Henv).
  rewrite <- Henv in Htrace. simpl in Htrace.
  exists calls.
  exists (if bool_decide
               (Exists (λ r, r_success r = true)
                  (x_step_results
                     (execute_plan tools_registry max_retries pause elapsed plan
                        {| world := w; trace := trace env |}).1))
          then [Generated] else []).
  split.
  - pose proof (generation_trace_only verify_results (str_strip request) plan
                  (execute_plan tools_registry max_retries pause elapsed plan
                     {| world := w; trace := trace env |}).1
                  (execute_plan tools_registry max_retries pause elapsed plan
                     {| world := w; trace := trace env |}).2) as Hgen.
    rewrite Hgen, Htrace. by rewrite <- app_assoc.
  - split; [done|]. split; [done|]. split; [case_bool_decide; auto | done].
Qed.

End ServiceExtras.

(** ** Faults that escape the verifier *)

Section EscapingFaults.

Context `{PyRuntime} {World : Type}.

Variable tools_registry : gmap string (@tool_info World).
Variable max_retries : Z.
Variable pause : World → World.
Variable elapsed : World → World → pyval.
Variable verify_results :
  string → Plan → list StepResult → World → option Verification * World.
Variable str_strip : string → string.
Variable create_plan : string → World → (string + Plan * option pyval) * World.
Variable formatting_fault : string → list StepResult → string.

Lemma verify_and_format_raises original_task plan report env :
  (verify_and_format verify_results original_task plan report env).1 = None
  ↔ (verify_results original_task plan (x_step_results report) (world env)).1 = None
    ∧ Exists (λ r, r_success r = true
                   ∧ _format_tool_data (r_tool r) (r_data r) = None)
        (x_step_results report).
Proof.
  unfold verify_and_format.
  destruct (x_step_results report) as [|r results] eqn:Hresults.
  { split; [discriminate|]. intros [_ Hex]. by apply Exists_nil in Hex. }
  destruct (filter (λ r, r_success r = true) (r :: results)) as [|ok oks] eqn:Hoks.
  - split; [discriminate|]. intros [_ Hex]. exfalso.
    assert (Exists (λ r, r_success r = true) (r :: results)) as Hok.
    { eapply Exists_impl; [exact Hex|]. by intros r' [? _]. }
    by apply (filter_exists (λ r, r_success r = true)) in Hok.
  - destruct (verify_results original_task plan (r :: results) (world env))
      as [[verification|] w]; cbn [fst].
    + split; [discriminate | by intros [? _]].
    + unfold _basic_format.
      destruct (mapM result_parts (r :: results)) as [parts|] eqn:Hparts.
      * split; [discriminate|]. intros [_ Hex]. exfalso.
        assert (mapM result_parts (r :: results) = None) as Hnone; [|congruence].
        apply mapM_None. eapply Exists_impl; [exact Hex|].
        intros r' [Hok Hfmt]. unfold result_parts. by rewrite Hok, Hfmt.
      * split; [|done]. intros _. split; [done|].
        apply mapM_None in Hparts. eapply Exists_impl; [exact Hparts|].
        intros r'. unfold result_parts. destruct (r_success r'); [|discriminate].
        destruct (_format_tool_data (r_tool r') (r_data r')); [discriminate|done].
Qed.

(** X20. An exception escapes [verify_and_format] exactly when the
    text-generation capability failed and a per-tool formatter of the
    fallback path raises on the payload of a successful step; in particular
    never when every step failed or the capability replied. *)
Theorem verifier_raises_only_in_fallback original_task plan report env :
  (verify_and_format verify_results original_task plan report env).1 = None
  ↔ (verify_results original_task plan (x_step_results report) (world env)).1 = None
    ∧ Exists (λ r, r_success r = true
                   ∧ _format_tool_data (r_tool r) (r_data r) = None)
        (x_step_results report).
Proof. apply verify_and_format_raises. Qed.


End EscapingFaults.

(** ** The fallback formatters *)

Section Formatters.

Context `{PyRuntime}.

Lemma news_article_lines_nonempty article lines :
  news_article_lines article = Some lines → lines ≠ [].
Proof.
  unfold news_article_lines. intros Hlines.
  repeat (match type of Hlines with
          | (?m ≫= _) = Some _ =>
              let x := fresh in destruct m as [x|] eqn:?; simpl in Hlines;
              [|discriminate]
          end).
  by injection Hlines as <-.
Qed.

Lemma github_repo_lines_nonempty repo lines :
  github_repo_lines repo = Some lines → lines ≠ [].
Proof.
  unfold github_repo_lines. intros Hlines.
  repeat (match type of Hlines with
          | (?m ≫= _) = Some _ =>
              let x := fresh in destruct m as [x|] eqn:?; simpl in Hlines;
              [|discriminate]
          end).
  by injection Hlines as <-.
Qed.

Lemma mjoin_nonempty {A} (first : list A) (rest : list (list A)) :
  first ≠ [] → mjoin (first :: rest) ≠ [].
Proof. destruct first; [done|]. intros _. discriminate. Qed.

(** The lines of a list of entries, each rendered by [render]: nothing past
    the fifth entry is read, and the payload itself is printed only when
    there is no entry. *)
Lemma rendered_entries (render : pyval → option (list string)) entries extra
    (payload payload' : pyval) :
  (∀ entry lines, render entry = Some lines → lines ≠ []) →
  length entries = 5%nat →
  (first_five ← py_slice 5 (PList (entries ++ extra));
   items ← py_iter first_five;
   lines ← mjoin <$> mapM render items;
   Some (match lines with [] => fmt payload | _ => join_lines lines end))
  = (first_five ← py_slice 5 (PList entries);
     items ← py_iter first_five;
     lines ← mjoin <$> mapM render items;
     Some (match lines with [] => fmt payload' | _ => join_lines lines end)).
Proof.
  intros Hrender Hlen. simpl.
  rewrite take_app_length' by done. rewrite take_ge by lia.
  destruct entries as [|entry entries]; [done|].
  destruct (mapM render (entry :: entries)) as [rendered|] eqn:Hmap; [|done].
  simpl. apply mapM_Some_1 in Hmap.
  inversion Hmap as [|? first ? others Hfirst _]; subst.
  pose proof (mjoin_nonempty first others (Hrender _ _ Hfirst)) as Hne.
  by destruct (mjoin (first :: others)).
Qed.

(** X22. The news formatter reads the first five articles only: whatever
    follows them in the payload, well formed or not, changes neither its
    output nor whether it raises. *)
Theorem news_formatter_reads_five_articles d d' articles extra :
  dict_get "articles" d = Some (PList (articles ++ extra)) →
  dict_get "articles" d' = Some (PList articles) →
  length articles = 5%nat →
  _format_news_data (PDict d) = _format_news_data (PDict d').
Proof.
  intros Hd Hd' Hlen. unfold _format_news_data, py_get. rewrite Hd, Hd'.
  cbn [default mbind option_bind].
  apply (rendered_entries news_article_lines articles extra (PDict d) (PDict d'));
    [apply news_article_lines_nonempty | done].
Qed.

(** X23. The github formatter reads the first five repositories of a search
    payload only: whatever follows them changes neither its output nor
    whether it raises. *)
Theorem github_formatter_reads_five_repositories d d' repositories extra :
  dict_get "repositories" d = Some (PList (repositories ++ extra)) →
  dict_get "repositories" d' = Some (PList repositories) →
  length repositories = 5%nat →
  _format_github_data (PDict d) = _format_github_data (PDict d').
Proof.
  intros Hd Hd' Hlen. unfold _format_github_data, py_in, py_get, dict_has.
  rewrite Hd, Hd'. cbn [default mbind option_bind].
  pose proof (rendered_entries github_repo_lines repositories extra (PDict d) (PDict d')
                github_repo_lines_nonempty Hlen) as Hsame.
  simpl in Hsame |- *.
  rewrite take_app_length' in * by done.
  destruct (mapM github_repo_lines (take 5 repositories)); simpl in *; done.
Qed.

End Formatters.

(** ** Slicing a text *)






Lemma concat_cons_nonempty g gs :
  gs ≠ [] → String.concat "" (g :: gs) = g +:+ String.concat "" gs.
Proof. by destruct gs. Qed.






Section Truncation.

Context `{PyRuntime}.

Lemma news_article_lines_renders article :
  news_article_lines article = None ↔ article_renders article = false.
Proof.
  unfold news_article_lines, article_renders, py_get.
  destruct article as [| | | | | |fields]; try done.
  cbn [mbind option_bind].
  destruct (default PNone (dict_get "published_at" fields)) as [|[]|z|bits|s|l|d];
    destruct (default PNone (dict_get "description" fields)) as [|[]|z'|bits'|s'|l'|d'];
    simpl; repeat case_match; simpl; try done; split; done.
Qed.

(** X24. For a payload whose articles are a list, the news formatter raises
    exactly when one of the first five articles is not a dict or has a
    truthy publication date or description that is neither a string nor a
    list; a missing, empty or null field never makes it raise. *)
Theorem news_formatter_faults d articles :
  dict_get "articles" d = Some (PList articles) →
  _format_news_data (PDict d) = None
  ↔ Exists (λ article, article_renders article = false) (take 5 articles).
Proof.
  intros Hd. unfold _format_news_data, py_get. rewrite Hd.
  cbn [default py_slice py_iter]. simpl.
  destruct (mapM news_article_lines (take 5 articles)) as [lines|] eqn:Hmap; simpl.
  - split; [discriminate|]. intros Hex. exfalso.
    assert (mapM news_article_lines (take 5 articles) = None) as Hnone; [|congruence].
    apply mapM_None. eapply Exists_impl; [exact Hex|].
    intros article. apply news_article_lines_renders.
  - split; [|done]. intros _. apply mapM_None in Hmap.
    eapply Exists_impl; [exact Hmap|]. intros article.
    apply news_article_lines_renders.
Qed.


End Truncation.

(** ** The github handlers *)

Section GithubToolProperties.

Context `{PyRuntime} {World : Type}.
Variable _make_request : string → option (list (string * pyval)) → World → pyval * World.

(** A value of the wrong type makes the handler raise. *)
Ltac wrong_type :=
  let Hx := fresh in intros Hx; simpl in Hx; discriminate Hx.

Lemma search_entry_Some repo entry :
  search_entry repo = Some entry →
  ∃ d, repo = PDict d ∧ owner_ok repo = true ∧ is_dict entry = true
    ∧ py_get "full_name" PNone entry = Some (default PNone (dict_get "full_name" d))
    ∧ py_get "description" (PStr "No description") entry
      = Some (default PNone (dict_get "description" d))
    ∧ py_get "stars" (PInt 0) entry
      = Some (default PNone (dict_get "stargazers_count" d))
    ∧ py_get "forks" (PInt 0) entry = Some (default PNone (dict_get "forks_count" d))
    ∧ py_get "language" (PStr "N/A") entry
      = Some (default PNone (dict_get "language" d)).
Proof.
  destruct repo as [| | | | | |d]; try wrong_type.
  unfold search_entry, owner_ok. cbn [py_get mbind option_bind].
  destruct (default (PDict []) (dict_get "owner" d)) as [| | | | | |o];
    try wrong_type.
  cbn [py_get mbind option_bind]. intros [= <-].
  exists d. repeat split; reflexivity.
Qed.

Lemma search_entry_is_Some repo :
  owner_ok repo = true → is_Some (search_entry repo).
Proof.
  destruct repo as [| | | | | |d]; try discriminate.
  unfold owner_ok, search_entry. cbn [py_get mbind option_bind].
  destruct (default (PDict []) (dict_get "owner" d)) as [| | | | | |o]; try discriminate.
  intros _. cbn [py_get mbind option_bind]. eauto.
Qed.

Lemma user_repo_entry_Some repo entry :
  user_repo_entry repo = Some entry → is_dict repo = true ∧ is_dict entry = true.
Proof.
  destruct repo as [| | | | | |d]; try wrong_type.
  unfold user_repo_entry. cbn [py_get mbind option_bind]. by intros [= <-].
Qed.


Lemma mapM_dicts {A} (f : A → option pyval) (l : list A) (k : list pyval) :
  (∀ x y, f x = Some y → is_dict y = true) →
  mapM f l = Some k → Forall (λ y, is_dict y = true) k.
Proof.
  intros Hf Hk. apply mapM_Some in Hk.
  induction Hk as [|x y l k Hxy _ IH]; constructor; eauto.
Qed.

(** The github formatter on a list of dicts. *)
Lemma github_repo_lines_is_Some repo :
  is_dict repo = true → is_Some (github_repo_lines repo).
Proof.
  destruct repo as [| | | | | |d]; try discriminate. intros _.
  unfold github_repo_lines. cbn [py_get mbind option_bind]. eauto.
Qed.

Lemma format_repositories_is_Some (payload : list (string * pyval)) repositories :
  dict_get "repositories" payload = Some (PList repositories) →
  Forall (λ y, is_dict y = true) repositories →
  is_Some (_format_github_data (PDict payload)).
Proof.
  intros Hget Hdicts. unfold _format_github_data.
  cbn [py_in py_get mbind option_bind]. unfold dict_has. rewrite Hget.
  cbn [default py_slice py_iter mbind option_bind].
  assert (is_Some (mapM github_repo_lines (take 5 repositories))) as [lines Hlines].
  { apply mapM_is_Some_2. apply Forall_take.
    eapply Forall_impl; [exact Hdicts|]. intros repo. apply github_repo_lines_is_Some. }
  unfold id. cbn [py_slice py_iter mbind option_bind]. rewrite Hlines.
  simpl. eauto.
Qed.



(** What [search_repositories] returns on a reply without an error. *)
Lemma search_repositories_payload query limit w payload :
  let per_page := Z.min (Z.max 1 limit) 100 in
  let request :=
    _make_request "/search/repositories"
      (Some [("q", query); ("sort", PStr "stars"); ("order", PStr "desc");
             ("per_page", PInt per_page)]) w in
  py_in "error" request.1 = Some false →
  (search_repositories _make_request query limit w).1 = Some payload →
  ∃ total_count repositories,
    payload = PDict [("success", PBool true); ("query", query);
                     ("total_count", total_count);
                     ("returned_count", PInt (Z.of_nat (length repositories)));
                     ("repositories", PList repositories)]
    ∧ Z.of_nat (length repositories) ≤ per_page
    ∧ Forall (λ repo, is_dict repo = true) repositories.
Proof.
  intros per_page request. unfold search_repositories.
  fold per_page. fold request. destruct request as [result w'].
  cbn [fst snd]. intros ->. cbn [mbind option_bind].
  destruct (py_get "items" (PList []) result) as [items|]; [|wrong_type].
  cbn [mbind option_bind].
  destruct (py_get "total_count" (PInt 0) result) as [total_count|] eqn:Htotal.
  2: { intros Hx. exfalso. revert Hx.
       destruct (py_slice _ items) as [first|]; [|wrong_type]. cbn [mbind option_bind].
       destruct (py_iter first) as [repos|]; [|wrong_type]. cbn [mbind option_bind].
       destruct (mapM search_entry repos); wrong_type. }
  destruct items as [| | | |s|items|]; try wrong_type.
  - (* the items are a string: its characters have no [get] *)
    cbn [py_slice py_iter mbind option_bind].
    destruct (str_chars (str_take (Z.to_nat per_page) s)) as [|c chars].
    + cbn. intros [= <-]. exists total_count, []. split; [reflexivity|].
      split; [simpl; lia | constructor].
    + wrong_type.
  - cbn [py_slice py_iter mbind option_bind].
    destruct (mapM search_entry (take (Z.to_nat per_page) items))
      as [repositories|] eqn:Hentries; [|wrong_type].
    cbn [mbind option_bind]. intros [= <-].
    exists total_count, repositories. split; [reflexivity|]. split.
    + apply length_mapM in Hentries. rewrite <- Hentries, length_take. lia.
    + eapply mapM_dicts; [|exact Hentries].
      intros repo entry Hentry. apply search_entry_Some in Hentry.
      by destruct Hentry as (d & _ & _ & Hdict & _).
Qed.

(** X26. [search_repositories] makes one request, for a page of 1 to 100
    results whatever the limit; a reply with an error is returned as it is;
    otherwise the payload counts the repositories it lists, which are never
    more than the page size, and a reply whose items are objects with an
    owner object gives as many repositories as the page size allows. *)
Theorem search_returns_at_most_limit query limit w :
  let per_page := Z.min (Z.max 1 limit) 100 in
  let request :=
    _make_request "/search/repositories"
      (Some [("q", query); ("sort", PStr "stars"); ("order", PStr "desc");
             ("per_page", PInt per_page)]) w in
  let run := search_repositories _make_request query limit w in
  1 ≤ per_page ≤ 100
  ∧ run.2 = request.2
  ∧ (py_in "error" request.1 = Some true → run.1 = Some request.1)
  ∧ (py_in "error" request.1 = Some false →
     ∀ payload, run.1 = Some payload →
       ∃ total_count repositories,
         payload = PDict [("success", PBool true); ("query", query);
                          ("total_count", total_count);
                          ("returned_count", PInt (Z.of_nat (length repositories)));
                          ("repositories", PList repositories)]
         ∧ Z.of_nat (length repositories) ≤ per_page)
  ∧ (∀ d items,
       request.1 = PDict d → dict_has "error" d = false →
       dict_get "items" d = Some (PList items) →
       Forall (λ repo, owner_ok repo = true) items →
       ∃ payload repositories,
         run.1 = Some payload
         ∧ py_getitem "repositories" payload = Some (PList repositories)
         ∧ length repositories = Nat.min (Z.to_nat per_page) (length items)).
Proof.
  intros per_page request run. split; [lia|]. split; [|split; [|split]].
  - subst run. unfold search_repositories. fold per_page. fold request.
    by destruct request.
  - subst run. unfold search_repositories. fold per_page. fold request.
    destruct request as [result w']. cbn [fst snd]. by intros ->.
  - intros Hreply payload Hrun.
    destruct (search_repositories_payload query limit w payload Hreply Hrun)
      as (total_count & repositories & -> & Hbound & _).
    by exists total_count, repositories.
  - intros d items Hreply Herror Hitems Hwell. subst run.
    unfold search_repositories. fold per_page. fold request.
    destruct request as [result w']. cbn [fst snd] in Hreply |- *. subst result.
    cbn [py_in py_get mbind option_bind]. rewrite Herror, Hitems.
    cbn [default]. unfold id. cbn [py_slice py_iter mbind option_bind].
    destruct (mapM search_entry (take (Z.to_nat per_page) items))
      as [repositories|] eqn:Hentries.
    + cbn [mbind option_bind]. eexists _, repositories. split; [reflexivity|].
      split; [reflexivity|].
      apply length_mapM in Hentries. by rewrite <- Hentries, length_take.
    + apply mapM_None_1 in Hentries. apply Exists_exists in Hentries.
      destruct Hentries as (repo & Hin & Hnone).
      apply elem_of_take in Hin as (i & Hin & _).
      apply list_elem_of_lookup_2 in Hin.
      rewrite Forall_forall in Hwell. specialize (Hwell repo Hin).
      apply search_entry_is_Some in Hwell. rewrite Hnone in Hwell.
      by destruct Hwell.
Qed.



(** What the other two handlers return when it is not a reply passed on. *)
Lemma get_user_repos_payload username limit w payload :
  (get_user_repos _make_request username limit w).1 = Some payload →
  py_in "error" payload = Some false →
  ∃ user repositories,
    payload = PDict [("success", PBool true); ("user", user);
                     ("repositories", PList repositories);
                     ("returned_count", PInt (Z.of_nat (length repositories)))]
    ∧ Forall (λ repo, is_dict repo = true) repositories.
Proof.
  unfold get_user_repos.
  destruct (_make_request ("/users/" +:+ fmt username) None w) as [user_result w1].
  destruct (py_in "error" user_result) as [[]|] eqn:Hlookup; [| |wrong_type].
  { cbn [fst]. intros [= <-] Hpayload. congruence. }
  destruct (_make_request _ _ w1) as [repos_result w2]. cbn [fst].
  destruct (py_in "error" repos_result) as [[]|] eqn:Hlisting; [| |wrong_type].
  { cbn [mbind option_bind]. intros [= <-] Hpayload. congruence. }
  cbn [mbind option_bind].
  destruct (py_slice_to limit repos_result) as [first|]; [|wrong_type].
  cbn [mbind option_bind].
  destruct (py_iter first) as [repos|]; [|wrong_type]. cbn [mbind option_bind].
  destruct (mapM user_repo_entry repos) as [repositories|] eqn:Hentries; [|wrong_type].
  cbn [mbind option_bind].
  destruct (user_entry user_result) as [user|]; [|wrong_type].
  cbn [mbind option_bind]. intros [= <-] _. exists user, repositories.
  split; [reflexivity|]. eapply mapM_dicts; [|exact Hentries].
  intros repo entry Hentry. by apply user_repo_entry_Some in Hentry as [_ ?].
Qed.

Lemma repository_entry_Some result languages top_contributors repository :
  repository_entry result languages top_contributors = Some repository →
  is_dict repository = true.
Proof.
  unfold repository_entry. intros Hentry.
  repeat (match type of Hentry with
          | (?m ≫= _) = Some _ =>
              let x := fresh in destruct m as [x|]; cbn [mbind option_bind] in Hentry;
              [|discriminate]
          end).
  by injection Hentry as <-.
Qed.

Lemma get_repository_details_payload owner repo w payload :
  (get_repository_details _make_request owner repo w).1 = Some payload →
  py_in "error" payload = Some false →
  ∃ repository,
    payload = PDict [("success", PBool true); ("repository", PDict repository)].
Proof.
  unfold get_repository_details.
  destruct (_make_request _ None w) as [result w1].
  destruct (py_in "error" result) as [[]|] eqn:Hlookup; [| |wrong_type].
  { cbn [fst]. intros [= <-] Hpayload. congruence. }
  destruct (_make_request _ None w1) as [languages_result w2].
  destruct (py_in "error" languages_result) as [languages_failed|]; [|wrong_type].
  destruct (_make_request _ _ w2) as [contributors_result w3]. cbn [fst].
  destruct (py_in "error" contributors_result) as [contributors_failed|];
    [|wrong_type].
  cbn [mbind option_bind].
  match goal with
  | |- (?m ≫= _) = _ → _ => destruct m as [top_contributors|]; [|wrong_type]
  end.
  cbn [mbind option_bind].
  destruct (repository_entry _ _ _) as [repository|] eqn:Hentry; [|wrong_type].
  cbn [mbind option_bind]. intros [= <-] _.
  apply repository_entry_Some in Hentry.
  destruct repository as [| | | | | |fields]; try discriminate. by exists fields.
Qed.

(** X28. [get_repository_details] tolerates the failure of its two
    secondary requests: when the repository lookup succeeds, with an owner
    that is an object if present and a license that is an object if truthy,
    and the languages and contributors requests both come back with an
    error, it still returns a success payload after three requests, with no
    languages and no contributors. *)
Theorem details_tolerate_secondary_failures owner repo w d :
  let base := "/repos/" +:+ fmt owner +:+ "/" +:+ fmt repo in
  let lookup := _make_request base None w in
  let languages := _make_request (base +:+ "/languages") None lookup.2 in
  let contributors :=
    _make_request (base +:+ "/contributors") (Some [("per_page", PInt 5)])
      languages.2 in
  lookup.1 = PDict d → dict_has "error" d = false →
  owner_ok (PDict d) = true → license_ok (PDict d) = true →
  py_in "error" languages.1 = Some true →
  py_in "error" contributors.1 = Some true →
  ∃ repository,
    get_repository_details _make_request owner repo w
    = (Some (PDict [("success", PBool true); ("repository", PDict repository)]),
       contributors.2)
    ∧ dict_get "languages" repository = Some (PDict [])
    ∧ dict_get "top_contributors" repository = Some (PList []).
Proof.
  intros base lookup languages contributors Hlookup Herror Howner Hlicense
    Hlanguages Hcontributors.
  unfold get_repository_details. fold base. fold lookup.
  destruct lookup as [result w1]. cbn [fst snd] in *. subst result.
  cbn [py_in]. rewrite Herror. fold languages.
  destruct languages as [languages_result w2]. cbn [fst snd] in *.
  rewrite Hlanguages. fold contributors.
  destruct contributors as [contributors_result w3]. cbn [fst snd] in *.
  rewrite Hcontributors. cbn [negb andb mbind option_bind].
  unfold repository_entry, license_name. cbn [py_get mbind option_bind].
  unfold owner_ok in Howner. unfold license_ok in Hlicense.
  destruct (default (PDict []) (dict_get "owner" d)) as [| | | | | |o];
    try discriminate Howner.
  cbn [py_get mbind option_bind].
  destruct (dict_get "license" d) as [license|] eqn:Hl; simpl in Hlicense; simpl.
  - destruct (truthy license) eqn:Htruthy; simpl in Hlicense.
    + destruct license; try discriminate Hlicense.
      simpl. eexists. split; [reflexivity|]. split; reflexivity.
    + eexists. split; [reflexivity|]. split; reflexivity.
  - eexists. split; [reflexivity|]. split; reflexivity.
Qed.

(** X29. The fallback formatter of the verifier never raises on a payload
    a github handler built: whenever one of the three handlers returns a
    payload that is not a reply passed on, that is, one without an error
    key, [_format_github_data] returns a text. *)
Theorem github_payloads_are_formatted payload :
  (∃ query limit w,
     (search_repositories _make_request query limit w).1 = Some payload)
  ∨ (∃ username limit w,
       (get_user_repos _make_request username limit w).1 = Some payload)
  ∨ (∃ owner repo w,
       (get_repository_details _make_request owner repo w).1 = Some payload) →
  py_in "error" payload = Some false →
  is_Some (_format_github_data payload).
Proof.
  intros [(query & limit & w & Hrun) | [(username & limit & w & Hrun)
                                       | (owner & repo & w & Hrun)]] Hpayload.
  - pose proof (search_repositories_payload query limit w payload) as Hshape.
    cbv zeta in Hshape.
    assert (py_in "error"
              (_make_request "/search/repositories"
                 (Some [("q", query); ("sort", PStr "stars"); ("order", PStr "desc");
                        ("per_page", PInt (Z.min (Z.max 1 limit) 100))]) w).1
            = Some false) as Hreply.
    { revert Hrun. unfold search_repositories.
      destruct (_make_request _ _ w) as [result w']. cbn [fst].
      destruct (py_in "error" result) as [[]|] eqn:Hresult; [| done |wrong_type].
      cbn [mbind option_bind]. intros [= <-]. congruence. }
    destruct (Hshape Hreply Hrun) as (total_count & repositories & -> & _ & Hdicts).
    by apply (format_repositories_is_Some _ repositories).
  - destruct (get_user_repos_payload _ _ _ _ Hrun Hpayload)
      as (user & repositories & -> & Hdicts).
    by apply (format_repositories_is_Some _ repositories).
  - destruct (get_repository_details_payload _ _ _ _ Hrun Hpayload)
      as (repository & ->).
    unfold _format_github_data. cbn. eauto.
Qed.

(** X30. A repository listed by [search_repositories] or [get_user_repos]
    always carries the keys the formatter reads, so the defaults of the
    formatter are never used: a field missing in the reply is rendered as
    None, not as the default description, count or language. *)
Theorem listed_repositories_render_missing_fields_as_None repo entry :
  search_entry repo = Some entry ∨ user_repo_entry repo = Some entry →
  ∃ d,
    repo = PDict d
    ∧ github_repo_lines entry
      = Some [ "- **" +:+ fmt (default PNone (dict_get "full_name" d)) +:+ "**: "
                 +:+ fmt (default PNone (dict_get "description" d));
               "  ⭐ " +:+ fmt (default PNone (dict_get "stargazers_count" d))
                 +:+ " | 🍴 " +:+ fmt (default PNone (dict_get "forks_count" d))
                 +:+ " | Language: "
                 +:+ fmt (default PNone (dict_get "language" d)) ].
Proof.
  intros [Hentry | Hentry].
  - apply search_entry_Some in Hentry.
    destruct Hentry as (d & -> & _ & _ & Hname & Hdescription & Hstars & Hforks & Hlanguage).
    exists d. split; [reflexivity|]. unfold github_repo_lines.
    rewrite Hname, Hdescription, Hstars, Hforks, Hlanguage. reflexivity.
  - destruct repo as [| | | | | |d]; try (simpl in Hentry; discriminate Hentry).
    unfold user_repo_entry in Hentry. cbn [py_get mbind option_bind] in Hentry.
    injection Hentry as <-. exists d. split; reflexivity.
Qed.

End GithubToolProperties.

(** ** Witnesses of the further properties *)

(** X1, witness: the Slack step in the sample registry. *)
Lemma unknown_tool_fails_at_once_witness :
  sample_registry !! tool_name_of slack_step = None
  ∧ _execute_step sample_registry 3 no_pause slack_step start
    = (with_error (PStr ("Unknown tool: " +:+ tool_name_of slack_step))
         (initial_result slack_step), start).
Proof.
  split; [reflexivity|].
  apply (unknown_tool_fails_at_once sample_registry 3 no_pause slack_step start).
  reflexivity.
Defined.

(** X2, witness: coordinates for a weather tool that knows cities only. *)
Lemma missing_handler_names_inferred_function_witness :
  city_weather_registry !! tool_name_of coordinates_step = Some city_weather
  ∧ ti_functions city_weather !! s_function coordinates_step = None
  ∧ _infer_function (tool_name_of coordinates_step) coordinates_step
    = Some "get_weather_by_coordinates"
  ∧ _execute_step city_weather_registry 3 no_pause coordinates_step start
    = (with_error (PStr "No handler found for function: get_weather_by_coordinates")
         (initial_result coordinates_step), start).
Proof.
  split; [reflexivity|]. split; [reflexivity|]. split; [reflexivity|].
  apply (missing_handler_names_inferred_function city_weather_registry 3 no_pause
           coordinates_step start city_weather "get_weather_by_coordinates").
  - reflexivity.
  - reflexivity.
  - reflexivity.
  - discriminate.
  - intros declared Hdeclared. vm_compute in Hdeclared. discriminate.
Defined.

(** X3, witness: the news step fails on its third attempt. *)
Lemma failure_exhausts_attempts_witness :
  resolve sample_registry (tool_name_of news_step) news_step
    = Resolved "search_news" ["query"; "limit"] (raising "connection refused")
  ∧ 1 ≤ 3
  ∧ r_success (_execute_step sample_registry 3 no_pause news_step start).1 = false
  ∧ r_attempts (_execute_step sample_registry 3 no_pause news_step start).1 = 3.
Proof.
  split; [reflexivity|]. split; [lia|]. split; [reflexivity|].
  apply (failure_exhausts_attempts sample_registry 3 no_pause news_step start
           "search_news" ["query"; "limit"] (raising "connection refused"));
    [reflexivity | lia | reflexivity].
Defined.

(** X6, witness: a limit given as text and a name that is not declared. *)
Lemma projection_keeps_declared_names_witness :
  _clean_parameters (list_to_map [("limit", PStr "5"); ("extra", PStr "x")]) ["limit"]
    = inr {[ "limit" := PInt 5 ]}
  ∧ ({[ "limit" := PInt 5 ]} : gmap string pyval) !! "extra" = None.
Proof.
  assert (_clean_parameters
            (list_to_map [("limit", PStr "5"); ("extra", PStr "x")]) ["limit"]
          = inr {[ "limit" := PInt 5 ]}) as Hclean by (vm_compute; reflexivity).
  split; [exact Hclean|].
  destruct (projection_keeps_declared_names _ _ _ Hclean) as [_ Hkeys].
  destruct (Hkeys ltac:(discriminate) "extra") as [Hother _].
  apply Hother. intros Hin. apply list_elem_of_singleton in Hin. discriminate.
Defined.

(** X9, witness: the github step, then the news step. *)
Lemma plans_compose_witness :
  p_steps (sample_plan [github_step; news_step])
    = (p_steps (sample_plan [github_step]) ++ p_steps (sample_plan [news_step]))%list
  ∧ x_step_results
      (execute_plan sample_registry 3 no_pause no_clock
         (sample_plan [github_step; news_step]) start).1
    = (x_step_results
         (execute_plan sample_registry 3 no_pause no_clock
            (sample_plan [github_step]) start).1
       ++ x_step_results
            (execute_plan sample_registry 3 no_pause no_clock
               (sample_plan [news_step])
               (execute_plan sample_registry 3 no_pause no_clock
                  (sample_plan [github_step]) start).2).1)%list.
Proof.
  split; [reflexivity|].
  destruct (plans_compose sample_registry 3 no_pause no_clock
              (sample_plan [github_step; news_step]) (sample_plan [github_step])
              (sample_plan [news_step]) start eq_refl) as [Hresults _].
  exact Hresults.
Defined.

(** X11, witness: two successful steps of two tools and a failed one. *)
Lemma tools_used_and_successes_witness :
  p_steps (sample_plan [weather_step; github_step; news_step]) ≠ []
  ∧ Z.of_nat
      (length (x_tools_used
                 (execute_plan sample_registry 3 no_pause no_clock
                    (sample_plan [weather_step; github_step; news_step]) start).1))
    ≤ x_successful_steps
        (execute_plan sample_registry 3 no_pause no_clock
           (sample_plan [weather_step; github_step; news_step]) start).1.
Proof.
  split; [discriminate|].
  destruct (tools_used_and_successes sample_registry 3 no_pause no_clock
              (sample_plan [weather_step; github_step; news_step]) start
              ltac:(discriminate)) as (_ & Hbound & _).
  exact Hbound.
Defined.

(** X13, witness: the report whose only step failed. *)
Lemma steps_to_retry_are_the_failed_steps_witness :
  ∃ v,
    (verify_and_format llm_down "Any news about proofs?" (sample_plan [news_step])
       failed_report start).1 = Some v
    ∧ get_steps_to_retry v
      = (λ r, {| f_step_id := r_step_id r; f_action := r_action r;
                 f_error := r_error r |})
          <$> filter (λ r, r_success r = false) (x_step_results failed_report).
Proof.
  destruct ((verify_and_format llm_down "Any news about proofs?"
               (sample_plan [news_step]) failed_report start).1)
    as [v|] eqn:Hv; [|vm_compute in Hv; discriminate].
  exists v. split; [reflexivity|].
  destruct (steps_to_retry_are_the_failed_steps llm_down "Any news about proofs?"
              (sample_plan [news_step]) failed_report start v Hv) as [Hfailed _].
  exact Hfailed.
Defined.

(** X14, witness: the fallback on the report with one failed step. *)
Lemma fallback_is_complete_without_failures_witness :
  Exists (λ r, r_success r = true) (x_step_results mixed_report)
  ∧ (llm_down "What is Rocq?" (sample_plan [github_step; news_step])
       (x_step_results mixed_report) (world start)).1 = None
  ∧ ∃ v,
      (verify_and_format llm_down "What is Rocq?"
         (sample_plan [github_step; news_step]) mixed_report start).1 = Some v
      ∧ v_suggestions v = Some [].
Proof.
  assert (Exists (λ r, r_success r = true) (x_step_results mixed_report)) as Hok
    by (vm_compute; apply Exists_cons_hd; reflexivity).
  split; [exact Hok|]. split; [reflexivity|].
  destruct ((verify_and_format llm_down "What is Rocq?"
               (sample_plan [github_step; news_step]) mixed_report start).1)
    as [v|] eqn:Hv; [|vm_compute in Hv; discriminate].
  exists v. split; [reflexivity|].
  destruct (fallback_is_complete_without_failures llm_down "What is Rocq?"
              (sample_plan [github_step; news_step]) mixed_report start v
              Hok eq_refl Hv) as (_ & Hsuggestions & _).
  exact Hsuggestions.
Defined.

(** X15, witness: the same report with a client that answers. *)
Lemma generated_reply_is_passed_on_witness :
  Exists (λ r, r_success r = true) (x_step_results mixed_report)
  ∧ (llm_answering "Rocq is a proof assistant." "What is Rocq?"
       (sample_plan [github_step; news_step]) (x_step_results mixed_report)
       (world start)).1
    = Some {| g_formatted_answer := "Rocq is a proof assistant.";
              g_is_complete := false; g_missing_info := [];
              g_suggestions := None |}
  ∧ ∃ v,
      (verify_and_format (llm_answering "Rocq is a proof assistant.") "What is Rocq?"
         (sample_plan [github_step; news_step]) mixed_report start).1 = Some v
      ∧ v_is_complete v = false
      ∧ v_total_steps v = Some (Z.of_nat (length (x_step_results mixed_report))).
Proof.
  assert (Exists (λ r, r_success r = true) (x_step_results mixed_report)) as Hok
    by (vm_compute; apply Exists_cons_hd; reflexivity).
  split; [exact Hok|]. split; [reflexivity|].
  destruct (generated_reply_is_passed_on (llm_answering "Rocq is a proof assistant.")
              "What is Rocq?" (sample_plan [github_step; news_step]) mixed_report
              start _ Hok eq_refl) as (v & Hv & Hcomplete & _ & _ & Htotal & _).
  exists v. split; [exact Hv|]. split; [exact Hcomplete | exact Htotal].
Defined.

(** X16, witness: retrying the failed news step as the verifier reports it. *)
Lemma retrying_a_reported_step_calls_nothing_witness :
  sample_registry !! str_lower "" = None
  ∧ reported_failure
    ∈ get_steps_to_retry
        (_format_all_failed "Any news about proofs?" [reported_failure])
  ∧ execute_single_step sample_registry 3 no_pause
      (step_of_failed reported_failure) start
    = ({| r_step_id := PInt 3; r_tool := str_lower ""; r_function := "";
          r_action := "Search news about proofs"; r_success := false;
          r_data := PNone;
          r_error := PStr ("Unknown tool: " +:+ str_lower ""); r_attempts := 0 |},
       start).
Proof.
  split; [reflexivity|]. split; [apply list_elem_of_here|].
  apply (retrying_a_reported_step_calls_nothing sample_registry 3 no_pause
           (_format_all_failed "Any news about proofs?" [reported_failure])
           reported_failure start);
    [reflexivity | apply list_elem_of_here].
Defined.

(** X17, witness: a request whose plan has a successful and a failed step,
    answered by the fallback. *)
Lemma response_success_flag_witness :
  ∃ response,
    (process_query sample_registry 3 no_pause no_clock llm_down sample_strip
       (planner_returning [github_step; news_step]) sample_fault_text
       "  What is Rocq?  " start).1 = inr response
    ∧ q_execution_results response ≠ []
    ∧ (q_success response = true
       ↔ Exists (λ r, r_success r = true) (q_execution_results response)).
Proof.
  destruct ((process_query sample_registry 3 no_pause no_clock llm_down sample_strip
               (planner_returning [github_step; news_step]) sample_fault_text
               "  What is Rocq?  " start).1)
    as [e|response] eqn:Hrun; [vm_compute in Hrun; discriminate|].
  exists response. split; [reflexivity|].
  apply response_success_flag in Hrun. exact Hrun.
Defined.

(** X18, witness: the same request with a client that answers. *)
Lemma response_metadata_agree_witness :
  ∃ response,
    (process_query sample_registry 3 no_pause no_clock
       (llm_answering "Rocq is a proof assistant.") sample_strip
       (planner_returning [github_step; news_step]) sample_fault_text
       "  What is Rocq?  " start).1 = inr response
    ∧ q_query response = sample_strip "  What is Rocq?  "
    ∧ m_successful_steps (q_metadata response) + m_failed_steps (q_metadata response)
      = m_steps_executed (q_metadata response).
Proof.
  destruct ((process_query sample_registry 3 no_pause no_clock
               (llm_answering "Rocq is a proof assistant.") sample_strip
               (planner_returning [github_step; news_step]) sample_fault_text
               "  What is Rocq?  " start).1)
    as [e|response] eqn:Hrun; [vm_compute in Hrun; discriminate|].
  exists response. split; [reflexivity|].
  apply response_metadata_agree in Hrun. cbv zeta in Hrun.
  destruct Hrun as (Hquery & _ & _ & _ & _ & Hsum).
  split; [exact Hquery | exact Hsum].
Defined.


(** X22, witness: five articles followed by an entry that is no article. *)
Lemma news_formatter_reads_five_articles_witness :
  _format_news_data
    (PDict [("articles", PList (replicate 5 sample_article ++ [PInt 0])%list)])
  = _format_news_data (PDict [("articles", PList (replicate 5 sample_article))]).
Proof.
  apply (news_formatter_reads_five_articles
           [("articles", PList (replicate 5 sample_article ++ [PInt 0])%list)]
           [("articles", PList (replicate 5 sample_article))]
           (replicate 5 sample_article) [PInt 0]); reflexivity.
Defined.

(** X23, witness: five repositories followed by an entry that is none. *)
Lemma github_formatter_reads_five_repositories_witness :
  _format_github_data
    (PDict [("repositories", PList (replicate 5 sample_repository ++ [PInt 0])%list)])
  = _format_github_data
      (PDict [("repositories", PList (replicate 5 sample_repository))]).
Proof.
  apply (github_formatter_reads_five_repositories
           [("repositories", PList (replicate 5 sample_repository ++ [PInt 0])%list)]
           [("repositories", PList (replicate 5 sample_repository))]
           (replicate 5 sample_repository) [PInt 0]); reflexivity.
Defined.

(** X24, witness: the second article is a number. *)
Lemma news_formatter_faults_witness :
  dict_get "articles" [("articles", PList [sample_article; PInt 1])]
    = Some (PList [sample_article; PInt 1])
  ∧ _format_news_data (PDict [("articles", PList [sample_article; PInt 1])]) = None.
Proof.
  split; [reflexivity|].
  apply (news_formatter_faults [("articles", PList [sample_article; PInt 1])]
           [sample_article; PInt 1] eq_refl).
  apply Exists_cons_tl, Exists_cons_hd. reflexivity.
Defined.



(** X28, witness: a repository whose languages and contributors are not
    found. *)
Lemma details_tolerate_secondary_failures_witness :
  ∃ repository,
    get_repository_details sample_api (PStr "octocat") (PStr "alpha") 0%nat
    = (Some (PDict [("success", PBool true); ("repository", PDict repository)]),
       3%nat)
    ∧ dict_get "languages" repository = Some (PDict [])
    ∧ dict_get "top_contributors" repository = Some (PList []).
Proof.
  apply (details_tolerate_secondary_failures sample_api (PStr "octocat")
           (PStr "alpha") 0%nat
           [("name", PStr "alpha"); ("full_name", PStr "octocat/alpha");
            ("owner", PDict [("login", PStr "octocat")]);
            ("stargazers_count", PInt 12); ("forks_count", PInt 3);
            ("license", PNone)]); reflexivity.
Defined.

(** X29, witness: the payload of a search with two results. *)
Lemma github_payloads_are_formatted_witness :
  ∃ payload,
    (search_repositories (replying search_reply) (PStr "octocat") 5 0%nat).1
      = Some payload
    ∧ py_in "error" payload = Some false
    ∧ is_Some (_format_github_data payload).
Proof.
  destruct ((search_repositories (replying search_reply) (PStr "octocat") 5 0%nat).1)
    as [payload|] eqn:Hrun; [|vm_compute in Hrun; discriminate].
  assert (py_in "error" payload = Some false) as Hpayload.
  { vm_compute in Hrun. injection Hrun as <-. reflexivity. }
  exists payload. split; [reflexivity|]. split; [exact Hpayload|].
  apply (github_payloads_are_formatted (replying search_reply) payload);
    [|exact Hpayload].
  left. exists (PStr "octocat"), 5, 0%nat. exact Hrun.
Defined.

(** X30, witness: a repository without description and language. *)
Lemma listed_repositories_render_missing_fields_as_None_witness :
  ∃ entry,
    search_entry (raw_repository "alpha") = Some entry
    ∧ github_repo_lines entry
      = Some [ "- **octocat/alpha**: None"; "  ⭐ 12 | 🍴 3 | Language: None" ].
Proof.
  destruct (search_entry (raw_repository "alpha")) as [entry|] eqn:Hentry;
    [|vm_compute in Hentry; discriminate].
  exists entry. split; [reflexivity|].
  destruct (listed_repositories_render_missing_fields_as_None
              (raw_repository "alpha") entry (or_introl Hentry))
    as (d & Hd & Hlines).
  injection Hd as <-. rewrite Hlines. reflexivity.
Defined.
